(** * JobSprint continuous multi-user search engine: model and properties

    A shallow embedding of [src/continuous_search_engine.py] (class
    [ContinuousSearchEngine]), of the part of [src/multi_user_system.py] it
    talks to, and of [LinkedInScraperFree.method_1_guest_api] from
    [src/linkedin_scraper_free.py].

    Conventions.
    - A [datetime] is an integer number of microseconds (Python's resolution),
      a [timedelta] likewise; [timedelta.days] is the floor of the division by
      one day.
    - A Python [str] is a Rocq [string]; [str.lower] is modelled on ASCII
      letters in [PyStr.lower], which the engine and the examples run with;
      [ScoringLower] gives the scoring function over [str.lower] itself.
    - A [uuid.uuid4()] identifier is drawn from a counter kept with the
      database, so that identifiers are fresh.
    - sqlite3 calls are total: the [except] branches of the database helpers
      (I/O failure) are not modelled. *)

From Stdlib Require Import ZArith List String Ascii Bool Arith Lia.
Import ListNotations.
Local Open Scope string_scope.
Local Open Scope Z_scope.

Set Implicit Arguments.

(* ================================================================== *)
(** * Python strings *)

Module PyStr.

Definition lower_ascii (c : ascii) : ascii :=
  let n := nat_of_ascii c in
  if ((65 <=? n) && (n <=? 90))%nat then ascii_of_nat (n + 32) else c.

(** [s.lower()] *)
Fixpoint lower (s : string) : string :=
  match s with
  | EmptyString => EmptyString
  | String c r => String (lower_ascii c) (lower r)
  end.

(** [needle in hay] *)
Fixpoint contains (needle hay : string) : bool :=
  String.prefix needle hay ||
  match hay with
  | EmptyString => false
  | String _ r => contains needle r
  end.

(** [sep.join(parts)] *)
Definition join (sep : string) (parts : list string) : string :=
  String.concat sep parts.

(** truthiness of a [str] *)
Definition truthy (s : string) : bool :=
  match s with EmptyString => false | _ => true end.

End PyStr.

(* ================================================================== *)
(** * Time *)

Definition minute_us : Z := 60 * 1000000.
Definition day_us : Z := 86400 * 1000000.

(** [(a - b).days] *)
Definition timedelta_days (a b : Z) : Z := (a - b) / day_us.

(** A computation that may call [datetime.now()]: it is run against the
    reading of the process clock. *)
Definition WallClock (A : Type) : Type := Z -> A.
Definition datetime_now : WallClock Z := fun clock => clock.

(* ================================================================== *)
(** * Data model *)

(** The [posted_date] cell of a job row, as [calculate_quality_score] tells the
    cases apart. *)
Inductive PostedDate : Type :=
| NoDate                 (* key absent, [None] or the empty string: falsy *)
| NonStrDate             (* a truthy value that is not a [str] *)
| BadDate                (* a [str] that [datetime.fromisoformat] rejects *)
| IsoDate (t : Z).       (* a [str] that parses to the naive datetime [t] *)

(** One row of a jobs [DataFrame] (one dict returned by [parse_job_card], plus
    the columns the engine adds). *)
Record JobRow : Type := {
  title : string;
  company : string;
  location : string;
  job_url : option string;       (* [None]: no [href] on the card *)
  posted_date : PostedDate;
  site_source : option string;   (* the scraper never sets this column *)
  salary_min : option Z;         (* [None]: NaN *)
  quality_score : Z
}.

Definition set_quality_score (r : JobRow) (q : Z) : JobRow :=
  {| title := title r; company := company r; location := location r;
     job_url := job_url r; posted_date := posted_date r;
     site_source := site_source r; salary_min := salary_min r;
     quality_score := q |}.

(** A [DataFrame] of job rows: which of the optional columns exist, and the
    rows in order. *)
Record DataFrame : Type := {
  has_quality_score : bool;
  has_salary_min : bool;
  rows : list JobRow
}.

Definition empty_frame : DataFrame :=
  {| has_quality_score := false; has_salary_min := false; rows := [] |}.

Definition df_empty (df : DataFrame) : bool :=
  match rows df with [] => true | _ => false end.

Definition df_len (df : DataFrame) : nat := List.length (rows df).

Definition with_rows (df : DataFrame) (rs : list JobRow) : DataFrame :=
  {| has_quality_score := has_quality_score df;
     has_salary_min := has_salary_min df; rows := rs |}.

Record User : Type := {
  id : string;
  email : string;
  name : string;
  is_active : bool;
  is_admin : bool
}.

Record UserPreferences : Type := {
  user_id : string;
  keywords : list string;
  exclude_keywords : list string;
  locations : list string;
  min_salary : Z;
  max_salary : Z;
  sites_enabled : list string;
  search_frequency_minutes : Z;
  linkedin_quality_threshold : Z;
  max_hours_old : Z;
  time_filter : string;
  work_type : string;
  ultra_recent_mode : bool;
  first_applicant_mode : bool
}.

Definition set_threshold (p : UserPreferences) (thr : Z) : UserPreferences :=
  {| user_id := user_id p; keywords := keywords p;
     exclude_keywords := exclude_keywords p; locations := locations p;
     min_salary := min_salary p; max_salary := max_salary p;
     sites_enabled := sites_enabled p;
     search_frequency_minutes := search_frequency_minutes p;
     linkedin_quality_threshold := thr;
     max_hours_old := max_hours_old p; time_filter := time_filter p;
     work_type := work_type p; ultra_recent_mode := ultra_recent_mode p;
     first_applicant_mode := first_applicant_mode p |}.

(* ================================================================== *)
(** * Scoring: [ContinuousSearchEngine.calculate_quality_score] *)

Module Scoring.

Definition reputable_companies : list string :=
  ["google"; "microsoft"; "amazon"; "apple"; "meta"; "netflix"; "uber";
   "airbnb"].

(** The loop counting [keyword_matches]. *)
Definition count_keyword_matches (kws : list string) (title_l : string) : Z :=
  fold_left
    (fun matches kw =>
       if PyStr.contains (PyStr.lower kw) title_l then matches + 1
       else matches)
    kws 0.

(** The loop over [preferences.locations], which stops at the first hit. *)
Fixpoint add_location_points (locs : list string) (location_l : string)
         (score : Z) : Z :=
  match locs with
  | [] => score
  | pref_location :: rest =>
      if PyStr.contains (PyStr.lower pref_location) location_l
      then score + 20
      else add_location_points rest location_l score
  end.

(** The freshness block, the clock being read when the date parses. *)
Definition add_freshness_points (pd : PostedDate) (score : Z) : WallClock Z :=
  fun clock =>
    match pd with
    | IsoDate job_date =>
        let days_old := timedelta_days (datetime_now clock) job_date in
        if days_old <=? 1 then score + 10
        else if days_old <=? 3 then score + 5
        else score
    | NoDate | NonStrDate | BadDate => score
    end.

(** The loop over [preferences.exclude_keywords]; it has no [break]. *)
Definition subtract_exclude_points (excl : list string) (title_l : string)
           (score : Z) : Z :=
  fold_left
    (fun sc kw =>
       if PyStr.contains (PyStr.lower kw) title_l then sc - 20 else sc)
    excl score.

Definition calculate_quality_score (job_row : JobRow)
           (preferences : UserPreferences) : WallClock Z :=
  fun clock =>
    let score := 50 in
    let title_l := PyStr.lower (title job_row) in
    let company_l := PyStr.lower (company job_row) in
    let location_l := PyStr.lower (location job_row) in
    let keyword_matches :=
      count_keyword_matches (keywords preferences) title_l in
    let score :=
      if 0 <? keyword_matches
      then score + Z.min 30 (keyword_matches * 10) else score in
    let score :=
      add_location_points (locations preferences) location_l score in
    let score :=
      if existsb (fun comp => PyStr.contains comp company_l)
                 reputable_companies
      then score + 10 else score in
    let score := add_freshness_points (posted_date job_row) score clock in
    let score :=
      subtract_exclude_points (exclude_keywords preferences) title_l score in
    Z.min 100 (Z.max 0 score).

(** ** The score as the specification words it *)

Definition clamp (x : Z) : Z := Z.min 100 (Z.max 0 x).

Definition matching (kws : list string) (text_l : string) : list string :=
  filter (fun kw => PyStr.contains (PyStr.lower kw) text_l) kws.

Definition keyword_points (p : UserPreferences) (r : JobRow) : Z :=
  Z.min 30 (10 * Z.of_nat (List.length
                             (matching (keywords p) (PyStr.lower (title r))))).

Definition location_points (p : UserPreferences) (r : JobRow) : Z :=
  if existsb (fun l => PyStr.contains (PyStr.lower l)
                                      (PyStr.lower (location r)))
             (locations p)
  then 20 else 0.

Definition employer_points (r : JobRow) : Z :=
  if existsb (fun comp => PyStr.contains comp (PyStr.lower (company r)))
             reputable_companies
  then 10 else 0.

Definition recency_points (r : JobRow) (now : Z) : Z :=
  match posted_date r with
  | IsoDate t =>
      if timedelta_days now t <=? 1 then 10
      else if timedelta_days now t <=? 3 then 5 else 0
  | _ => 0
  end.

Definition exclude_hits (p : UserPreferences) (r : JobRow) : Z :=
  Z.of_nat (List.length
              (matching (exclude_keywords p) (PyStr.lower (title r)))).

(** Everything but the recency bonus. *)
Definition static_points (p : UserPreferences) (r : JobRow) : Z :=
  50 + keyword_points p r + location_points p r + employer_points r
  - 20 * exclude_hits p r.

(** The formula of the specification: one penalty of 20 however many
    exclude keywords occur. *)
Definition spec_quality_score (r : JobRow) (p : UserPreferences) (now : Z)
  : Z :=
  clamp (50 + keyword_points p r + location_points p r + employer_points r
         + recency_points r now
         - (if 0 <? exclude_hits p r then 20 else 0)).

End Scoring.

(* ================================================================== *)
(** * Scoring over Python's own [str.lower] *)

(** [Scoring] lowers with [PyStr.lower], which is [str.lower] on ASCII text.
    Here the same function is given over [lower], which stands for
    [str.lower] itself, whatever it does to letters outside ASCII. A string
    is read as its UTF-8 bytes, on which [needle in hay] is
    [PyStr.contains]. The freshness block and the allow-list do not lower
    anything and are those of [Scoring]. *)
Module ScoringLower.

Section Lower.

(** [s.lower()] *)
Variable lower : string -> string.

(** The loop counting [keyword_matches]. *)
Definition count_keyword_matches (kws : list string) (title_l : string) : Z :=
  fold_left
    (fun matches kw =>
       if PyStr.contains (lower kw) title_l then matches + 1 else matches)
    kws 0.

(** The loop over [preferences.locations], which stops at the first hit. *)
Fixpoint add_location_points (locs : list string) (location_l : string)
         (score : Z) : Z :=
  match locs with
  | [] => score
  | pref_location :: rest =>
      if PyStr.contains (lower pref_location) location_l
      then score + 20
      else add_location_points rest location_l score
  end.

(** The loop over [preferences.exclude_keywords]; it has no [break]. *)
Definition subtract_exclude_points (excl : list string) (title_l : string)
           (score : Z) : Z :=
  fold_left
    (fun sc kw =>
       if PyStr.contains (lower kw) title_l then sc - 20 else sc)
    excl score.

Definition calculate_quality_score (job_row : JobRow)
           (preferences : UserPreferences) : WallClock Z :=
  fun clock =>
    let score := 50 in
    let title_l := lower (title job_row) in
    let company_l := lower (company job_row) in
    let location_l := lower (location job_row) in
    let keyword_matches :=
      count_keyword_matches (keywords preferences) title_l in
    let score :=
      if 0 <? keyword_matches
      then score + Z.min 30 (keyword_matches * 10) else score in
    let score :=
      add_location_points (locations preferences) location_l score in
    let score :=
      if existsb (fun comp => PyStr.contains comp company_l)
                 Scoring.reputable_companies
      then score + 10 else score in
    let score :=
      Scoring.add_freshness_points (posted_date job_row) score clock in
    let score :=
      subtract_exclude_points (exclude_keywords preferences) title_l score in
    Z.min 100 (Z.max 0 score).

(** ** The components of the score, as the specification names them *)

(** The keywords of [kws] that occur, lowered, in [text_l]. *)
Definition matching (kws : list string) (text_l : string) : list string :=
  filter (fun kw => PyStr.contains (lower kw) text_l) kws.

Definition keyword_points (p : UserPreferences) (r : JobRow) : Z :=
  Z.min 30 (10 * Z.of_nat (List.length
                             (matching (keywords p) (lower (title r))))).

Definition location_points (p : UserPreferences) (r : JobRow) : Z :=
  if existsb (fun l => PyStr.contains (lower l) (lower (location r)))
             (locations p)
  then 20 else 0.

Definition employer_points (r : JobRow) : Z :=
  if existsb (fun comp => PyStr.contains comp (lower (company r)))
             Scoring.reputable_companies
  then 10 else 0.

Definition exclude_hits (p : UserPreferences) (r : JobRow) : Z :=
  Z.of_nat (List.length (matching (exclude_keywords p) (lower (title r)))).

End Lower.

End ScoringLower.

(* ================================================================== *)
(** * Filtering: [ContinuousSearchEngine.filter_jobs_for_user] *)

Section Filtering.

(** [Series.str.contains(pat, case=False, na=False)] on one cell: a
    case-insensitive regular-expression search, which is pandas' code. *)
Variable str_contains_nocase : string -> string -> bool.

Definition filter_jobs_for_user (jobs_df : DataFrame)
           (preferences : UserPreferences) : DataFrame :=
  if df_empty jobs_df then jobs_df
  else
    let filtered_jobs := rows jobs_df in
    let filtered_jobs :=
      if has_quality_score jobs_df
      then filter (fun r => linkedin_quality_threshold preferences
                            <=? quality_score r) filtered_jobs
      else filtered_jobs in
    let filtered_jobs :=
      if (0 <? min_salary preferences) && has_salary_min jobs_df
      then filter (fun r => match salary_min r with
                            | None => true
                            | Some s => min_salary preferences <=? s
                            end) filtered_jobs
      else filtered_jobs in
    let filtered_jobs :=
      match exclude_keywords preferences with
      | [] => filtered_jobs
      | _ :: _ =>
          let exclude_pattern :=
            PyStr.join "|" (exclude_keywords preferences) in
          filter (fun r => negb (str_contains_nocase exclude_pattern
                                                     (title r)))
                 filtered_jobs
      end in
    (* the job-age block computes [cutoff_time] and drops it *)
    with_rows jobs_df filtered_jobs.

(** The three tests a row has to pass, as one predicate. *)
Definition keeps (jobs_df : DataFrame) (preferences : UserPreferences)
           (r : JobRow) : bool :=
  (if has_quality_score jobs_df
   then linkedin_quality_threshold preferences <=? quality_score r
   else true)
  && (if (0 <? min_salary preferences) && has_salary_min jobs_df
      then match salary_min r with
           | None => true
           | Some s => min_salary preferences <=? s
           end
      else true)
  && match exclude_keywords preferences with
     | [] => true
     | _ :: _ =>
         negb (str_contains_nocase
                 (PyStr.join "|" (exclude_keywords preferences)) (title r))
     end.

End Filtering.

(* ================================================================== *)
(** * The record store: tables of [MultiUserManager.init_database] *)

(** A row of table [jobs]; [UNIQUE(external_id, site_source)], primary key
    [id]. *)
Record JobRec : Type := {
  j_id : nat;
  j_external_id : string;
  j_title : string;
  j_company : string;
  j_location : string;
  j_salary_min : option Z;
  j_job_url : string;
  j_site_source : string;
  j_quality_score : Z;
  j_posted_date : PostedDate
}.

(** A row of table [user_jobs]; [UNIQUE(user_id, job_id)], primary key [id]. *)
Record UserJob : Type := {
  uj_id : nat;
  uj_user_id : string;
  uj_job_id : nat;
  uj_is_notified : bool;
  uj_is_applied : bool;
  uj_is_saved : bool;
  uj_is_hidden : bool;
  uj_match_score : Z
}.

Record Database : Type := {
  users : list User;
  user_preferences : list UserPreferences;
  jobs : list JobRec;
  user_jobs : list UserJob;
  next_uuid : nat
}.

Definition set_jobs (d : Database) (js : list JobRec) : Database :=
  {| users := users d; user_preferences := user_preferences d; jobs := js;
     user_jobs := user_jobs d; next_uuid := next_uuid d |}.

Definition set_user_jobs (d : Database) (ujs : list UserJob) : Database :=
  {| users := users d; user_preferences := user_preferences d;
     jobs := jobs d; user_jobs := ujs; next_uuid := next_uuid d |}.

(** [str(uuid.uuid4())] *)
Definition uuid4 (d : Database) : nat * Database :=
  (next_uuid d,
   {| users := users d; user_preferences := user_preferences d;
      jobs := jobs d; user_jobs := user_jobs d;
      next_uuid := S (next_uuid d) |}).

Module Store.

Definition get_all_users (d : Database) : list User := users d.

Definition get_user_by_id (d : Database) (uid : string) : option User :=
  find (fun u => (id u =? uid)%string) (users d).

Definition get_user_preferences (d : Database) (uid : string)
  : option UserPreferences :=
  find (fun p => (user_id p =? uid)%string) (user_preferences d).

(** [SELECT uj.* FROM user_jobs uj JOIN jobs j ON uj.job_id = j.id
     WHERE uj.user_id = ? AND j.job_url = ?], first row. *)
Definition get_user_job_status (d : Database) (uid job_url : string)
  : option UserJob :=
  find (fun uj =>
          (uj_user_id uj =? uid)%string &&
          existsb (fun j => (j_id j =? uj_job_id uj)%nat &&
                            (j_job_url j =? job_url)%string) (jobs d))
       (user_jobs d).

End Store.

(* ================================================================== *)
(** * Deduplication and persistence *)

Module Persist.

(** The dict [job_data] built by [save_jobs_for_user]. *)
Record JobData : Type := {
  d_external_id : string;
  d_title : string;
  d_company : string;
  d_location : string;
  d_salary_min : option Z;
  d_job_url : string;
  d_site_source : string;
  d_quality_score : Z;
  d_posted_date : PostedDate
}.

Definition job_rec (job_id : nat) (jd : JobData) : JobRec :=
  {| j_id := job_id; j_external_id := d_external_id jd;
     j_title := d_title jd; j_company := d_company jd;
     j_location := d_location jd; j_salary_min := d_salary_min jd;
     j_job_url := d_job_url jd; j_site_source := d_site_source jd;
     j_quality_score := d_quality_score jd;
     j_posted_date := d_posted_date jd |}.

(** Does [INSERT OR IGNORE INTO jobs] skip the row? *)
Definition job_conflict (d : Database) (r : JobRec) : bool :=
  existsb (fun j => (j_id j =? j_id r)%nat ||
                    ((j_external_id j =? j_external_id r)%string &&
                     (j_site_source j =? j_site_source r)%string))
          (jobs d).

Definition get_existing_job_id (d : Database) (job_url : string)
  : option nat :=
  option_map j_id (find (fun j => (j_job_url j =? job_url)%string) (jobs d)).

Definition save_job_to_db (d : Database) (job_data : JobData)
  : Database * option nat :=
  let '(job_id, d) := uuid4 d in
  let r := job_rec job_id job_data in
  let success := negb (job_conflict d r) in
  if success then (set_jobs d (jobs d ++ [r])%list, Some job_id)
  else (d, get_existing_job_id d (d_job_url job_data)).

(** Does [INSERT OR IGNORE INTO user_jobs] skip the row? *)
Definition link_conflict (d : Database) (r : UserJob) : bool :=
  existsb (fun uj => (uj_id uj =? uj_id r)%nat ||
                     ((uj_user_id uj =? uj_user_id r)%string &&
                      (uj_job_id uj =? uj_job_id r)%nat))
          (user_jobs d).

Definition create_user_job_relationship (d : Database) (uid : string)
           (job_id : nat) (match_score : Z) : Database * bool :=
  let '(relationship_id, d) := uuid4 d in
  let r := {| uj_id := relationship_id; uj_user_id := uid;
              uj_job_id := job_id; uj_is_notified := false;
              uj_is_applied := false; uj_is_saved := false;
              uj_is_hidden := false; uj_match_score := match_score |} in
  let success := negb (link_conflict d r) in
  let d := if success then set_user_jobs d (user_jobs d ++ [r])%list else d in
  (d, true).

(** [job.get('quality_score', 0)] on a row of [jobs_df]. *)
Definition row_quality_score (jobs_df : DataFrame) (job : JobRow) : Z :=
  if has_quality_score jobs_df then quality_score job else 0.

Definition make_job_data (jobs_df : DataFrame) (job : JobRow)
           (url : string) : JobData :=
  {| d_external_id := url; d_title := title job; d_company := company job;
     d_location := location job;
     d_salary_min := if has_salary_min jobs_df then salary_min job
                     else None;
     d_job_url := url;
     d_site_source := match site_source job with
                      | Some s => s
                      | None => "linkedin"
                      end;
     d_quality_score := row_quality_score jobs_df job;
     d_posted_date := posted_date job |}.

(** The [job_url] of a row when it is there and not empty. *)
Definition usable_url (job : JobRow) : option string :=
  match job_url job with
  | Some url => if PyStr.truthy url then Some url else None
  | None => None
  end.

Definition has_url (job : JobRow) : bool :=
  match usable_url job with Some _ => true | None => false end.

(** One turn of the loop of [save_jobs_for_user]: the store and the list
    [new_jobs] before and after. *)
Definition save_one (uid : string) (jobs_df : DataFrame)
           (acc : Database * list JobRow) (job : JobRow)
  : Database * list JobRow :=
  let '(d, new_jobs) := acc in
  match usable_url job with
  | None => (d, new_jobs)                               (* [continue] *)
  | Some url =>
      match Store.get_user_job_status d uid url with
      | Some _ => (d, new_jobs)                         (* duplicate *)
      | None =>
          let '(d, job_id) :=
            save_job_to_db d (make_job_data jobs_df job url) in
          match job_id with
          | Some jid =>
              let '(d, relationship_created) :=
                create_user_job_relationship
                  d uid jid (row_quality_score jobs_df job) in
              if relationship_created then (d, (new_jobs ++ [job])%list)
              else (d, new_jobs)
          | None => (d, new_jobs)
          end
      end
  end.

Definition save_jobs_for_user (d : Database) (uid : string)
           (jobs_df : DataFrame) : Database * DataFrame :=
  if df_empty jobs_df then (d, empty_frame)
  else
    let '(d, new_jobs) :=
      fold_left (save_one uid jobs_df) (rows jobs_df) (d, []) in
    (d, match new_jobs with
        | [] => empty_frame
        | _ :: _ => with_rows jobs_df new_jobs
        end).

(** Is there a [user_jobs] row joining the user to a job with this URL? *)
Definition linked (d : Database) (uid url : string) : bool :=
  match Store.get_user_job_status d uid url with
  | Some _ => true
  | None => false
  end.

(** What holds of every store the engine has written: the [external_id] of
    a job is its [job_url] (see [job_data]), and the identifiers in use
    were drawn before. *)
Definition db_wf (d : Database) : Prop :=
  (forall j, In j (jobs d) ->
             j_external_id j = j_job_url j /\ (j_id j < next_uuid d)%nat)
  /\ (forall uj, In uj (user_jobs d) -> (uj_id uj < next_uuid d)%nat).

(** The store [d'] has the rows of [d], and maybe more jobs and links. *)
Definition extends (d d' : Database) : Prop :=
  users d' = users d
  /\ user_preferences d' = user_preferences d
  /\ incl (jobs d) (jobs d')
  /\ incl (user_jobs d) (user_jobs d')
  /\ (next_uuid d <= next_uuid d')%nat.

End Persist.

(* ================================================================== *)
(** * The source adapter: [LinkedInScraperFree.method_1_guest_api] *)

Module Adapter.

(** What [self.session.get(url, timeout=15)] and the parsing of the page
    give: a status code and the cards of the page, each already through
    [parse_job_card] ([None] when that returns [None]); or an exception. *)
Inductive Response : Type :=
| HttpResponse (status_code : Z) (job_cards : list (option JobRow))
| RequestException.

(** The upstream source seen from one call of the method: the answer to the
    [n]-th GET it issues, asked with offset [start]. *)
Definition Server : Type := nat -> Z -> Response.

(** The [for card in job_cards] loop. *)
Fixpoint add_cards (max_results : nat) (job_cards : list (option JobRow))
         (jobs : list JobRow) : list JobRow :=
  match job_cards with
  | [] => jobs
  | card :: rest =>
      let jobs := match card with
                  | Some job => (jobs ++ [job])%list
                  | None => jobs
                  end in
      if (max_results <=? List.length jobs)%nat then jobs
      else add_cards max_results rest jobs
  end.

(** The [while] loop; [fuel] bounds the number of turns, [None] means the
    bound was hit with the loop still running. The result is the list
    [jobs] and the number of GETs issued. *)
Fixpoint pagination_loop (fuel : nat) (server : Server) (max_results : nat)
         (jobs : list JobRow) (start : Z) (gets : nat)
  : option (list JobRow * nat) :=
  if ((List.length jobs <? max_results)%nat && (start <? 200))%bool then
    match fuel with
    | O => None
    | S fuel =>
        match server gets start with
        | RequestException => Some (jobs, S gets)            (* [break] *)
        | HttpResponse status_code job_cards =>
            if status_code =? 429 then
              (* sleep 30 to 60 seconds, then [continue] *)
              pagination_loop fuel server max_results jobs start (S gets)
            else if negb (status_code =? 200) then Some (jobs, S gets)
            else
              match job_cards with
              | [] => Some (jobs, S gets)                    (* [break] *)
              | _ :: _ =>
                  pagination_loop fuel server max_results
                                  (add_cards max_results job_cards jobs)
                                  (start + 25) (S gets)
              end
        end
    end
  else Some (jobs, gets).

Definition method_1_guest_api (fuel : nat) (server : Server)
           (max_results : nat) : option (list JobRow * nat) :=
  pagination_loop fuel server max_results [] 0 0.

Definition is_429 (r : Response) : bool :=
  match r with
  | HttpResponse status_code _ => status_code =? 429
  | RequestException => false
  end.

(** From its [n]-th GET on, the source no longer answers 429. *)
Definition quiet_from (n : nat) (server : Server) : Prop :=
  forall (k : nat) (start : Z),
    (n <= k)%nat -> is_429 (server k start) = false.

(** The pages still to fetch from offset [start]: the offsets step by 25
    and stay below 200. *)
Definition pages_left (start : Z) : nat := Z.to_nat ((224 - start) / 25).

(** A source that answers every GET with 429. *)
Definition always_429 : Server := fun _ _ => HttpResponse 429 [].

(** A source with nothing to show: 200 and an empty page. *)
Definition empty_pages : Server := fun _ _ => HttpResponse 200 [].

End Adapter.

(* ================================================================== *)
(** * The engine: state of a [ContinuousSearchEngine] *)

Record Email : Type := {
  recipient : string;
  jobs_announced : nat
}.

(** An entry of the [schedule] module's job list. *)
Record ScheduledJob : Type := {
  interval_minutes : Z;
  sj_user_id : string;
  sj_tag : string;
  next_run : Z
}.

(** The object's fields, the job list of module [schedule], and four
    counters that observe the run: the messages SMTP accepted, the calls of
    [send_job_notifications], the GETs sent to the source and the calls of
    [check_rate_limit] that returned [True]. *)
Record Engine : Type := {
  db : Database;
  email_configured : bool;
  is_running : bool;
  linkedin_requests_per_minute : nat;
  linkedin_last_requests : list Z;
  last_search_times : list (string * Z);
  schedule_jobs : list ScheduledJob;
  outbox : list Email;
  notify_calls : nat;
  http_gets : nat;
  acquired : nat
}.

Definition set_db (e : Engine) (d : Database) : Engine :=
  {| db := d; email_configured := email_configured e;
     is_running := is_running e;
     linkedin_requests_per_minute := linkedin_requests_per_minute e;
     linkedin_last_requests := linkedin_last_requests e;
     last_search_times := last_search_times e;
     schedule_jobs := schedule_jobs e; outbox := outbox e;
     notify_calls := notify_calls e; http_gets := http_gets e;
     acquired := acquired e |}.

(** Assignment to [self.linkedin_last_requests]; [acq] is 1 when the call
    of the gateway is granted, and is added to the counter of grants. *)
Definition set_last_requests (e : Engine) (l : list Z) (acq : nat) : Engine :=
  {| db := db e; email_configured := email_configured e;
     is_running := is_running e;
     linkedin_requests_per_minute := linkedin_requests_per_minute e;
     linkedin_last_requests := l;
     last_search_times := last_search_times e;
     schedule_jobs := schedule_jobs e; outbox := outbox e;
     notify_calls := notify_calls e; http_gets := http_gets e;
     acquired := acquired e + acq |}.

Definition set_last_search_time (e : Engine) (uid : string) (t : Z) : Engine :=
  {| db := db e; email_configured := email_configured e;
     is_running := is_running e;
     linkedin_requests_per_minute := linkedin_requests_per_minute e;
     linkedin_last_requests := linkedin_last_requests e;
     last_search_times := (uid, t) :: last_search_times e;
     schedule_jobs := schedule_jobs e; outbox := outbox e;
     notify_calls := notify_calls e; http_gets := http_gets e;
     acquired := acquired e |}.

Definition set_schedule (e : Engine) (running : bool)
           (js : list ScheduledJob) : Engine :=
  {| db := db e; email_configured := email_configured e;
     is_running := running;
     linkedin_requests_per_minute := linkedin_requests_per_minute e;
     linkedin_last_requests := linkedin_last_requests e;
     last_search_times := last_search_times e;
     schedule_jobs := js; outbox := outbox e;
     notify_calls := notify_calls e; http_gets := http_gets e;
     acquired := acquired e |}.

Definition note_notify_call (e : Engine) : Engine :=
  {| db := db e; email_configured := email_configured e;
     is_running := is_running e;
     linkedin_requests_per_minute := linkedin_requests_per_minute e;
     linkedin_last_requests := linkedin_last_requests e;
     last_search_times := last_search_times e;
     schedule_jobs := schedule_jobs e; outbox := outbox e;
     notify_calls := S (notify_calls e); http_gets := http_gets e;
     acquired := acquired e |}.

Definition note_sent (e : Engine) (m : Email) : Engine :=
  {| db := db e; email_configured := email_configured e;
     is_running := is_running e;
     linkedin_requests_per_minute := linkedin_requests_per_minute e;
     linkedin_last_requests := linkedin_last_requests e;
     last_search_times := last_search_times e;
     schedule_jobs := schedule_jobs e; outbox := (outbox e ++ [m])%list;
     notify_calls := notify_calls e; http_gets := http_gets e;
     acquired := acquired e |}.

Definition note_gets (e : Engine) (n : nat) : Engine :=
  {| db := db e; email_configured := email_configured e;
     is_running := is_running e;
     linkedin_requests_per_minute := linkedin_requests_per_minute e;
     linkedin_last_requests := linkedin_last_requests e;
     last_search_times := last_search_times e;
     schedule_jobs := schedule_jobs e; outbox := outbox e;
     notify_calls := notify_calls e; http_gets := http_gets e + n;
     acquired := acquired e |}.

(* ================================================================== *)
(** * The rate gateway: [ContinuousSearchEngine.check_rate_limit] *)

Module Gateway.

(** [now - req_time < timedelta(minutes=1)] *)
Definition recent (now req_time : Z) : bool := now - req_time <? minute_us.

Definition check_rate_limit (e : Engine) : WallClock (bool * Engine) :=
  fun clock =>
    let now := datetime_now clock in
    let kept := filter (recent now) (linkedin_last_requests e) in
    if (linkedin_requests_per_minute e <=? List.length kept)%nat
    then (false, set_last_requests e kept 0)
    else (true, set_last_requests e (kept ++ [now])%list 1).

(** A run of calls, one per clock reading, with the answers in order. *)
Fixpoint acquire_all (e : Engine) (times : list Z) : list bool * Engine :=
  match times with
  | [] => ([], e)
  | t :: rest =>
      let '(ok, e) := check_rate_limit e t in
      let '(oks, e) := acquire_all e rest in
      (ok :: oks, e)
  end.

(** The gateway by the history of its granted calls and the test of the
    code: the call at [now] is granted exactly when fewer than [ceiling] of
    the calls granted so far pass [recent now]; [granted] is every granted
    call, never pruned. *)
Fixpoint spec_acquire_all (ceiling : nat) (granted : list Z)
         (times : list Z) : list bool :=
  match times with
  | [] => []
  | now :: rest =>
      if (List.length (filter (recent now) granted) <? ceiling)%nat
      then true :: spec_acquire_all ceiling (granted ++ [now])%list rest
      else false :: spec_acquire_all ceiling granted rest
  end.

(** "Within the preceding 60 seconds" of a call at [now], as the
    specification words it: not after [now], and less than 60 seconds before
    it. *)
Definition in_preceding_minute (now req_time : Z) : bool :=
  (req_time <=? now) && (now - req_time <? minute_us).

(** The gateway as the specification words it: the call at [now] is granted
    exactly when fewer than [ceiling] of the calls granted so far lie within
    the preceding 60 seconds. *)
Fixpoint sliding_window_rule (ceiling : nat) (granted : list Z)
         (times : list Z) : list bool :=
  match times with
  | [] => []
  | now :: rest =>
      if (List.length (filter (in_preceding_minute now) granted)
          <? ceiling)%nat
      then true :: sliding_window_rule ceiling (granted ++ [now])%list rest
      else false :: sliding_window_rule ceiling granted rest
  end.

(** The readings of the calls that were answered [true]. *)
Fixpoint granted_readings (times : list Z) (answers : list bool) : list Z :=
  match times, answers with
  | t :: ts, ok :: oks =>
      if ok then t :: granted_readings ts oks else granted_readings ts oks
  | _, _ => []
  end.

(** Clock readings taken one after the other, none before [from]. *)
Fixpoint chronological (from : Z) (times : list Z) : Prop :=
  match times with
  | [] => True
  | t :: rest => from <= t /\ chronological t rest
  end.

(** All readings lie in one window: any two are less than 60 seconds
    apart. *)
Definition one_window (times : list Z) : Prop :=
  forall a b : Z, In a times -> In b times -> a - b < minute_us.

(** The pruned list of the engine and the full history of granted calls
    show the same readings in every window that ends at [from] or later. *)
Definition same_view (from : Z) (kept granted : list Z) : Prop :=
  forall now : Z,
    from <= now -> filter (recent now) kept = filter (recent now) granted.

Definition fresh_engine (d : Database) (ceiling : nat) : Engine :=
  {| db := d; email_configured := true; is_running := false;
     linkedin_requests_per_minute := ceiling;
     linkedin_last_requests := []; last_search_times := [];
     schedule_jobs := []; outbox := []; notify_calls := 0;
     http_gets := 0; acquired := 0 |}.

End Gateway.

(* ================================================================== *)
(** * Notification: [ContinuousSearchEngine.send_job_notifications] *)

Section Notification.

(** The SMTP exchange of [send_email]: [true] when the message is accepted,
    [false] when [send_email] raises. *)
Variable smtp_accepts : Email -> bool.

Definition send_job_notifications (e : Engine) (user : User)
           (jobs_df : DataFrame) : Engine :=
  let e := note_notify_call e in
  if df_empty jobs_df then e
  else if negb (email_configured e) then e
  else
    let mail := {| recipient := email user;
                   jobs_announced := df_len jobs_df |} in
    if smtp_accepts mail then
      let e := note_sent e mail in
      (* "Mark jobs as notified": the body of the loop is [pass] *)
      fold_left (fun e _ => e) (rows jobs_df) e
    else e.                          (* the exception is caught and logged *)

End Notification.

(* ================================================================== *)
(** * One cycle: [ContinuousSearchEngine.search_jobs_for_user] *)

(** The readings of the clock during one cycle: in [check_rate_limit], in the
    scoring of row [i] of the result for keyword number [k] and location
    number [l], and at the end of the cycle. *)
Record CycleClock : Type := {
  t_rate_limit : Z;
  t_score : nat -> nat -> nat -> Z;
  t_done : Z
}.

Section Cycle.

Variable str_contains_nocase : string -> string -> bool.
Variable smtp_accepts : Email -> bool.

(** [self.linkedin_scraper.method_1_guest_api(keywords, location,
    max_results, time_filter, work_type)], when it returns: the list of
    jobs, and the number of GETs it sent. *)
Variable scrape :
  string -> string -> nat -> string -> string -> list JobRow * nat.

Definition effective_time_filter (preferences : UserPreferences) : string :=
  let time_filter := time_filter preferences in
  let time_filter :=
    if ultra_recent_mode preferences then "r600" else time_filter in
  if first_applicant_mode preferences then "r300" else time_filter.

(** [linkedin_jobs.apply(lambda row: self.calculate_quality_score(row,
    preferences), axis=1)], row [i] read at [now_at i]. *)
Fixpoint score_rows (preferences : UserPreferences) (now_at : nat -> Z)
         (i : nat) (rs : list JobRow) : list JobRow :=
  match rs with
  | [] => []
  | r :: rest =>
      set_quality_score
        r (Scoring.calculate_quality_score r preferences (now_at i))
      :: score_rows preferences now_at (S i) rest
  end.

(** The body of the two nested loops: what is appended to [all_jobs], and
    the GETs sent. *)
Definition search_pair (preferences : UserPreferences)
           (keyword location : string) (now_at : nat -> Z)
  : list DataFrame * nat :=
  if existsb (String.eqb "linkedin") (sites_enabled preferences) then
    let '(linkedin_jobs_list, gets) :=
      scrape keyword location 10%nat (effective_time_filter preferences)
             (work_type preferences) in
    match linkedin_jobs_list with
    | [] => ([], gets)
    | _ :: _ =>
        let linkedin_jobs :=
          {| has_quality_score := true; has_salary_min := false;
             rows := score_rows preferences now_at 0 linkedin_jobs_list |} in
        ([filter_jobs_for_user str_contains_nocase linkedin_jobs
                               preferences], gets)
    end
  else ([], 0%nat).

Fixpoint location_loop (preferences : UserPreferences) (keyword : string)
         (now_at : nat -> nat -> Z) (l : nat) (locs : list string)
  : list DataFrame * nat :=
  match locs with
  | [] => ([], 0%nat)
  | location :: rest =>
      let '(found, gets) :=
        search_pair preferences keyword location (now_at l) in
      let '(more, gets') :=
        location_loop preferences keyword now_at (S l) rest in
      ((found ++ more)%list, (gets + gets')%nat)
  end.

Fixpoint keyword_loop (preferences : UserPreferences)
         (now_at : nat -> nat -> nat -> Z) (k : nat) (kws : list string)
  : list DataFrame * nat :=
  match kws with
  | [] => ([], 0%nat)
  | keyword :: rest =>
      let '(found, gets) :=
        location_loop preferences keyword (now_at k) 0
                      (firstn 2 (locations preferences)) in
      let '(more, gets') :=
        keyword_loop preferences now_at (S k) rest in
      ((found ++ more)%list, (gets + gets')%nat)
  end.

(** [pd.concat(all_jobs, ignore_index=True)] *)
Definition pd_concat (frames : list DataFrame) : DataFrame :=
  {| has_quality_score := existsb has_quality_score frames;
     has_salary_min := existsb has_salary_min frames;
     rows := flat_map rows frames |}.

Definition same_url (a b : option string) : bool :=
  match a, b with
  | Some x, Some y => (x =? y)%string
  | None, None => true
  | _, _ => false
  end.

(** [drop_duplicates(subset=['job_url'], keep='first')] *)
Fixpoint drop_duplicates (seen : list (option string)) (rs : list JobRow)
  : list JobRow :=
  match rs with
  | [] => []
  | r :: rest =>
      if existsb (same_url (job_url r)) seen then drop_duplicates seen rest
      else r :: drop_duplicates (job_url r :: seen) rest
  end.

(** [combined_jobs]: the frames put together, then without duplicates. *)
Definition combine (all_jobs : list DataFrame) : DataFrame :=
  let combined_jobs := pd_concat all_jobs in
  with_rows combined_jobs (drop_duplicates [] (rows combined_jobs)).

(** The block under [if all_jobs:]. *)
Definition process_found (e : Engine) (user : User) (uid : string)
           (all_jobs : list DataFrame) : Engine :=
  match all_jobs with
  | [] => e
  | _ :: _ =>
      let combined_jobs := combine all_jobs in
      let '(d, new_jobs) :=
        Persist.save_jobs_for_user (db e) uid combined_jobs in
      let e := set_db e d in
      if (0 <? df_len new_jobs)%nat
      then send_job_notifications smtp_accepts e user new_jobs
      else e
  end.

(** The cycle from the search loops on, the gateway being passed. *)
Definition search_after_gate (e : Engine) (user : User)
           (preferences : UserPreferences) (uid : string)
           (clk : CycleClock) : Engine :=
  let '(all_jobs, gets) :=
    keyword_loop preferences (t_score clk) 0
                 (firstn 3 (keywords preferences)) in
  let e := note_gets e gets in
  let e := process_found e user uid all_jobs in
  set_last_search_time e uid (t_done clk).

Definition search_jobs_for_user (e : Engine) (uid : string)
           (clk : CycleClock) : Engine :=
  match Store.get_user_by_id (db e) uid with
  | None => e
  | Some user =>
      if negb (is_active user) then e
      else
        match Store.get_user_preferences (db e) uid with
        | None => e
        | Some preferences =>
            let '(ok, e) := Gateway.check_rate_limit e (t_rate_limit clk) in
            if negb ok then e
            else search_after_gate e user preferences uid clk
        end
  end.

End Cycle.

(* ================================================================== *)
(** * Scheduling: [schedule_user_searches] and [run_scheduler] *)

Section Scheduling.

(** Python's [hash] on the user identifier. *)
Variable py_hash : string -> Z.

(** [schedule.every(n).minutes.do(...).tag(t)] called at [now]: the job of
    the [schedule] package, first due one interval from now. *)
Definition every_minutes_do (now n : Z) (uid tag : string) : ScheduledJob :=
  {| interval_minutes := n; sj_user_id := uid; sj_tag := tag;
     next_run := now + n * minute_us |}.

(** The loop over [active_users]; the flag says that [hash(user.id) %
    frequency] raised [ZeroDivisionError], which ends the loop. *)
Fixpoint schedule_loop (d : Database) (now : Z) (active_users : list User)
         (registered : list ScheduledJob) : list ScheduledJob * bool :=
  match active_users with
  | [] => (registered, false)
  | user :: rest =>
      match Store.get_user_preferences d (id user) with
      | Some preferences =>
          let frequency := search_frequency_minutes preferences in
          if frequency =? 0 then (registered, true)
          else
            let delay_minutes := py_hash (id user) mod frequency in
            let job := every_minutes_do now frequency (id user)
                                        ("user_" ++ id user) in
            schedule_loop d now rest (registered ++ [job])%list
      | None => schedule_loop d now rest registered
      end
  end.

Definition schedule_user_searches (e : Engine) : WallClock (Engine * bool) :=
  fun clock =>
    let users := Store.get_all_users (db e) in
    let active_users := filter is_active users in
    let '(js, raised) :=
      schedule_loop (db e) (datetime_now clock) active_users
                    (schedule_jobs e) in
    (set_schedule e (is_running e) js, raised).

End Scheduling.

(** The period of the polling loop of [run_scheduler], in seconds. *)
Definition scheduler_tick_seconds : Z := 30.

(* ================================================================== *)
(** * The constraints of the schema *)

Module Schema.

(** The columns of [UNIQUE(external_id, site_source)] and of
    [UNIQUE(user_id, job_id)]. *)
Definition job_key (j : JobRec) : string * string :=
  (j_external_id j, j_site_source j).
Definition link_key (uj : UserJob) : string * nat :=
  (uj_user_id uj, uj_job_id uj).

(** The primary keys and the [UNIQUE] constraints of tables [jobs] and
    [user_jobs] hold. *)
Definition constraints_hold (d : Database) : Prop :=
  NoDup (map j_id (jobs d))
  /\ NoDup (map job_key (jobs d))
  /\ NoDup (map uj_id (user_jobs d))
  /\ NoDup (map link_key (user_jobs d)).

(** What holds of the store and of [new_jobs] during the loop of a save
    that started from the store [d0]. *)
Definition loop_invariant (d0 : Database) (uid : string)
           (all : list JobRow) (acc : Database * list JobRow) : Prop :=
  Persist.db_wf (fst acc) /\ constraints_hold (fst acc) /\ Persist.extends d0 (fst acc)
  /\ (forall r, In r (snd acc) ->
                In r all
                /\ exists url, Persist.usable_url r = Some url
                               /\ Persist.linked d0 uid url = false
                               /\ Persist.linked (fst acc) uid url = true)
  /\ NoDup (map job_url (snd acc))
  /\ (forall url, Persist.linked (fst acc) uid url = true ->
                  Persist.linked d0 uid url = true
                  \/ exists r, In r (snd acc) /\ Persist.usable_url r = Some url).

End Schema.

(* ================================================================== *)
(** * The scraper's entry point: [LinkedInScraperFree.scrape_jobs] *)

Module Scraper.

(** The jobs of a page: the cards or elements that parse. *)
Definition parsed (cards : list (option JobRow)) : list JobRow :=
  flat_map (fun card => match card with
                        | Some job => [job]
                        | None => []
                        end) cards.

(** What the browser gives to [method_2_selenium_stealth]: no driver
    ([create_stealth_driver] returned [None]); an exception while loading
    the page or finding the elements; or the elements found, each already
    through [parse_selenium_job] ([None] when that returns [None]). *)
Inductive Browser : Type :=
| NoDriver
| PageFailure
| Page (job_elements : list (option JobRow)).

Definition method_2_selenium_stealth (browser : Browser) (max_results : nat)
  : list JobRow :=
  match browser with
  | NoDriver => []
  | PageFailure => []                (* caught; [jobs] is still empty *)
  | Page job_elements => parsed (firstn max_results job_elements)
  end.

(** The answers that end the pagination of method 1: an exception, a status
    other than 200 and 429, or a page without cards. *)
Definition ends_pagination (r : Adapter.Response) : bool :=
  match r with
  | Adapter.RequestException => true
  | Adapter.HttpResponse status_code job_cards =>
      negb (status_code =? 429)
      && (negb (status_code =? 200)
          || match job_cards with [] => true | _ :: _ => false end)
  end.

(** [scrape_jobs]: the frame of unique jobs and the number of GETs of
    method 1; [None] when method 1 is still running after [fuel] turns. *)
Definition scrape_jobs (fuel : nat) (server : Adapter.Server)
           (browser : Browser) (max_results : nat)
  : option (DataFrame * nat) :=
  let half := (max_results / 2)%nat in
  match Adapter.method_1_guest_api fuel server half with
  | None => None
  | Some (jobs_1, gets) =>
      let all_jobs := jobs_1 in
      let all_jobs :=
        if (List.length all_jobs <? half)%nat
        then (all_jobs ++ method_2_selenium_stealth browser half)%list
        else all_jobs in
      (* the loop over [all_jobs] with the set [seen_urls] *)
      let unique_jobs := drop_duplicates [] all_jobs in
      Some ({| has_quality_score := false; has_salary_min := false;
               rows := unique_jobs |}, gets)
  end.

End Scraper.

(* ================================================================== *)
(** * Starting, stopping and reporting *)

Section Lifecycle.

Variable py_hash : string -> Z.



End Lifecycle.

(** The keys of a dict kept as an association list, newest binding first:
    each key once, with its newest value. *)
Fixpoint dict_items (seen : list string) (l : list (string * Z))
  : list (string * Z) :=
  match l with
  | [] => []
  | (k, v) :: rest =>
      if existsb (String.eqb k) seen then dict_items seen rest
      else (k, v) :: dict_items (k :: seen) rest
  end.

(** The dict returned by [get_system_status] (the times are kept as
    readings of the clock, where the code prints them in ISO format). *)
Record SystemStatus : Type := {
  status_is_running : bool;
  total_users : nat;
  active_users : nat;
  scheduled_searches : nat;
  status_last_search_times : list (string * Z);
  requests_last_minute : nat;
  limit : nat
}.

Definition get_system_status (e : Engine) : SystemStatus :=
  let users := Store.get_all_users (db e) in
  let active := filter is_active users in
  {| status_is_running := is_running e;
     total_users := List.length users;
     active_users := List.length active;
     scheduled_searches := List.length (schedule_jobs e);
     status_last_search_times := dict_items [] (last_search_times e);
     requests_last_minute := List.length (linkedin_last_requests e);
     limit := linkedin_requests_per_minute e |}.



(* ================================================================== *)
(** * Accounts and stored preferences: [MultiUserManager] *)

(** The tables [users] and [user_preferences] as they are stored: the
    password hash and the subscription tier beside the fields of [User], and
    the columns of the preferences before [get_user_preferences] reads them
    ([None] is NULL; a JSON column is kept as the list it encodes, [None]
    when it is NULL or empty). A row of [user_preferences] has its columns
    in the order of the table: the fourteen of [CREATE TABLE] in
    [init_database] (0 to 13, the last two [created_at] and [updated_at]),
    then the five that [run_migrations] adds with [ALTER TABLE ... ADD
    COLUMN] (14 to 18); [SELECT *] returns them in that order and
    [get_user_preferences] reads them by position. [job_types] is stored and
    written, and is not a field of [UserPreferences] here; nor is
    [country_focus]. The identifiers drawn by [uuid.uuid4()] and the text of
    [CURRENT_TIMESTAMP] are arguments of the functions that use them.
    sqlite3 runs with its default setting, in which foreign keys are not
    enforced, and every call finds the database unlocked. *)
Module Accounts.

Record UserRow : Type := {
  ur_user : User;
  ur_password_hash : string;
  ur_subscription_tier : string
}.

Record PrefsRow : Type := {
  pr_id : string;                                   (* row[0] *)
  pr_user_id : string;                              (* row[1] *)
  pr_keywords : option (list string);               (* row[2] *)
  pr_exclude_keywords : option (list string);       (* row[3] *)
  pr_locations : option (list string);              (* row[4] *)
  pr_min_salary : option Z;                         (* row[5] *)
  pr_max_salary : option Z;                         (* row[6] *)
  pr_job_types : option (list string);              (* row[7] *)
  pr_sites_enabled : option (list string);          (* row[8] *)
  pr_search_frequency_minutes : option Z;           (* row[9] *)
  pr_linkedin_quality_threshold : option Z;         (* row[10] *)
  pr_max_hours_old : option Z;                      (* row[11] *)
  pr_created_at : option string;                    (* row[12] *)
  pr_updated_at : option string;                    (* row[13] *)
  pr_time_filter : option string;                   (* row[14] *)
  pr_work_type : option string;                     (* row[15] *)
  pr_country_focus : option string;                 (* row[16] *)
  pr_ultra_recent_mode : option bool;               (* row[17] *)
  pr_first_applicant_mode : option bool             (* row[18] *)
}.

Record Manager : Type := {
  user_rows : list UserRow;
  prefs_rows : list PrefsRow
}.

(** [row[i] or default] on an integer column *)
Definition int_or (v : option Z) (default : Z) : Z :=
  match v with
  | Some x => if x =? 0 then default else x
  | None => default
  end.

(** [json.loads(row[i]) if row[i] else default] *)
Definition json_or (v : option (list string)) (default : list string)
  : list string :=
  match v with Some l => l | None => default end.

(** [row[i] if len(row) > i and row[i] else default] on a text column *)
Definition text_or (v : option string) (default : string) : string :=
  match v with
  | Some s => if PyStr.truthy s then s else default
  | None => default
  end.

(** [bool(row[i]) if len(row) > i and row[i] is not None else False] on a
    text column: a string is true when it is not empty. *)
Definition text_flag (v : option string) : bool :=
  match v with Some s => PyStr.truthy s | None => false end.

(** The [UserPreferences] built by [get_user_preferences] from a row. The
    last five fields are read at positions 12 to 16: [time_filter] from
    [row[12]], which is [created_at]; [work_type] from [row[13]], which is
    [updated_at]; [country_focus] from [row[14]], the column [time_filter];
    [ultra_recent_mode] from [row[15]], the column [work_type]; and
    [first_applicant_mode] from [row[16]], the column [country_focus].
    Positions 17 and 18, the two stored flags, are not read. *)
Definition preferences_of_row (row : PrefsRow) : UserPreferences :=
  {| user_id := pr_user_id row;
     keywords := json_or (pr_keywords row) [];
     exclude_keywords := json_or (pr_exclude_keywords row) [];
     locations := json_or (pr_locations row) [];
     min_salary := int_or (pr_min_salary row) 80000;
     max_salary := int_or (pr_max_salary row) 200000;
     sites_enabled := json_or (pr_sites_enabled row) ["linkedin"; "indeed"];
     search_frequency_minutes :=
       int_or (pr_search_frequency_minutes row) 15;
     linkedin_quality_threshold :=
       int_or (pr_linkedin_quality_threshold row) 65;
     max_hours_old := int_or (pr_max_hours_old row) 24;
     time_filter := text_or (pr_created_at row) "r3600";
     work_type := text_or (pr_updated_at row) "2";
     ultra_recent_mode := text_flag (pr_work_type row);
     first_applicant_mode := text_flag (pr_country_focus row) |}.

(** The [country_focus] of the same object. *)
Definition country_focus_of_row (row : PrefsRow) : string :=
  text_or (pr_time_filter row) "canada".

Definition get_user_preferences (m : Manager) (uid : string)
  : option UserPreferences :=
  option_map preferences_of_row
             (find (fun row => (pr_user_id row =? uid)%string) (prefs_rows m)).

Definition get_user_by_email (m : Manager) (mail : string) : option User :=
  option_map ur_user
             (find (fun row => (email (ur_user row) =? mail)%string)
                   (user_rows m)).

Definition get_user_by_id (m : Manager) (uid : string) : option User :=
  option_map ur_user
             (find (fun row => (id (ur_user row) =? uid)%string)
                   (user_rows m)).

(** The row written by [create_default_preferences] when
    [CURRENT_TIMESTAMP] is [now]: five JSON columns, the others at the
    defaults of the schema and of the migrations. *)
Definition default_prefs_row (prefs_id now uid : string) : PrefsRow :=
  {| pr_id := prefs_id; pr_user_id := uid;
     pr_keywords :=
       Some ["software engineer"; "python developer"; "java developer"];
     pr_exclude_keywords := Some ["senior"; "lead"];
     pr_locations := Some ["Remote"; "San Francisco"; "New York"];
     pr_min_salary := Some 80000; pr_max_salary := Some 200000;
     pr_job_types := Some ["full-time"; "remote"];
     pr_sites_enabled := Some ["linkedin"; "indeed"; "glassdoor"];
     pr_search_frequency_minutes := Some 15;
     pr_linkedin_quality_threshold := Some 65;
     pr_max_hours_old := Some 24;
     pr_created_at := Some now; pr_updated_at := Some now;
     pr_time_filter := Some "r3600"; pr_work_type := Some "2";
     pr_country_focus := Some "canada";
     pr_ultra_recent_mode := Some false;
     pr_first_applicant_mode := Some false |}.

Definition create_default_preferences (m : Manager)
           (prefs_id now uid : string) : Manager * bool :=
  if existsb (fun row => (pr_id row =? prefs_id)%string) (prefs_rows m)
  then (m, false)                       (* the primary key is taken *)
  else ({| user_rows := user_rows m;
           prefs_rows := (prefs_rows m
                          ++ [default_prefs_row prefs_id now uid])%list |},
        true).

(** The fields [update_user_preferences] writes, [None] for a key that is
    not in the dict; the values are lists of strings and integers, as the
    columns are. *)
Record PrefsUpdate : Type := {
  upd_keywords : option (list string);
  upd_exclude_keywords : option (list string);
  upd_locations : option (list string);
  upd_min_salary : option Z;
  upd_max_salary : option Z;
  upd_search_frequency_minutes : option Z;
  upd_linkedin_quality_threshold : option Z;
  upd_max_hours_old : option Z;
  upd_job_types : option (list string);
  upd_sites_enabled : option (list string)
}.

Definition no_prefs_update (u : PrefsUpdate) : bool :=
  match upd_keywords u, upd_exclude_keywords u, upd_locations u,
        upd_min_salary u, upd_max_salary u, upd_search_frequency_minutes u,
        upd_linkedin_quality_threshold u, upd_max_hours_old u,
        upd_job_types u, upd_sites_enabled u with
  | None, None, None, None, None, None, None, None, None, None => true
  | _, _, _, _, _, _, _, _, _, _ => false
  end.

(** [column = ?] when the key is there *)
Definition written (A : Type) (new : option A) (old : option A) : option A :=
  match new with Some v => Some v | None => old end.

(** The [SET] clauses on one row: the columns of the keys that are there,
    and [updated_at = CURRENT_TIMESTAMP]. *)
Definition apply_prefs_update (u : PrefsUpdate) (now : string)
           (row : PrefsRow) : PrefsRow :=
  {| pr_id := pr_id row; pr_user_id := pr_user_id row;
     pr_keywords := written (upd_keywords u) (pr_keywords row);
     pr_exclude_keywords :=
       written (upd_exclude_keywords u) (pr_exclude_keywords row);
     pr_locations := written (upd_locations u) (pr_locations row);
     pr_min_salary := written (upd_min_salary u) (pr_min_salary row);
     pr_max_salary := written (upd_max_salary u) (pr_max_salary row);
     pr_job_types := written (upd_job_types u) (pr_job_types row);
     pr_sites_enabled := written (upd_sites_enabled u) (pr_sites_enabled row);
     pr_search_frequency_minutes :=
       written (upd_search_frequency_minutes u)
               (pr_search_frequency_minutes row);
     pr_linkedin_quality_threshold :=
       written (upd_linkedin_quality_threshold u)
               (pr_linkedin_quality_threshold row);
     pr_max_hours_old := written (upd_max_hours_old u) (pr_max_hours_old row);
     pr_created_at := pr_created_at row; pr_updated_at := Some now;
     pr_time_filter := pr_time_filter row; pr_work_type := pr_work_type row;
     pr_country_focus := pr_country_focus row;
     pr_ultra_recent_mode := pr_ultra_recent_mode row;
     pr_first_applicant_mode := pr_first_applicant_mode row |}.

(** An integer that sqlite3 binds to a parameter: a signed 64-bit value.
    For any other [cursor.execute] raises [OverflowError]. *)
Definition fits_sqlite_integer (v : Z) : bool :=
  (- 9223372036854775808 <=? v) && (v <=? 9223372036854775807).

Definition binds (v : option Z) : bool :=
  match v with Some x => fits_sqlite_integer x | None => true end.

(** Every integer of the dict can be bound. *)
Definition prefs_update_binds (u : PrefsUpdate) : bool :=
  binds (upd_min_salary u) && binds (upd_max_salary u)
  && binds (upd_search_frequency_minutes u)
  && binds (upd_linkedin_quality_threshold u)
  && binds (upd_max_hours_old u).

(** [UPDATE user_preferences SET ... WHERE user_id = ?]: every row of the
    user is written; the result is [rowcount > 0]. When an integer of the
    dict cannot be bound, [cursor.execute] raises before anything is
    written, and the [except] branch answers [False]. *)
Definition update_user_preferences (m : Manager) (uid : string)
           (u : PrefsUpdate) (now : string) : Manager * bool :=
  if no_prefs_update u then (m, false)
  else if negb (prefs_update_binds u) then (m, false)
  else
    ({| user_rows := user_rows m;
        prefs_rows :=
          map (fun row => if (pr_user_id row =? uid)%string
                          then apply_prefs_update u now row else row)
              (prefs_rows m) |},
     existsb (fun row => (pr_user_id row =? uid)%string) (prefs_rows m)).

(** The fields [update_user] writes ([name], [is_active], [is_admin],
    [subscription_tier]); any other key of the dict is passed over. *)
Record UserUpdate : Type := {
  upd_name : option string;
  upd_is_active : option bool;
  upd_is_admin : option bool;
  upd_subscription_tier : option string
}.

Definition no_user_update (u : UserUpdate) : bool :=
  match upd_name u, upd_is_active u, upd_is_admin u,
        upd_subscription_tier u with
  | None, None, None, None => true
  | _, _, _, _ => false
  end.

Definition or_old (A : Type) (new : option A) (old : A) : A :=
  match new with Some v => v | None => old end.

Definition apply_user_update (u : UserUpdate) (row : UserRow) : UserRow :=
  {| ur_user :=
       {| id := id (ur_user row); email := email (ur_user row);
          name := or_old (upd_name u) (name (ur_user row));
          is_active := or_old (upd_is_active u) (is_active (ur_user row));
          is_admin := or_old (upd_is_admin u) (is_admin (ur_user row)) |};
     ur_password_hash := ur_password_hash row;
     ur_subscription_tier :=
       or_old (upd_subscription_tier u) (ur_subscription_tier row) |}.

Definition update_user (m : Manager) (uid : string) (u : UserUpdate)
  : Manager * bool :=
  if no_user_update u then (m, false)
  else
    ({| user_rows :=
          map (fun row => if (id (ur_user row) =? uid)%string
                          then apply_user_update u row else row)
              (user_rows m);
        prefs_rows := prefs_rows m |},
     existsb (fun row => (id (ur_user row) =? uid)%string) (user_rows m)).

(** [DELETE FROM users WHERE id = ?]; nothing cascades. *)
Definition delete_user (m : Manager) (uid : string) : Manager * bool :=
  ({| user_rows :=
        filter (fun row => negb (id (ur_user row) =? uid)%string)
               (user_rows m);
      prefs_rows := prefs_rows m |},
   existsb (fun row => (id (ur_user row) =? uid)%string) (user_rows m)).

Section Passwords.

(** [hashlib.sha256(password.encode()).hexdigest()] *)
Variable sha256_hex : string -> string.

(** [create_user], with the two identifiers it draws. [INSERT INTO users]
    raises [IntegrityError] when the identifier or the email is taken; then
    nothing is written and the result is [None]. *)
Definition create_user (m : Manager) (new_id prefs_id now : string)
           (mail name_ password : string) (admin : bool)
  : Manager * option User :=
  if existsb (fun row => (id (ur_user row) =? new_id)%string
                         || (email (ur_user row) =? mail)%string)
             (user_rows m)
  then (m, None)
  else
    let row := {| ur_user := {| id := new_id; email := mail; name := name_;
                                is_active := true; is_admin := admin |};
                  ur_password_hash := sha256_hex password;
                  ur_subscription_tier := "free" |} in
    let m := {| user_rows := (user_rows m ++ [row])%list;
                prefs_rows := prefs_rows m |} in
    let '(m, _) := create_default_preferences m prefs_id now new_id in
    (m, get_user_by_id m new_id).

Definition authenticate_user (m : Manager) (mail password : string)
  : option User :=
  option_map ur_user
             (find (fun row =>
                      (email (ur_user row) =? mail)%string
                      && (ur_password_hash row =? sha256_hex password)%string
                      && is_active (ur_user row))
                   (user_rows m)).

(** [create_default_admin] *)
Definition create_default_admin (m : Manager)
           (new_id prefs_id now : string) : Manager :=
  match get_user_by_email m "admin@jobsprint.com" with
  | Some _ => m
  | None =>
      fst (create_user m new_id prefs_id now "admin@jobsprint.com"
                       "System Administrator" "admin123" true)
  end.

End Passwords.

(** The store the engine works on: the users and the preferences as the
    manager reads them, beside the tables of jobs and links of [d]. The
    users are in the order of the table; [get_all_users] sorts them by
    [created_at], and what is proved of this store below depends on which
    users there are, not on their order. *)
Definition database_of (m : Manager) (d : Database) : Database :=
  {| users := map ur_user (user_rows m);
     user_preferences := map preferences_of_row (prefs_rows m);
     jobs := jobs d; user_jobs := user_jobs d; next_uuid := next_uuid d |}.

(** An integer preference read back after an update: the value written,
    through [or default], when its key was in the dict; the old reading
    otherwise. *)
Definition int_read_back (new : option Z) (default old : Z) : Z :=
  match new with
  | Some v => int_or (Some v) default
  | None => old
  end.

(** The preferences read after [update_user_preferences] with [u] at
    [now], from the preferences [p] read before: the work type is read from
    [updated_at], which the update sets. *)
Definition updated_preferences (u : PrefsUpdate) (now : string)
           (p : UserPreferences) : UserPreferences :=
  {| user_id := user_id p;
     keywords := or_old (upd_keywords u) (keywords p);
     exclude_keywords := or_old (upd_exclude_keywords u) (exclude_keywords p);
     locations := or_old (upd_locations u) (locations p);
     min_salary := int_read_back (upd_min_salary u) 80000 (min_salary p);
     max_salary := int_read_back (upd_max_salary u) 200000 (max_salary p);
     sites_enabled := or_old (upd_sites_enabled u) (sites_enabled p);
     search_frequency_minutes :=
       int_read_back (upd_search_frequency_minutes u) 15
                     (search_frequency_minutes p);
     linkedin_quality_threshold :=
       int_read_back (upd_linkedin_quality_threshold u) 65
                     (linkedin_quality_threshold p);
     max_hours_old := int_read_back (upd_max_hours_old u) 24 (max_hours_old p);
     time_filter := time_filter p; work_type := text_or (Some now) "2";
     ultra_recent_mode := ultra_recent_mode p;
     first_applicant_mode := first_applicant_mode p |}.

(** The five columns of the migrations hold their defaults, as in every row
    that [create_default_preferences] writes or that was there when
    [run_migrations] added them. *)
Definition migration_defaults (row : PrefsRow) : Prop :=
  pr_time_filter row = Some "r3600"
  /\ pr_work_type row = Some "2"
  /\ pr_country_focus row = Some "canada"
  /\ pr_ultra_recent_mode row = Some false
  /\ pr_first_applicant_mode row = Some false.

Definition columns_at_defaults (m : Manager) : Prop :=
  Forall migration_defaults (prefs_rows m).

(** A row in which the two stored mode flags are written. *)
Definition with_mode_flags (row : PrefsRow) (ultra first : option bool)
  : PrefsRow :=
  {| pr_id := pr_id row; pr_user_id := pr_user_id row;
     pr_keywords := pr_keywords row;
     pr_exclude_keywords := pr_exclude_keywords row;
     pr_locations := pr_locations row;
     pr_min_salary := pr_min_salary row; pr_max_salary := pr_max_salary row;
     pr_job_types := pr_job_types row;
     pr_sites_enabled := pr_sites_enabled row;
     pr_search_frequency_minutes := pr_search_frequency_minutes row;
     pr_linkedin_quality_threshold := pr_linkedin_quality_threshold row;
     pr_max_hours_old := pr_max_hours_old row;
     pr_created_at := pr_created_at row; pr_updated_at := pr_updated_at row;
     pr_time_filter := pr_time_filter row; pr_work_type := pr_work_type row;
     pr_country_focus := pr_country_focus row;
     pr_ultra_recent_mode := ultra; pr_first_applicant_mode := first |}.

(** No row of table [users] with this identifier is active. *)
Definition inactive_or_absent (m : Manager) (uid : string) : Prop :=
  forall row, In row (user_rows m) -> id (ur_user row) = uid ->
              is_active (ur_user row) = false.

(** The email is a key of table [users]. *)
Definition emails_unique (m : Manager) : Prop :=
  NoDup (map (fun row => email (ur_user row)) (user_rows m)).

End Accounts.

(* ================================================================== *)
(** * Concrete data used by the examples below *)

Module Examples.

Definition row (t c l : string) (u : option string) (pd : PostedDate)
  : JobRow :=
  {| title := t; company := c; location := l; job_url := u;
     posted_date := pd; site_source := None; salary_min := None;
     quality_score := 0 |}.

(** Preferences with the defaults of [UserPreferences]. *)
Definition prefs (uid : string) (kws excl locs : list string)
           (thr freq : Z) : UserPreferences :=
  {| user_id := uid; keywords := kws; exclude_keywords := excl;
     locations := locs; min_salary := 80000; max_salary := 200000;
     sites_enabled := ["linkedin"; "indeed"];
     search_frequency_minutes := freq;
     linkedin_quality_threshold := thr; max_hours_old := 24;
     time_filter := "r3600"; work_type := "2";
     ultra_recent_mode := false; first_applicant_mode := false |}.

Definition user (uid mail : string) : User :=
  {| id := uid; email := mail; name := uid; is_active := true;
     is_admin := false |}.

(** [str.contains] for a pattern that is one keyword without regular
    expression metacharacters. *)
Definition plain_contains_nocase (pat cell : string) : bool :=
  PyStr.contains (PyStr.lower pat) (PyStr.lower cell).

Definition smtp_up : Email -> bool := fun _ => true.
Definition smtp_down : Email -> bool := fun _ => false.

(** A title with two of the user's exclude keywords. *)
Definition sales_job : JobRow :=
  row "Senior Sales Manager" "Acme" "Toronto"
      (Some "https://www.linkedin.com/jobs/view/1") NoDate.
Definition sales_prefs : UserPreferences :=
  prefs "u1" ["python"] ["senior"; "manager"] ["Remote"] 65 15.

(** A posting dated at instant 0, scored on that day and ten days later. *)
Definition dated_job : JobRow :=
  row "Python Developer" "Acme" "Remote"
      (Some "https://www.linkedin.com/jobs/view/2") (IsoDate 0).
Definition py_prefs : UserPreferences :=
  prefs "u1" ["python"] [] ["Remote"] 65 15.
Definition ten_days : Z := 10 * day_us.

(** A scored frame: 40, 70 and 90 points. *)
Definition three_scores : DataFrame :=
  {| has_quality_score := true; has_salary_min := false;
     rows := [set_quality_score sales_job 40;
              set_quality_score dated_job 70;
              set_quality_score dated_job 90] |}.

(** Two keywords, one location. *)
Definition two_kw_prefs : UserPreferences :=
  prefs "u1" ["python"; "rust"] [] ["Remote"] 65 15.

Definition store (ps : list UserPreferences) (us : list User) : Database :=
  {| users := us; user_preferences := ps; jobs := []; user_jobs := [];
     next_uuid := 0 |}.

Definition still_clock (t : Z) : CycleClock :=
  {| t_rate_limit := t; t_score := fun _ _ _ => t; t_done := t |}.

(** The adapter run against a given source, with room for 16 turns. *)
Definition scrape_from (server : Adapter.Server)
  : string -> string -> nat -> string -> string -> list JobRow * nat :=
  fun _ _ max_results _ _ =>
    match Adapter.method_1_guest_api 16 server max_results with
    | Some res => res
    | None => ([], 0%nat)
    end.

(** A source whose first page holds [dated_job] and whose later pages are
    empty. *)
Definition one_job_server : Adapter.Server :=
  fun _ start =>
    if start =? 0 then Adapter.HttpResponse 200 [Some dated_job]
    else Adapter.HttpResponse 200 [].

(** A source that answers 429 three times and then shows an empty page. *)
Definition busy_then_empty : Adapter.Server :=
  fun n _ =>
    if (n <? 3)%nat then Adapter.HttpResponse 429 []
    else Adapter.HttpResponse 200 [].

Definition engine_one_user (p : UserPreferences) : Engine :=
  Gateway.fresh_engine (store [p] [user "u1" "u1@example.org"]) 10.

(** One cycle for user "u1" with every clock reading at [t]. *)
Definition run_cycle (smtp : Email -> bool) (server : Adapter.Server)
           (e : Engine) (t : Z) : Engine :=
  search_jobs_for_user plain_contains_nocase smtp (scrape_from server)
                       e "u1" (still_clock t).

(** One user and one posting: a first cycle, and a second one a day later. *)
Definition start : Engine := engine_one_user py_prefs.
Definition first_cycle : Engine := run_cycle smtp_up one_job_server start 0.
Definition second_cycle : Engine :=
  run_cycle smtp_up one_job_server first_cycle day_us.

(** The same with SMTP down in the first cycle and up again in the next. *)
Definition failed_cycle : Engine :=
  run_cycle smtp_down one_job_server start 0.
Definition cycle_after_failure : Engine :=
  run_cycle smtp_up one_job_server failed_cycle minute_us.

(** Two keywords against a source with nothing to show. *)
Definition start_two_kw : Engine := engine_one_user two_kw_prefs.
Definition cycle_two_kw : Engine :=
  run_cycle smtp_up Adapter.empty_pages start_two_kw 0.

(** Two active users, same frequency, hashes 3 and 7. *)
Definition two_users : Database :=
  store [prefs "u1" ["python"] [] ["Remote"] 65 15;
         prefs "u2" ["rust"] [] ["Remote"] 65 15]
        [user "u1" "u1@example.org"; user "u2" "u2@example.org"].
Definition hash_3_7 (uid : string) : Z :=
  if (uid =? "u1")%string then 3 else 7.
Definition two_scheduled : Engine :=
  fst (schedule_user_searches hash_3_7 (Gateway.fresh_engine two_users 10) 0).

End Examples.

(* ================================================================== *)
(** * More concrete data *)

Module Cases.

(** Three calls of the gateway, one second apart, on an engine with
    ceiling 2. *)
Definition three_calls : list Z := [0; 1000000; 2000000].
Definition gate_2 : Engine := Gateway.fresh_engine (Examples.store [] []) 2.


(** An empty store, and a store where user "u1" is linked to the posting
    [Examples.dated_job]. *)
Definition empty_store : Database := Examples.store [] [].
Definition url_2 : string := "https://www.linkedin.com/jobs/view/2".
Definition stored_job : JobRec :=
  Persist.job_rec 0 (Persist.make_job_data Examples.three_scores
                                           Examples.dated_job url_2).
Definition shared_store : Database :=
  {| users := []; user_preferences := []; jobs := [stored_job];
     user_jobs := [{| uj_id := 1; uj_user_id := "u1"; uj_job_id := 0;
                      uj_is_notified := false; uj_is_applied := false;
                      uj_is_saved := false; uj_is_hidden := false;
                      uj_match_score := 70 |}];
     next_uuid := 2 |}.

(** A source whose first page holds one posting and whose second GET fails
    with status 500. *)
Definition page_then_error : Adapter.Server :=
  fun _ start =>
    if start =? 0 then Adapter.HttpResponse 200 [Some Examples.dated_job]
    else Adapter.HttpResponse 500 [].

(** A browser page with one element. *)
Definition one_element : Scraper.Browser :=
  Scraper.Page [Some Examples.sales_job].

(** Preferences with only "indeed" enabled, and an engine for them. *)
Definition indeed_only_prefs : UserPreferences :=
  {| user_id := "u1"; keywords := ["python"]; exclude_keywords := [];
     locations := ["Remote"]; min_salary := 80000; max_salary := 200000;
     sites_enabled := ["indeed"]; search_frequency_minutes := 15;
     linkedin_quality_threshold := 65; max_hours_old := 24;
     time_filter := "r3600"; work_type := "2";
     ultra_recent_mode := false; first_applicant_mode := false |}.
Definition indeed_only_engine : Engine :=
  Examples.engine_one_user indeed_only_prefs.

(** A user with threshold 85, a first cycle four days after the posting of
    [Examples.dated_job], and a second cycle on a clock that reads one hour
    less. *)
Definition strict_prefs : UserPreferences :=
  Examples.prefs "u1" ["python"] [] ["Remote"] 85 15.
Definition strict_start : Engine := Examples.engine_one_user strict_prefs.
Definition four_days : Z := 4 * day_us.
Definition an_hour_less : Z := 4 * day_us - 60 * minute_us.
Definition strict_first : Engine :=
  Examples.run_cycle Examples.smtp_up Examples.one_job_server strict_start
                     four_days.
Definition strict_second : Engine :=
  Examples.run_cycle Examples.smtp_up Examples.one_job_server strict_first
                     an_hour_less.

(** Two calls of the gateway, the second on a clock set back by 100
    seconds, on an engine with ceiling 1. *)
Definition clock_set_back : list Z := [100000000; 0].
Definition gate_1 : Engine := Gateway.fresh_engine (Examples.store [] []) 1.

(** A stand-in for SHA-256. *)
Definition toy_sha256 (s : string) : string := "sha256:" ++ s.

Definition no_accounts : Accounts.Manager :=
  {| Accounts.user_rows := []; Accounts.prefs_rows := [] |}.
Definition new_year : string := "2025-01-01 00:00:00".
Definition next_day : string := "2025-01-02 00:00:00".
Definition one_account : Accounts.Manager :=
  fst (Accounts.create_user toy_sha256 no_accounts "id-1" "prefs-1" new_year
                            "ann@example.org" "Ann" "secret" false).

(** A dict with the one key [linkedin_quality_threshold], value 0. *)
Definition threshold_zero : Accounts.PrefsUpdate :=
  {| Accounts.upd_keywords := None; Accounts.upd_exclude_keywords := None;
     Accounts.upd_locations := None; Accounts.upd_min_salary := None;
     Accounts.upd_max_salary := None;
     Accounts.upd_search_frequency_minutes := None;
     Accounts.upd_linkedin_quality_threshold := Some 0;
     Accounts.upd_max_hours_old := None; Accounts.upd_job_types := None;
     Accounts.upd_sites_enabled := None |}.

(** A dict with the one key [is_active], value [False]. *)
Definition switch_off : Accounts.UserUpdate :=
  {| Accounts.upd_name := None; Accounts.upd_is_active := Some false;
     Accounts.upd_is_admin := None;
     Accounts.upd_subscription_tier := None |}.

End Cases.

(* ================================================================== *)
(** * Properties of the scoring function *)

Module ScoringFacts.
Import Scoring.

Lemma count_keyword_matches_from (kws : list string) (t : string) (acc : Z) :
  fold_left
    (fun matches kw =>
       if PyStr.contains (PyStr.lower kw) t then matches + 1 else matches)
    kws acc
  = acc + Z.of_nat (List.length (matching kws t)).
Proof.
  unfold matching.
  revert acc; induction kws as [|kw kws IH]; intros acc; simpl.
  - lia.
  - rewrite IH. destruct (PyStr.contains (PyStr.lower kw) t); cbn [List.length]; lia.
Qed.

Lemma count_keyword_matches_eq (kws : list string) (t : string) :
  count_keyword_matches kws t = Z.of_nat (List.length (matching kws t)).
Proof. unfold count_keyword_matches. now rewrite count_keyword_matches_from. Qed.

Lemma add_location_points_eq (locs : list string) (l : string) (score : Z) :
  add_location_points locs l score
  = score + (if existsb (fun p => PyStr.contains (PyStr.lower p) l) locs
             then 20 else 0).
Proof.
  induction locs as [|p locs IH]; simpl.
  - lia.
  - destruct (PyStr.contains (PyStr.lower p) l); simpl; [reflexivity | exact IH].
Qed.

Lemma subtract_exclude_points_eq (excl : list string) (t : string) (score : Z) :
  subtract_exclude_points excl t score
  = score - 20 * Z.of_nat (List.length (matching excl t)).
Proof.
  unfold subtract_exclude_points, matching.
  revert score; induction excl as [|kw excl IH]; intros score;
    cbn [fold_left filter List.length].
  - lia.
  - rewrite IH. destruct (PyStr.contains (PyStr.lower kw) t); cbn [List.length]; lia.
Qed.

Lemma add_freshness_points_eq (r : JobRow) (score clock : Z) :
  add_freshness_points (posted_date r) score clock
  = score + recency_points r clock.
Proof.
  unfold add_freshness_points, recency_points, datetime_now.
  destruct (posted_date r) as [| | |t]; try lia.
  destruct (timedelta_days clock t <=? 1); [lia|].
  destruct (timedelta_days clock t <=? 3); lia.
Qed.

(** The code path by path against the sum of its components. *)
Lemma calculate_quality_score_eq (r : JobRow) (p : UserPreferences)
      (clock : Z) :
  calculate_quality_score r p clock
  = clamp (static_points p r + recency_points r clock).
Proof.
  unfold calculate_quality_score, clamp, static_points.
  rewrite subtract_exclude_points_eq, add_freshness_points_eq,
          add_location_points_eq, count_keyword_matches_eq.
  fold (exclude_hits p r). fold (location_points p r).
  fold (employer_points r).
  unfold keyword_points.
  set (m := Z.of_nat (List.length (matching (keywords p)
                                             (PyStr.lower (title r))))).
  assert (Hm : 0 <= m) by (unfold m; lia).
  f_equal. f_equal.
  destruct (0 <? m) eqn:E; [apply Z.ltb_lt in E | apply Z.ltb_ge in E];
    unfold employer_points; destruct (existsb _ reputable_companies); lia.
Qed.

Section AnyLower.

Variable lower : string -> string.

Lemma lower_count_keyword_matches_from (kws : list string) (t : string)
      (acc : Z) :
  fold_left
    (fun matches kw =>
       if PyStr.contains (lower kw) t then matches + 1 else matches)
    kws acc
  = acc + Z.of_nat (List.length (ScoringLower.matching lower kws t)).
Proof.
  unfold ScoringLower.matching.
  revert acc; induction kws as [|kw kws IH]; intros acc;
    cbn [fold_left filter List.length].
  - lia.
  - rewrite IH. destruct (PyStr.contains (lower kw) t); cbn [List.length];
      lia.
Qed.

Lemma lower_add_location_points_eq (locs : list string) (l : string)
      (score : Z) :
  ScoringLower.add_location_points lower locs l score
  = score + (if existsb (fun p => PyStr.contains (lower p) l) locs
             then 20 else 0).
Proof.
  induction locs as [|p locs IH];
    cbn [ScoringLower.add_location_points existsb].
  - lia.
  - destruct (PyStr.contains (lower p) l); cbn [orb];
      [reflexivity | exact IH].
Qed.

Lemma lower_subtract_exclude_points_eq (excl : list string) (t : string)
      (score : Z) :
  ScoringLower.subtract_exclude_points lower excl t score
  = score - 20 * Z.of_nat (List.length (ScoringLower.matching lower excl t)).
Proof.
  unfold ScoringLower.subtract_exclude_points, ScoringLower.matching.
  revert score; induction excl as [|kw excl IH]; intros score;
    cbn [fold_left filter List.length].
  - lia.
  - rewrite IH. destruct (PyStr.contains (lower kw) t); cbn [List.length];
      lia.
Qed.

End AnyLower.

(** C5 (as amended). For every posting, criteria and clock reading, and
    whatever [str.lower] does to the strings, the computed quality score is
    the sum, clamped to [0, 100], of: 50; 10 per include keyword occurring
    in the lower-cased title, capped at 30; 20 if some target location
    occurs in the location; 10 if the employer contains a name of the
    allow-list; 10 if the posting date is at most 1 whole day old, 5 if at
    most 3; minus 20 for EACH exclude keyword occurring in the title. The
    score the engine's model computes is this one at [PyStr.lower]. *)
Theorem C5_score_formula (lower : string -> string) (r : JobRow)
        (p : UserPreferences) (now : Z) :
  ScoringLower.calculate_quality_score lower r p now
  = Z.min 100
      (Z.max 0
         (50 + ScoringLower.keyword_points lower p r
          + ScoringLower.location_points lower p r
          + ScoringLower.employer_points lower r
          + recency_points r now
          - 20 * ScoringLower.exclude_hits lower p r))
  /\ 0 <= ScoringLower.keyword_points lower p r <= 30
  /\ 0 <= ScoringLower.calculate_quality_score lower r p now <= 100
  /\ calculate_quality_score r p now
     = ScoringLower.calculate_quality_score PyStr.lower r p now.
Proof.
  assert (Heq : ScoringLower.calculate_quality_score lower r p now
                = Z.min 100
                    (Z.max 0
                       (50 + ScoringLower.keyword_points lower p r
                        + ScoringLower.location_points lower p r
                        + ScoringLower.employer_points lower r
                        + recency_points r now
                        - 20 * ScoringLower.exclude_hits lower p r))).
  { unfold ScoringLower.calculate_quality_score,
      ScoringLower.count_keyword_matches.
    rewrite lower_subtract_exclude_points_eq, add_freshness_points_eq,
            lower_add_location_points_eq, lower_count_keyword_matches_from.
    fold (ScoringLower.exclude_hits lower p r).
    fold (ScoringLower.location_points lower p r).
    fold (ScoringLower.employer_points lower r).
    unfold ScoringLower.keyword_points.
    set (m := Z.of_nat
                (List.length (ScoringLower.matching lower (keywords p)
                                                    (lower (title r))))).
    assert (Hm : 0 <= m) by (unfold m; lia).
    f_equal. f_equal.
    destruct (0 <? 0 + m) eqn:E;
      [apply Z.ltb_lt in E | apply Z.ltb_ge in E];
      unfold ScoringLower.employer_points;
      destruct (existsb _ reputable_companies); lia. }
  split; [exact Heq|].
  split; [unfold ScoringLower.keyword_points; lia|].
  split; [rewrite Heq; lia | reflexivity].
Qed.

(** C5 (counterexample). A title with two exclude keywords loses 40 points
    and scores 10, where the single penalty of the claim gives 30. *)
Lemma C5_single_penalty_refuted :
  calculate_quality_score Examples.sales_job Examples.sales_prefs 0 = 10
  /\ calculate_quality_score Examples.sales_job Examples.sales_prefs 0
     <> spec_quality_score Examples.sales_job Examples.sales_prefs 0.
Proof. split; vm_compute; [reflexivity | discriminate]. Qed.

(** C6 (as amended). The score is a function of the posting, the criteria
    and the reading of the process clock taken inside the function: the
    score is the clamped sum of a part that does not depend on the clock
    and of the recency bonus at that reading; so equal readings give equal
    scores, and two readings change nothing but the recency bonus. *)
Theorem C6_clock_only_in_recency (r : JobRow) (p : UserPreferences) :
  exists base : Z,
    forall clock : Z,
      calculate_quality_score r p clock
      = clamp (base + recency_points r clock).
Proof.
  exists (static_points p r). intros clock.
  apply calculate_quality_score_eq.
Qed.

(** C6 (counterexample). The arguments of the method are the posting and
    the criteria; on the same two arguments it answers 90 on the day of the
    posting and 80 ten days later, so it reads the clock. *)
Lemma C6_reads_the_clock :
  ~ (forall (r : JobRow) (p : UserPreferences) (clock1 clock2 : Z),
        calculate_quality_score r p clock1
        = calculate_quality_score r p clock2).
Proof.
  intros H.
  specialize (H Examples.dated_job Examples.py_prefs 0 Examples.ten_days).
  vm_compute in H. discriminate H.
Qed.

End ScoringFacts.

(* ================================================================== *)
(** * Properties of the filter *)

Section ListFilter.
Variable A : Type.

Lemma filter_twice (f g : A -> bool) (l : list A) :
  filter g (filter f l) = filter (fun x => f x && g x) l.
Proof.
  induction l as [|x l IH]; simpl; [reflexivity|].
  destruct (f x); simpl; [destruct (g x)|]; now rewrite IH.
Qed.

Lemma filter_all (l : list A) : filter (fun _ => true) l = l.
Proof. induction l as [|x l IH]; simpl; [|rewrite IH]; reflexivity. Qed.

Lemma filter_stronger (f g : A -> bool) (l : list A) :
  (forall x, f x = true -> g x = true) ->
  incl (filter f l) (filter g l)
  /\ (List.length (filter f l) <= List.length (filter g l))%nat.
Proof.
  intros Hfg; split.
  - intros x Hx. apply filter_In in Hx as [Hin Hf].
    apply filter_In; auto.
  - induction l as [|x l IH]; simpl; [lia|].
    destruct (f x) eqn:Ef.
    + rewrite (Hfg x Ef); simpl; lia.
    + destruct (g x); simpl; lia.
Qed.

End ListFilter.

Section FilterFacts.

Variable str_contains_nocase : string -> string -> bool.

Lemma filter_jobs_for_user_rows (df : DataFrame) (p : UserPreferences) :
  rows (filter_jobs_for_user str_contains_nocase df p)
  = filter (keeps str_contains_nocase df p) (rows df).
Proof.
  unfold filter_jobs_for_user, df_empty.
  destruct (rows df) as [|r0 rs] eqn:Erows; [now rewrite Erows|].
  cbn [rows with_rows].
  set (l := r0 :: rs).
  transitivity
    (filter (fun r => match exclude_keywords p with
                      | [] => true
                      | _ :: _ =>
                          negb (str_contains_nocase
                                  (PyStr.join "|" (exclude_keywords p))
                                  (title r))
                      end)
       (filter (fun r => if (0 <? min_salary p) && has_salary_min df
                         then match salary_min r with
                              | None => true
                              | Some s => min_salary p <=? s
                              end
                         else true)
          (filter (fun r => if has_quality_score df
                            then linkedin_quality_threshold p
                                 <=? quality_score r
                            else true) l))).
  - destruct (has_quality_score df);
      destruct ((0 <? min_salary p) && has_salary_min df);
      destruct (exclude_keywords p);
      rewrite ?filter_all; reflexivity.
  - rewrite !filter_twice. apply filter_ext. intros r.
    unfold keeps. now rewrite andb_assoc.
Qed.

Lemma keeps_threshold_down (df : DataFrame) (p : UserPreferences)
      (lo hi : Z) (r : JobRow) :
  lo <= hi ->
  keeps str_contains_nocase df (set_threshold p hi) r = true ->
  keeps str_contains_nocase df (set_threshold p lo) r = true.
Proof.
  intros Hle. unfold keeps. cbn [set_threshold linkedin_quality_threshold
    min_salary exclude_keywords].
  intros H. apply andb_true_iff in H as [H H3].
  apply andb_true_iff in H as [H1 H2].
  rewrite H2, H3, !andb_true_r.
  destruct (has_quality_score df); [|reflexivity].
  apply Z.leb_le in H1. apply Z.leb_le. lia.
Qed.

(** C8. For a fixed frame of postings and fixed criteria, the postings that
    survive [filter_jobs_for_user] at a higher quality threshold all survive
    at a lower one, and they are no more. *)
Theorem C8_filter_monotone (df : DataFrame) (p : UserPreferences)
        (lo hi : Z) :
  lo <= hi ->
  incl (rows (filter_jobs_for_user str_contains_nocase df
                                   (set_threshold p hi)))
       (rows (filter_jobs_for_user str_contains_nocase df
                                   (set_threshold p lo)))
  /\ (df_len (filter_jobs_for_user str_contains_nocase df
                                   (set_threshold p hi))
      <= df_len (filter_jobs_for_user str_contains_nocase df
                                      (set_threshold p lo)))%nat.
Proof.
  intros Hle. unfold df_len. rewrite !filter_jobs_for_user_rows.
  apply filter_stronger. intros r. now apply keeps_threshold_down.
Qed.

End FilterFacts.

(** The theorem on a frame of three scores, thresholds 50 and 80. *)
Lemma C8_filter_monotone_witness :
  50 <= 80
  /\ (incl (rows (filter_jobs_for_user Examples.plain_contains_nocase
                    Examples.three_scores
                    (set_threshold Examples.py_prefs 80)))
           (rows (filter_jobs_for_user Examples.plain_contains_nocase
                    Examples.three_scores
                    (set_threshold Examples.py_prefs 50)))
      /\ (df_len (filter_jobs_for_user Examples.plain_contains_nocase
                    Examples.three_scores
                    (set_threshold Examples.py_prefs 80))
          <= df_len (filter_jobs_for_user Examples.plain_contains_nocase
                       Examples.three_scores
                       (set_threshold Examples.py_prefs 50)))%nat).
Proof.
  split; [lia|].
  apply (@C8_filter_monotone Examples.plain_contains_nocase
           Examples.three_scores Examples.py_prefs 50 80).
  lia.
Defined.

(* ================================================================== *)
(** * Properties of the rate gateway *)

Module GatewayFacts.
Import Gateway.

Lemma recent_later (t now x : Z) :
  t <= now -> recent now x = true -> recent t x = true.
Proof. unfold recent. intros Hle H. apply Z.ltb_lt in H. apply Z.ltb_lt. lia. Qed.

Lemma filter_recent_later (t now : Z) (l : list Z) :
  t <= now ->
  filter (recent now) (filter (recent t) l) = filter (recent now) l.
Proof.
  intros Hle. rewrite filter_twice. apply filter_ext. intros x.
  destruct (recent now x) eqn:E.
  - now rewrite (recent_later _ Hle E).
  - apply andb_false_r.
Qed.

(** One call: it is granted exactly when fewer than the ceiling of the
    recorded readings are less than a minute old; a granted call is
    recorded, a refused one is not. *)
Lemma check_rate_limit_spec (e : Engine) (now : Z) :
  let kept := filter (recent now) (linkedin_last_requests e) in
  let '(ok, e') := check_rate_limit e now in
  (ok = true <-> (List.length kept < linkedin_requests_per_minute e)%nat)
  /\ linkedin_last_requests e'
     = (if ok then kept ++ [now] else kept)%list
  /\ acquired e' = (acquired e + (if ok then 1 else 0))%nat
  /\ linkedin_requests_per_minute e' = linkedin_requests_per_minute e
  /\ db e' = db e.
Proof.
  unfold check_rate_limit, datetime_now. cbv zeta.
  destruct (linkedin_requests_per_minute e <=? _)%nat eqn:E; cbn.
  - apply Nat.leb_le in E. repeat split; try reflexivity; try lia.
  - apply Nat.leb_gt in E. repeat split; try reflexivity; lia.
Qed.

Lemma acquire_all_refines (e : Engine) (granted : list Z) (from : Z)
      (times : list Z) :
  same_view from (linkedin_last_requests e) granted ->
  chronological from times ->
  fst (acquire_all e times)
  = spec_acquire_all (linkedin_requests_per_minute e) granted times.
Proof.
  revert e granted from.
  induction times as [|t rest IH]; intros e granted from Hview Hchr;
    [reflexivity|].
  destruct Hchr as [Hfrom Hrest].
  cbn [acquire_all spec_acquire_all].
  unfold check_rate_limit, datetime_now. cbv zeta.
  rewrite (Hview t Hfrom).
  set (n := List.length (filter (recent t) granted)).
  destruct (linkedin_requests_per_minute e <=? n)%nat eqn:E.
  - assert (E' : (n <? linkedin_requests_per_minute e)%nat = false)
      by (apply Nat.ltb_ge; now apply Nat.leb_le).
    rewrite E'.
    match goal with
    | |- context [acquire_all ?e' rest] =>
        specialize (IH e' granted t); destruct (acquire_all e' rest) eqn:Erun
    end.
    cbn [fst] in *. cbn [set_last_requests linkedin_requests_per_minute
      linkedin_last_requests] in IH.
    rewrite IH; [reflexivity| |assumption].
    intros now Hnow. rewrite <- (Hview t Hfrom).
    rewrite filter_recent_later by assumption.
    apply Hview. lia.
  - assert (E' : (n <? linkedin_requests_per_minute e)%nat = true)
      by (apply Nat.ltb_lt; now apply Nat.leb_gt).
    rewrite E'.
    match goal with
    | |- context [acquire_all ?e' rest] =>
        specialize (IH e' (granted ++ [t])%list t);
          destruct (acquire_all e' rest) eqn:Erun
    end.
    cbn [fst] in *. cbn [set_last_requests linkedin_requests_per_minute
      linkedin_last_requests] in IH.
    rewrite IH; [reflexivity| |assumption].
    intros now Hnow. rewrite !filter_app. f_equal.
    rewrite <- (Hview t Hfrom).
    rewrite filter_recent_later by assumption.
    apply Hview. lia.
Qed.

Lemma filter_keeps_all (A : Type) (f : A -> bool) (l : list A) :
  (forall x, In x l -> f x = true) -> filter f l = l.
Proof.
  induction l as [|x l IH]; intros H; simpl; [reflexivity|].
  rewrite (H x (or_introl eq_refl)). f_equal. apply IH.
  intros y Hy. apply H. now right.
Qed.

(** Calls that all fall in one window with the readings already recorded:
    the gateway grants what is left of the ceiling and refuses the rest. *)
Lemma acquire_all_one_window (e : Engine) (times : list Z) :
  (forall now g, In now times -> In g (linkedin_last_requests e) ->
                 recent now g = true) ->
  one_window times ->
  let room := (linkedin_requests_per_minute e
               - List.length (linkedin_last_requests e))%nat in
  fst (acquire_all e times)
  = (repeat true (Nat.min room (List.length times))
     ++ repeat false (List.length times - room))%list.
Proof.
  revert e. induction times as [|t rest IH]; intros e Hold Hwin room.
  - cbn. now rewrite Nat.min_0_r.
  - cbn [acquire_all]. unfold check_rate_limit, datetime_now. cbv zeta.
    rewrite (@filter_keeps_all _ (recent t) (linkedin_last_requests e))
      by (intros g Hg; apply Hold; [now left | exact Hg]).
    assert (Hwin' : one_window rest)
      by (intros a b Ha Hb; apply Hwin; now right).
    destruct (linkedin_requests_per_minute e
              <=? List.length (linkedin_last_requests e))%nat eqn:E.
    + apply Nat.leb_le in E.
      match goal with
      | |- context [acquire_all ?e' rest] =>
          specialize (IH e'); destruct (acquire_all e' rest) eqn:Erun
      end.
      cbn [fst] in *.
      cbn [set_last_requests linkedin_requests_per_minute
             linkedin_last_requests] in IH.
      rewrite IH; [|intros now g Hn Hg; apply Hold; [now right|exact Hg]
                   |exact Hwin'].
      replace room with 0%nat by (unfold room; lia).
      replace (linkedin_requests_per_minute e
               - List.length (linkedin_last_requests e))%nat with 0%nat
        by lia.
      cbn. now rewrite Nat.sub_0_r.
    + apply Nat.leb_gt in E.
      match goal with
      | |- context [acquire_all ?e' rest] =>
          specialize (IH e'); destruct (acquire_all e' rest) eqn:Erun
      end.
      cbn [fst] in *.
      cbn [set_last_requests linkedin_requests_per_minute
             linkedin_last_requests] in IH.
      rewrite IH; [| |exact Hwin'].
      * rewrite length_app. cbn [List.length].
        destruct room as [|k] eqn:Eroom; [unfold room in Eroom; lia|].
        replace (linkedin_requests_per_minute e
                 - (List.length (linkedin_last_requests e) + 1))%nat
          with k by (unfold room in Eroom; lia).
        reflexivity.
      * intros now g Hn Hg. apply in_app_or in Hg as [Hg|[<-|[]]].
        -- apply Hold; [now right|exact Hg].
        -- apply Z.ltb_lt. apply Hwin; [now right | now left].
Qed.

(** On readings that are not in the future the test of the code is the
    window of the specification. *)
Lemma recent_in_preceding_minute (now : Z) (l : list Z) :
  (forall g, In g l -> g <= now) ->
  filter (recent now) l = filter (in_preceding_minute now) l.
Proof.
  intros Hle. apply filter_ext_in. intros g Hg.
  unfold in_preceding_minute, recent.
  replace (g <=? now) with true
    by (symmetry; apply Z.leb_le; now apply Hle).
  reflexivity.
Qed.

Lemma spec_is_sliding_window_rule (ceiling : nat) (times : list Z) :
  forall (granted : list Z) (from : Z),
    (forall g, In g granted -> g <= from) ->
    chronological from times ->
    spec_acquire_all ceiling granted times
    = sliding_window_rule ceiling granted times.
Proof.
  induction times as [|t rest IH]; intros granted from Hle Hchr;
    [reflexivity|].
  destruct Hchr as [Hfrom Hrest].
  cbn [spec_acquire_all sliding_window_rule].
  rewrite (@recent_in_preceding_minute t granted)
    by (intros g Hg; specialize (Hle g Hg); lia).
  destruct (_ <? ceiling)%nat; f_equal.
  - apply (IH _ t); [|exact Hrest].
    intros g Hg. apply in_app_or in Hg as [Hg|[<-|[]]]; [|lia].
    specialize (Hle g Hg). lia.
  - apply (IH _ t); [|exact Hrest].
    intros g Hg. specialize (Hle g Hg). lia.
Qed.

Lemma last_cons_default (rest : list Z) :
  forall t d : Z, last (t :: rest) d = last rest t.
Proof.
  induction rest as [|a rest IH]; intros t d; [reflexivity|].
  change (last (t :: a :: rest) d) with (last (a :: rest) d).
  now rewrite (IH a d), (IH a t).
Qed.

Lemma chronological_last (rest : list Z) :
  forall t : Z, chronological t rest -> t <= last rest t.
Proof.
  induction rest as [|a rest IH]; intros t Hchr; [cbn [last]; lia|].
  destruct Hchr as [Hta Hrest].
  rewrite last_cons_default.
  specialize (IH a Hrest). lia.
Qed.

Lemma filter_window_later (t z : Z) (l : list Z) :
  t <= z ->
  filter (in_preceding_minute z) (filter (recent t) l)
  = filter (in_preceding_minute z) l.
Proof.
  intros Hle. rewrite filter_twice. apply filter_ext. intros x.
  unfold in_preceding_minute, recent.
  destruct (x <=? z); cbn [andb]; [|apply andb_false_r].
  destruct (z - x <? minute_us) eqn:E; [|apply andb_false_r].
  apply Z.ltb_lt in E. cbn [andb].
  rewrite andb_true_r. apply Z.ltb_lt. lia.
Qed.

(** What the gateway has on record after a run of calls: the readings of
    the granted calls, with what it held before, that lie within the 60
    seconds preceding the last call. *)
Lemma acquire_all_records (rest : list Z) :
  forall (e : Engine) (from t : Z),
    (forall g, In g (linkedin_last_requests e) -> g <= from) ->
    from <= t -> chronological t rest ->
    linkedin_last_requests (snd (acquire_all e (t :: rest)))
    = filter (in_preceding_minute (last rest t))
             (linkedin_last_requests e
              ++ granted_readings (t :: rest)
                                  (fst (acquire_all e (t :: rest))))%list.
Proof.
  induction rest as [|t2 rest IH]; intros e from t Hold Hfrom Hchr.
  - cbn [acquire_all last]. unfold check_rate_limit, datetime_now.
    cbv zeta.
    assert (Hkept : filter (recent t) (linkedin_last_requests e)
                    = filter (in_preceding_minute t)
                             (linkedin_last_requests e)).
    { apply recent_in_preceding_minute. intros g Hg.
      specialize (Hold g Hg). lia. }
    assert (Hself : in_preceding_minute t t = true).
    { unfold in_preceding_minute. rewrite Z.leb_refl, Z.sub_diag.
      reflexivity. }
    destruct (linkedin_requests_per_minute e <=? _)%nat;
      cbn [fst snd granted_readings set_last_requests
             linkedin_last_requests];
      rewrite filter_app, Hkept; cbn [filter]; [now rewrite app_nil_r|].
    now rewrite Hself.
  - destruct Hchr as [Ht2 Hrest].
    rewrite last_cons_default.
    pose proof (@chronological_last rest t2 Hrest) as Hlast.
    set (z := last rest t2) in *.
    change (acquire_all e (t :: t2 :: rest))
      with (let '(ok, e1) := check_rate_limit e t in
            let '(oks, e2) := acquire_all e1 (t2 :: rest) in
            (ok :: oks, e2)).
    unfold check_rate_limit, datetime_now. cbv zeta.
    set (kept := filter (recent t) (linkedin_last_requests e)).
    assert (Hkept_le : forall g, In g kept -> g <= t).
    { intros g Hg. apply filter_In in Hg as [Hg _].
      specialize (Hold g Hg). lia. }
    assert (Hwin : filter (in_preceding_minute z) kept
                   = filter (in_preceding_minute z)
                            (linkedin_last_requests e))
      by (apply filter_window_later; lia).
    destruct (linkedin_requests_per_minute e <=? List.length kept)%nat.
    + match goal with
      | |- context [acquire_all ?e1 (t2 :: rest)] =>
          specialize (IH e1 t t2); destruct (acquire_all e1 (t2 :: rest))
            as [oks e2] eqn:Erun
      end.
      cbn [fst snd set_last_requests linkedin_last_requests] in *.
      rewrite IH; [|exact Hkept_le|exact Ht2|exact Hrest].
      cbn [granted_readings]. fold z.
      now rewrite !filter_app, Hwin.
    + match goal with
      | |- context [acquire_all ?e1 (t2 :: rest)] =>
          specialize (IH e1 t t2); destruct (acquire_all e1 (t2 :: rest))
            as [oks e2] eqn:Erun
      end.
      cbn [fst snd set_last_requests linkedin_last_requests] in *.
      rewrite IH; [| |exact Ht2|exact Hrest].
      * change (granted_readings (t :: t2 :: rest) (true :: oks))
          with (t :: granted_readings (t2 :: rest) oks).
        fold z. rewrite <- app_assoc. cbn [app].
        now rewrite !filter_app, Hwin.
      * intros g Hg. apply in_app_or in Hg as [Hg|[<-|[]]];
          [now apply Hkept_le | lia].
Qed.

(** C3 (as amended). Calls of the gateway made one after the other on a
    process clock that does not go back: each is granted exactly when fewer
    than the ceiling of the calls granted before it lie within the
    preceding 60 seconds, and is refused otherwise; after the run the
    gateway has on record exactly the readings of the granted calls that
    lie within the 60 seconds preceding the last call - a granted call is
    recorded, a refused one is not; and when all the calls fall in one
    60-second window, the first [ceiling] of them are granted and every
    later one is refused. *)
Theorem C3_sliding_window (d : Database) (ceiling : nat) (from : Z)
        (times : list Z) :
  chronological from times ->
  let run := acquire_all (fresh_engine d ceiling) times in
  fst run = sliding_window_rule ceiling [] times
  /\ (times <> [] ->
      linkedin_last_requests (snd run)
      = filter (in_preceding_minute (last times from))
               (granted_readings times (fst run)))
  /\ (one_window times ->
      fst run = (repeat true (Nat.min ceiling (List.length times))
                 ++ repeat false (List.length times - ceiling))%list).
Proof.
  intros Hchr run. split; [|split].
  - unfold run.
    rewrite (@acquire_all_refines (fresh_engine d ceiling) [] from times);
      [|intros now _; reflexivity|exact Hchr].
    apply (@spec_is_sliding_window_rule ceiling times [] from);
      [intros g []|exact Hchr].
  - intros Hne. unfold run.
    destruct times as [|t rest]; [now contradiction Hne|].
    destruct Hchr as [Hfrom Hrest].
    rewrite last_cons_default.
    rewrite (@acquire_all_records rest (fresh_engine d ceiling) from t);
      [reflexivity|intros g []|exact Hfrom|exact Hrest].
  - intros Hwin. unfold run.
    rewrite acquire_all_one_window; [|intros ? ? _ []|exact Hwin].
    cbn. now rewrite Nat.sub_0_r.
Qed.

(** C3 (counterexample). On a clock that goes back the gateway refuses a
    call with nothing in the preceding 60 seconds: ceiling 1, a call at
    second 100 and then one at second 0. The second call has no granted
    call before it on the clock, and the rule of the claim grants it; the
    code keeps the reading of second 100, since 0 - 100 s is less than a
    minute, and refuses. *)
Lemma C3_clock_set_back_refuses_early :
  fst (acquire_all Cases.gate_1 Cases.clock_set_back) = [true; false]
  /\ sliding_window_rule 1 [] Cases.clock_set_back = [true; true]
  /\ filter (in_preceding_minute 0) [100000000] = [].
Proof. repeat split. Qed.

End GatewayFacts.

(** The theorem on three calls one second apart, ceiling 2. *)
Lemma C3_sliding_window_witness :
  Gateway.chronological 0 [0; 1000000; 2000000]
  /\ Gateway.one_window [0; 1000000; 2000000]
  /\ fst (Gateway.acquire_all
            (Gateway.fresh_engine (Examples.store [] []) 2)
            [0; 1000000; 2000000])
     = Gateway.sliding_window_rule 2 [] [0; 1000000; 2000000]
  /\ fst (Gateway.acquire_all
            (Gateway.fresh_engine (Examples.store [] []) 2)
            [0; 1000000; 2000000])
     = [true; true; false].
Proof.
  assert (Hchr : Gateway.chronological 0 [0; 1000000; 2000000])
    by (cbn; lia).
  assert (Hwin : Gateway.one_window [0; 1000000; 2000000])
    by (intros a b Ha Hb; cbn in Ha, Hb; unfold minute_us; lia).
  destruct (@GatewayFacts.C3_sliding_window (Examples.store [] []) 2 0
              [0; 1000000; 2000000] Hchr) as [Hspec [_ Hexcess]].
  split; [exact Hchr|]. split; [exact Hwin|].
  split; [exact Hspec | exact (Hexcess Hwin)].
Defined.

(* ================================================================== *)
(** * Properties of the source adapter *)

Module AdapterFacts.
Import Adapter.

Local Ltac Zify.zify_post_hook ::= Z.div_mod_to_equations.

Lemma pages_left_done (start : Z) : pages_left start = 0%nat -> 200 <= start.
Proof. unfold pages_left. intros H. lia. Qed.

Lemma pages_left_step (start : Z) :
  start < 200 -> pages_left start = S (pages_left (start + 25)).
Proof. unfold pages_left. intros H. lia. Qed.

(** Against a source that always answers 429 the loop never leaves its
    first page, whatever the number of turns allowed. *)
Lemma pagination_loop_stuck (fuel max_results : nat) (jobs : list JobRow)
      (start : Z) (gets : nat) :
  (List.length jobs < max_results)%nat -> start < 200 ->
  pagination_loop fuel always_429 max_results jobs start gets = None.
Proof.
  intros Hlen Hstart. revert gets.
  induction fuel as [|fuel IH]; intros gets; cbn [pagination_loop];
    (replace (List.length jobs <? max_results)%nat with true
      by (symmetry; now apply Nat.ltb_lt));
    (replace (start <? 200) with true by (symmetry; now apply Z.ltb_lt));
    cbn [andb]; [reflexivity|].
  unfold always_429 at 1. cbn. apply IH.
Qed.

(** Once the source stops answering 429, the loop ends: one turn for each
    429 still to come and one for each page left are enough. *)
Lemma pagination_loop_returns (server : Server) (max_results quiet : nat) :
  quiet_from quiet server ->
  forall (fuel : nat) (jobs : list JobRow) (start : Z) (gets : nat),
    (quiet - gets + pages_left start <= fuel)%nat ->
    exists (jobs' : list JobRow) (gets' : nat),
      pagination_loop fuel server max_results jobs start gets
      = Some (jobs', gets')
      /\ (gets' <= gets + (quiet - gets) + pages_left start)%nat.
Proof.
  intros Hquiet. induction fuel as [|fuel IH]; intros jobs start gets Hfuel.
  - cbn [pagination_loop].
    assert (H0 : pages_left start = 0%nat) by lia.
    apply pages_left_done in H0.
    replace (start <? 200) with false by (symmetry; apply Z.ltb_ge; lia).
    rewrite andb_false_r. exists jobs, gets. split; [reflexivity | lia].
  - cbn [pagination_loop].
    destruct ((List.length jobs <? max_results)%nat && (start <? 200))%bool
             eqn:Econd; [|exists jobs, gets; split; [reflexivity | lia]].
    apply andb_true_iff in Econd as [_ Hstart]. apply Z.ltb_lt in Hstart.
    pose proof (pages_left_step Hstart) as Hstep.
    destruct (server gets start) as [status cards|] eqn:Eresp;
      [|exists jobs, (S gets); split; [reflexivity | lia]].
    destruct (status =? 429) eqn:E429.
    + assert (Hlt : (gets < quiet)%nat).
      { destruct (Nat.lt_ge_cases gets quiet) as [H|H]; [exact H|].
        specialize (Hquiet gets start H). rewrite Eresp in Hquiet.
        cbn in Hquiet. congruence. }
      destruct (IH jobs start (S gets)) as (jobs' & gets' & Hrun & Hle);
        [lia|].
      exists jobs', gets'. split; [exact Hrun | lia].
    + destruct (negb (status =? 200));
        [exists jobs, (S gets); split; [reflexivity | lia]|].
      destruct cards as [|card cards];
        [exists jobs, (S gets); split; [reflexivity | lia]|].
      destruct (IH (add_cards max_results (card :: cards) jobs)
                   (start + 25) (S gets))
        as (jobs' & gets' & Hrun & Hle); [lia|].
      exists jobs', gets'. split; [exact Hrun | lia].
Qed.

(** C7 (as amended). On a 429 the method sleeps and asks for the same page
    again, as long as the source answers 429: there is no bound on the
    retries. The loop ends exactly as far as the 429 answers end: if the
    source answers 429 to none of the GETs from the [quiet]-th on, the
    method returns within [quiet + 8] turns of the loop, having sent at
    most [quiet + 8] GETs (8 pages: the offsets 0, 25, ..., 175). *)
Theorem C7_returns_once_429_stops (server : Server)
        (max_results quiet : nat) :
  quiet_from quiet server ->
  exists (jobs : list JobRow) (gets : nat),
    method_1_guest_api (quiet + 8) server max_results = Some (jobs, gets)
    /\ (gets <= quiet + 8)%nat.
Proof.
  intros Hquiet. unfold method_1_guest_api.
  destruct (@pagination_loop_returns server max_results quiet Hquiet
              (quiet + 8)%nat [] 0 0%nat)
    as (jobs & gets & Hrun & Hle).
  - replace (pages_left 0) with 8%nat by reflexivity. lia.
  - exists jobs, gets. split; [exact Hrun|].
    replace (pages_left 0) with 8%nat in Hle by reflexivity. lia.
Qed.

(** C7 (counterexample). Against a source that keeps answering 429 the
    method does not return, whatever the number of turns: the retries of
    the same request are not bounded. *)
Lemma C7_persistent_429_never_returns :
  ~ (forall server : Server,
        exists (fuel : nat) (res : list JobRow * nat),
          method_1_guest_api fuel server 10 = Some res).
Proof.
  intros H. destruct (H always_429) as (fuel & res & Hrun).
  unfold method_1_guest_api in Hrun.
  rewrite pagination_loop_stuck in Hrun; [discriminate | cbn; lia | lia].
Qed.

End AdapterFacts.

(** The theorem on a source that answers 429 three times. *)
Lemma C7_returns_once_429_stops_witness :
  Adapter.quiet_from 3 Examples.busy_then_empty
  /\ exists (jobs : list JobRow) (gets : nat),
      Adapter.method_1_guest_api (3 + 8) Examples.busy_then_empty 10
      = Some (jobs, gets)
      /\ (gets <= 3 + 8)%nat.
Proof.
  assert (Hq : Adapter.quiet_from 3 Examples.busy_then_empty).
  { intros k start Hk. unfold Examples.busy_then_empty.
    replace (k <? 3)%nat with false by (symmetry; apply Nat.ltb_ge; lia).
    reflexivity. }
  split; [exact Hq|].
  exact (@AdapterFacts.C7_returns_once_429_stops
           Examples.busy_then_empty 10 3 Hq).
Defined.

(* ================================================================== *)
(** * Properties of deduplication and persistence *)

Module PersistFacts.
Import Persist.

Lemma usable_url_has_url (r : JobRow) :
  usable_url r = None <-> has_url r = false.
Proof. unfold has_url. destruct (usable_url r); split; congruence. Qed.

(** A row without a usable URL leaves the store and [new_jobs] as they
    are. *)
Lemma save_one_skips (uid : string) (df : DataFrame)
      (acc : Database * list JobRow) (r : JobRow) :
  usable_url r = None -> save_one uid df acc r = acc.
Proof. intros H. unfold save_one. destruct acc. now rewrite H. Qed.

Lemma fold_save_one_filter (uid : string) (df : DataFrame)
      (rs : list JobRow) (acc : Database * list JobRow) :
  fold_left (save_one uid df) rs acc
  = fold_left (save_one uid df) (filter has_url rs) acc.
Proof.
  revert acc. induction rs as [|r rs IH]; intros acc; [reflexivity|].
  cbn [fold_left filter]. destruct (has_url r) eqn:E.
  - cbn [fold_left]. apply IH.
  - rewrite save_one_skips by now apply usable_url_has_url. apply IH.
Qed.

Lemma save_one_new_jobs (uid : string) (df : DataFrame)
      (acc : Database * list JobRow) (r : JobRow) :
  snd (save_one uid df acc r) = snd acc
  \/ (snd (save_one uid df acc r) = (snd acc ++ [r])%list
      /\ has_url r = true).
Proof.
  unfold save_one, has_url. destruct acc as [d new].
  destruct (usable_url r) as [url|]; [|now left].
  destruct (Store.get_user_job_status d uid url); [now left|].
  destruct (save_job_to_db d (make_job_data df r url)) as [d1 [jid|]];
    [|now left].
  destruct (create_user_job_relationship d1 uid jid (row_quality_score df r))
    as [d2 [|]]; [right; now split | now left].
Qed.

Lemma fold_save_one_new_jobs (uid : string) (df : DataFrame)
      (rs : list JobRow) (acc : Database * list JobRow) :
  (forall r, In r (snd acc) -> has_url r = true) ->
  forall r, In r (snd (fold_left (save_one uid df) rs acc)) ->
            has_url r = true.
Proof.
  revert acc. induction rs as [|r0 rs IH]; intros acc Hacc; [exact Hacc|].
  cbn [fold_left]. apply IH. intros r Hr.
  destruct (save_one_new_jobs uid df acc r0) as [E|[E Hu]];
    rewrite E in Hr; [now apply Hacc|].
  apply in_app_or in Hr as [Hr|[<-|[]]]; [now apply Hacc | exact Hu].
Qed.

(** C10. A row of the frame whose [job_url] is missing or empty is skipped
    by [save_jobs_for_user]: its turn of the loop leaves the store (no job
    row, no link) and the list of new jobs as they were; no such row is
    among the jobs returned; and the call gives the same store and the same
    result as on the frame without these rows. *)
Theorem C10_rows_without_url_skipped (d : Database) (uid : string)
        (df : DataFrame) :
  (forall (acc : Database * list JobRow) (r : JobRow),
      has_url r = false -> save_one uid df acc r = acc)
  /\ (forall r, In r (rows (snd (save_jobs_for_user d uid df))) ->
                has_url r = true)
  /\ save_jobs_for_user d uid df
     = save_jobs_for_user d uid (with_rows df (filter has_url (rows df))).
Proof.
  split; [|split].
  - intros acc r H. apply save_one_skips. now apply usable_url_has_url.
  - intros r. unfold save_jobs_for_user.
    destruct (df_empty df); [intros []|].
    pose proof (@fold_save_one_new_jobs uid df (rows df) (d, [])) as H.
    destruct (fold_left (save_one uid df) (rows df) (d, [])) as [d' new].
    cbn [snd] in *. destruct new as [|r0 new]; [intros []|].
    cbn [rows with_rows]. apply H. intros ? [].
  - unfold save_jobs_for_user, df_empty. cbn [rows with_rows].
    rewrite (fold_save_one_filter uid df (rows df)).
    assert (Hsame : forall acc rs,
               fold_left (save_one uid (with_rows df (filter has_url (rows df))))
                         rs acc
               = fold_left (save_one uid df) rs acc).
    { intros acc rs. revert acc. induction rs as [|r rs IH]; intros acc;
        [reflexivity|]. cbn [fold_left]. rewrite IH. reflexivity. }
    rewrite (Hsame (d, []) (filter has_url (rows df))).
    destruct (rows df) as [|r0 rs] eqn:Erows; [reflexivity|].
    destruct (filter has_url (r0 :: rs)) as [|r1 rs1] eqn:Ef.
    + reflexivity.
    + destruct (fold_left (save_one uid df) (r1 :: rs1) (d, []))
        as [d' [|n new]]; reflexivity.
Qed.

(** ** The store after a save: every row with a URL is linked *)

Lemma linked_true_iff (d : Database) (uid url : string) :
  linked d uid url = true
  <-> exists uj j,
      In uj (user_jobs d) /\ In j (jobs d) /\ uj_user_id uj = uid
      /\ j_id j = uj_job_id uj /\ j_job_url j = url.
Proof.
  unfold linked, Store.get_user_job_status.
  match goal with |- context [find ?f ?l] => destruct (find f l) eqn:F end.
  - split; [intros _|reflexivity].
    apply find_some in F as [Hin Hp].
    apply andb_true_iff in Hp as [Hu Hj].
    apply existsb_exists in Hj as (j & Hj & Hp).
    apply andb_true_iff in Hp as [Hid Hurl].
    exists u, j. repeat split; try assumption.
    + now apply String.eqb_eq.
    + now apply Nat.eqb_eq.
    + now apply String.eqb_eq.
  - split; [discriminate|].
    intros (uj & j & Huj & Hj & Hu & Hid & Hurl).
    pose proof (find_none _ _ F uj Huj) as Hp. cbn beta in Hp.
    apply andb_false_iff in Hp as [Hp|Hp].
    + apply String.eqb_neq in Hp. contradiction.
    + assert (Hex : existsb (fun j0 => (j_id j0 =? uj_job_id uj)%nat
                                       && (j_job_url j0 =? url)%string)
                            (jobs d) = true).
      { apply existsb_exists. exists j. split; [exact Hj|].
        apply andb_true_iff. split;
          [now apply Nat.eqb_eq | now apply String.eqb_eq]. }
      congruence.
Qed.

Lemma extends_refl (d : Database) : extends d d.
Proof. unfold extends. repeat split; auto using incl_refl. Qed.

Lemma extends_trans (d1 d2 d3 : Database) :
  extends d1 d2 -> extends d2 d3 -> extends d1 d3.
Proof.
  unfold extends. intros (A1 & A2 & A3 & A4 & A5) (B1 & B2 & B3 & B4 & B5).
  repeat split; try congruence; try lia; eauto using incl_tran.
Qed.

Lemma linked_extends (d d' : Database) (uid url : string) :
  extends d d' -> linked d uid url = true -> linked d' uid url = true.
Proof.
  intros (_ & _ & Hj & Hu & _) H. apply linked_true_iff in H.
  destruct H as (uj & j & H1 & H2 & H3).
  apply linked_true_iff. exists uj, j. repeat split; try tauto; auto.
Qed.

Lemma save_job_to_db_spec (d : Database) (jd : JobData) :
  db_wf d -> d_external_id jd = d_job_url jd ->
  db_wf (fst (save_job_to_db d jd))
  /\ extends d (fst (save_job_to_db d jd))
  /\ exists jid j,
      snd (save_job_to_db d jd) = Some jid
      /\ In j (jobs (fst (save_job_to_db d jd)))
      /\ j_id j = jid /\ j_job_url j = d_job_url jd.
Proof.
  intros [Hjobs Hlinks] Hext. unfold save_job_to_db, uuid4.
  cbv zeta. cbv iota. cbv beta.
  match goal with |- context [job_conflict ?d' ?r] =>
    destruct (job_conflict d' r) eqn:Econf end; cbn [negb fst snd].
  - (* the row is ignored: a job with this external id is there *)
    unfold job_conflict in Econf. cbn [jobs] in Econf.
    apply existsb_exists in Econf as (j & Hj & Hp).
    destruct (Hjobs j Hj) as [Hje Hjid].
    apply orb_true_iff in Hp as [Hp|Hp].
    { apply Nat.eqb_eq in Hp. cbn in Hp. lia. }
    apply andb_true_iff in Hp as [Hp _]. apply String.eqb_eq in Hp.
    cbn in Hp.
    split; [|split].
    + split; cbn; intros x Hx.
      * destruct (Hjobs x Hx); split; [assumption | lia].
      * specialize (Hlinks x Hx). lia.
    + unfold extends; cbn. repeat split; auto using incl_refl.
    + unfold get_existing_job_id. cbn [jobs].
      destruct (find (fun j0 => (j_job_url j0 =? d_job_url jd)%string)
                     (jobs d)) as [j'|] eqn:F.
      * apply find_some in F as [Hin Hurl]. apply String.eqb_eq in Hurl.
        exists (j_id j'), j'. cbn. auto.
      * pose proof (find_none _ _ F j Hj) as Hn. cbn beta in Hn.
        apply String.eqb_neq in Hn. congruence.
  - split; [|split].
    + split; cbn; intros x Hx.
      * apply in_app_or in Hx as [Hx|[<-|[]]].
        -- destruct (Hjobs x Hx); split; [assumption | lia].
        -- cbn. split; [exact Hext | lia].
      * specialize (Hlinks x Hx). lia.
    + unfold extends; cbn. repeat split; auto using incl_refl, incl_appl.
    + eexists _, _. cbn. split; [reflexivity|]. split.
      * apply in_or_app. right. left. reflexivity.
      * cbn. auto.
Qed.

Lemma create_user_job_relationship_spec (d : Database) (uid : string)
      (jid : nat) (sc : Z) :
  db_wf d ->
  snd (create_user_job_relationship d uid jid sc) = true
  /\ db_wf (fst (create_user_job_relationship d uid jid sc))
  /\ extends d (fst (create_user_job_relationship d uid jid sc))
  /\ exists uj,
      In uj (user_jobs (fst (create_user_job_relationship d uid jid sc)))
      /\ uj_user_id uj = uid /\ uj_job_id uj = jid.
Proof.
  intros [Hjobs Hlinks]. unfold create_user_job_relationship, uuid4.
  cbv zeta. cbv iota. cbv beta.
  match goal with |- context [link_conflict ?d' ?r] =>
    destruct (link_conflict d' r) eqn:Econf end; cbn [negb fst snd].
  - unfold link_conflict in Econf. cbn [user_jobs] in Econf.
    apply existsb_exists in Econf as (uj & Huj & Hp).
    apply orb_true_iff in Hp as [Hp|Hp].
    { apply Nat.eqb_eq in Hp. cbn in Hp. specialize (Hlinks uj Huj). lia. }
    apply andb_true_iff in Hp as [Hu Hj]. cbn in Hu, Hj.
    apply String.eqb_eq in Hu. apply Nat.eqb_eq in Hj.
    split; [reflexivity|]. split; [|split].
    + split; cbn; intros x Hx.
      * destruct (Hjobs x Hx); split; [assumption | lia].
      * specialize (Hlinks x Hx). lia.
    + unfold extends; cbn. repeat split; auto using incl_refl.
    + exists uj. cbn. auto.
  - split; [reflexivity|]. split; [|split].
    + split; cbn; intros x Hx.
      * destruct (Hjobs x Hx); split; [assumption | lia].
      * apply in_app_or in Hx as [Hx|[<-|[]]];
          [specialize (Hlinks x Hx); lia | cbn; lia].
    + unfold extends; cbn. repeat split; auto using incl_refl, incl_appl.
    + eexists. cbn. split; [apply in_or_app; right; left; reflexivity|].
      cbn. auto.
Qed.

(** The store was not touched: two of the three parts of a save lemma. *)
Ltac unchanged_store Hwf :=
  cbn [fst fold_left]; split; [exact Hwf|]; split; [apply extends_refl|].

Lemma save_one_spec (uid : string) (df : DataFrame) (d : Database)
      (new : list JobRow) (r : JobRow) :
  db_wf d ->
  db_wf (fst (save_one uid df (d, new) r))
  /\ extends d (fst (save_one uid df (d, new) r))
  /\ forall url, usable_url r = Some url ->
                 linked (fst (save_one uid df (d, new) r)) uid url = true.
Proof.
  intros Hwf. unfold save_one.
  destruct (usable_url r) as [url|] eqn:Eurl;
    [|unchanged_store Hwf; intros ? [=]].
  destruct (Store.get_user_job_status d uid url) as [st|] eqn:Est.
  { unchanged_store Hwf.
    intros url' [= <-]. unfold linked. now rewrite Est. }
  destruct (@save_job_to_db_spec d (make_job_data df r url) Hwf eq_refl)
    as (Hwf1 & Hext1 & jid & j & Hres & Hj & Hjid & Hjurl).
  destruct (save_job_to_db d (make_job_data df r url)) as [d1 res].
  cbn [fst snd] in *. subst res.
  destruct (@create_user_job_relationship_spec
              d1 uid jid (row_quality_score df r) Hwf1)
    as (Hok & Hwf2 & Hext2 & uj & Huj & Hu & Hujid).
  destruct (create_user_job_relationship d1 uid jid (row_quality_score df r))
    as [d2 ok].
  cbn [fst snd] in *. subst ok. cbn [fst].
  split; [exact Hwf2|]. split; [eauto using extends_trans|].
  intros url' [= <-]. apply linked_true_iff.
  exists uj, j. repeat split; auto.
  - destruct Hext2 as (_ & _ & Hincl & _). now apply Hincl.
  - congruence.
Qed.

Lemma save_one_noop (uid : string) (df : DataFrame)
      (acc : Database * list JobRow) (r : JobRow) :
  (forall url, usable_url r = Some url -> linked (fst acc) uid url = true) ->
  save_one uid df acc r = acc.
Proof.
  intros H. unfold save_one. destruct acc as [d new].
  destruct (usable_url r) as [url|]; [|reflexivity].
  specialize (H url eq_refl). unfold linked in H. cbn [fst] in H.
  destruct (Store.get_user_job_status d uid url); [reflexivity|discriminate].
Qed.

Lemma fold_save_one_noop (uid : string) (df : DataFrame) (rs : list JobRow)
      (acc : Database * list JobRow) :
  (forall r url, In r rs -> usable_url r = Some url ->
                 linked (fst acc) uid url = true) ->
  fold_left (save_one uid df) rs acc = acc.
Proof.
  induction rs as [|r rs IH]; intros H; [reflexivity|].
  cbn [fold_left]. rewrite save_one_noop.
  - apply IH. intros r' url Hin. apply H. now right.
  - intros url. apply H. now left.
Qed.

Lemma fold_save_one_spec (uid : string) (df : DataFrame) (rs : list JobRow)
      (d : Database) (new : list JobRow) :
  db_wf d ->
  db_wf (fst (fold_left (save_one uid df) rs (d, new)))
  /\ extends d (fst (fold_left (save_one uid df) rs (d, new)))
  /\ forall r url, In r rs -> usable_url r = Some url ->
        linked (fst (fold_left (save_one uid df) rs (d, new))) uid url
        = true.
Proof.
  revert d new. induction rs as [|r rs IH]; intros d new Hwf.
  - unchanged_store Hwf. intros ? ? [].
  - cbn [fold_left].
    destruct (@save_one_spec uid df d new r Hwf) as (Hwf1 & Hext1 & Hl1).
    destruct (save_one uid df (d, new) r) as [d1 new1]. cbn [fst] in *.
    destruct (IH d1 new1 Hwf1) as (Hwf2 & Hext2 & Hl2).
    split; [exact Hwf2|]. split; [eauto using extends_trans|].
    intros r' url [<-|Hin] Hurl.
    + eapply linked_extends; [exact Hext2|]. now apply Hl1.
    + now apply (Hl2 r').
Qed.

(** A save on a well-formed store: the store stays well-formed and only
    grows, and afterwards every row of the frame that has a URL is linked
    to the user. *)
Lemma save_jobs_for_user_spec (d : Database) (uid : string)
      (df : DataFrame) :
  db_wf d ->
  db_wf (fst (save_jobs_for_user d uid df))
  /\ extends d (fst (save_jobs_for_user d uid df))
  /\ forall r url, In r (rows df) -> usable_url r = Some url ->
        linked (fst (save_jobs_for_user d uid df)) uid url = true.
Proof.
  intros Hwf. unfold save_jobs_for_user, df_empty.
  destruct (rows df) as [|r0 rs] eqn:Erows.
  - unchanged_store Hwf. intros ? ? [].
  - destruct (@fold_save_one_spec uid df (r0 :: rs) d [] Hwf)
      as (H1 & H2 & H3).
    destruct (fold_left (save_one uid df) (r0 :: rs) (d, [])) as [d' new].
    cbn [fst] in *. auto.
Qed.

(** A save of rows that are all linked already changes nothing and returns
    the empty frame. *)
Lemma save_jobs_for_user_noop (d : Database) (uid : string)
      (df : DataFrame) :
  (forall r url, In r (rows df) -> usable_url r = Some url ->
                 linked d uid url = true) ->
  save_jobs_for_user d uid df = (d, empty_frame).
Proof.
  intros H. unfold save_jobs_for_user.
  destruct (df_empty df); [reflexivity|].
  rewrite fold_save_one_noop; [reflexivity | exact H].
Qed.

End PersistFacts.

(* ================================================================== *)
(** * Properties of a cycle *)

Section CycleFacts.

Variable str_contains_nocase : string -> string -> bool.
Variable smtp_accepts : Email -> bool.
Variable scrape :
  string -> string -> nat -> string -> string -> list JobRow * nat.

Import Persist.

(** ** Scores do not rise with time *)

Lemma recency_points_later (r : JobRow) (c1 c2 : Z) :
  c1 <= c2 -> Scoring.recency_points r c2 <= Scoring.recency_points r c1.
Proof.
  intros Hle. unfold Scoring.recency_points.
  destruct (posted_date r) as [| | |t]; try lia.
  assert (Hd : timedelta_days c1 t <= timedelta_days c2 t).
  { unfold timedelta_days. apply Z.div_le_mono; [reflexivity | lia]. }
  destruct (timedelta_days c1 t <=? 1) eqn:A1;
    destruct (timedelta_days c2 t <=? 1) eqn:A2;
    destruct (timedelta_days c1 t <=? 3) eqn:B1;
    destruct (timedelta_days c2 t <=? 3) eqn:B2; lia.
Qed.

Lemma score_later (r : JobRow) (p : UserPreferences) (c1 c2 : Z) :
  c1 <= c2 ->
  Scoring.calculate_quality_score r p c2
  <= Scoring.calculate_quality_score r p c1.
Proof.
  intros Hle. rewrite !ScoringFacts.calculate_quality_score_eq.
  pose proof (recency_points_later r Hle). unfold Scoring.clamp. lia.
Qed.

Lemma keeps_score_down (df1 df2 : DataFrame) (p : UserPreferences)
      (r : JobRow) (q1 q2 : Z) :
  has_quality_score df1 = has_quality_score df2 ->
  has_salary_min df1 = has_salary_min df2 ->
  q2 <= q1 ->
  keeps str_contains_nocase df2 p (set_quality_score r q2) = true ->
  keeps str_contains_nocase df1 p (set_quality_score r q1) = true.
Proof.
  intros Hq Hs Hle. unfold keeps. rewrite Hq, Hs.
  cbn [set_quality_score quality_score salary_min title].
  intros H. apply andb_true_iff in H as [H H3].
  apply andb_true_iff in H as [H1 H2].
  rewrite H2, H3, !andb_true_r.
  destruct (has_quality_score df2); [|reflexivity].
  apply Z.leb_le in H1. apply Z.leb_le. lia.
Qed.

Lemma score_rows_later (df1 df2 : DataFrame) (p : UserPreferences)
      (now1 now2 : nat -> Z) (rs : list JobRow) :
  has_quality_score df1 = has_quality_score df2 ->
  has_salary_min df1 = has_salary_min df2 ->
  (forall i, now1 i <= now2 i) ->
  forall (i : nat) (r2 : JobRow),
    In r2 (filter (keeps str_contains_nocase df2 p)
                  (score_rows p now2 i rs)) ->
    exists r1,
      In r1 (filter (keeps str_contains_nocase df1 p)
                    (score_rows p now1 i rs))
      /\ job_url r1 = job_url r2.
Proof.
  intros Hq Hs Hnow. induction rs as [|r rs IH]; intros i r2 Hin;
    [destruct Hin|].
  cbn [score_rows filter] in *.
  destruct (keeps str_contains_nocase df2 p
              (set_quality_score r
                 (Scoring.calculate_quality_score r p (now2 i)))) eqn:K2.
  - rewrite (@keeps_score_down df1 df2 p r _ _ Hq Hs
               (score_later r p (Hnow i)) K2).
    destruct Hin as [<-|Hin].
    + eexists. split; [left; reflexivity | reflexivity].
    + destruct (IH _ _ Hin) as (r1 & H1 & H2).
      exists r1. split; [right; exact H1 | exact H2].
  - destruct (IH _ _ Hin) as (r1 & H1 & H2). exists r1.
    split; [|exact H2].
    destruct (keeps str_contains_nocase df1 p _); [right|]; exact H1.
Qed.

(** A row found by the later of two searches of the same pair was found,
    with the same URL, by the earlier one. *)
Lemma search_pair_later (p : UserPreferences) (kw loc : string)
      (now1 now2 : nat -> Z) :
  (forall i, now1 i <= now2 i) ->
  forall r2,
    In r2 (flat_map rows
             (fst (search_pair str_contains_nocase scrape p kw loc now2))) ->
    exists r1,
      In r1 (flat_map rows
               (fst (search_pair str_contains_nocase scrape p kw loc now1)))
      /\ job_url r1 = job_url r2.
Proof.
  intros Hnow r2. unfold search_pair.
  destruct (existsb (String.eqb "linkedin") (sites_enabled p));
    [|intros []].
  destruct (scrape kw loc 10%nat (effective_time_filter p) (work_type p))
    as [[|j js] gets]; [intros []|].
  cbn [fst flat_map]. rewrite !app_nil_r, !filter_jobs_for_user_rows.
  cbn [rows]. intros Hin.
  eapply score_rows_later; [reflexivity | reflexivity | exact Hnow |].
  exact Hin.
Qed.

Lemma location_loop_later (p : UserPreferences) (kw : string)
      (now1 now2 : nat -> nat -> Z) (locs : list string) :
  (forall l i, now1 l i <= now2 l i) ->
  forall (l : nat) (r2 : JobRow),
    In r2 (flat_map rows
             (fst (location_loop str_contains_nocase scrape p kw now2 l
                                 locs))) ->
    exists r1,
      In r1 (flat_map rows
               (fst (location_loop str_contains_nocase scrape p kw now1 l
                                   locs)))
      /\ job_url r1 = job_url r2.
Proof.
  intros Hnow. induction locs as [|loc locs IH]; intros l r2;
    [intros []|].
  cbn [location_loop].
  pose proof (@search_pair_later p kw loc (now1 l) (now2 l) (Hnow l)) as Hp.
  destruct (search_pair str_contains_nocase scrape p kw loc (now2 l))
    as [f2 g2].
  destruct (search_pair str_contains_nocase scrape p kw loc (now1 l))
    as [f1 g1].
  specialize (IH (S l)).
  destruct (location_loop str_contains_nocase scrape p kw now2 (S l) locs)
    as [m2 h2].
  destruct (location_loop str_contains_nocase scrape p kw now1 (S l) locs)
    as [m1 h1].
  cbn [fst] in *. rewrite !flat_map_app. intros Hin.
  apply in_app_or in Hin as [Hin|Hin].
  - destruct (Hp _ Hin) as (r1 & H1 & H2). exists r1.
    split; [apply in_or_app; left; exact H1 | exact H2].
  - destruct (IH _ Hin) as (r1 & H1 & H2). exists r1.
    split; [apply in_or_app; right; exact H1 | exact H2].
Qed.

Lemma keyword_loop_later (p : UserPreferences)
      (now1 now2 : nat -> nat -> nat -> Z) (kws : list string) :
  (forall k l i, now1 k l i <= now2 k l i) ->
  forall (k : nat) (r2 : JobRow),
    In r2 (flat_map rows
             (fst (keyword_loop str_contains_nocase scrape p now2 k kws))) ->
    exists r1,
      In r1 (flat_map rows
               (fst (keyword_loop str_contains_nocase scrape p now1 k kws)))
      /\ job_url r1 = job_url r2.
Proof.
  intros Hnow. induction kws as [|kw kws IH]; intros k r2; [intros []|].
  cbn [keyword_loop].
  pose proof (@location_loop_later p kw (now1 k) (now2 k)
                (firstn 2 (locations p)) (Hnow k) 0%nat) as Hp.
  destruct (location_loop str_contains_nocase scrape p kw (now2 k) 0
                          (firstn 2 (locations p))) as [f2 g2].
  destruct (location_loop str_contains_nocase scrape p kw (now1 k) 0
                          (firstn 2 (locations p))) as [f1 g1].
  specialize (IH (S k)).
  destruct (keyword_loop str_contains_nocase scrape p now2 (S k) kws)
    as [m2 h2].
  destruct (keyword_loop str_contains_nocase scrape p now1 (S k) kws)
    as [m1 h1].
  cbn [fst] in *. rewrite !flat_map_app. intros Hin.
  apply in_app_or in Hin as [Hin|Hin].
  - destruct (Hp _ Hin) as (r1 & H1 & H2). exists r1.
    split; [apply in_or_app; left; exact H1 | exact H2].
  - destruct (IH _ Hin) as (r1 & H1 & H2). exists r1.
    split; [apply in_or_app; right; exact H1 | exact H2].
Qed.

(** ** Duplicates by URL *)

Lemma same_url_eq (a b : option string) : same_url a b = true -> a = b.
Proof.
  destruct a, b; cbn; try discriminate; try reflexivity.
  intros H. apply String.eqb_eq in H. now subst.
Qed.

Lemma drop_duplicates_incl (rs : list JobRow) :
  forall seen r, In r (drop_duplicates seen rs) -> In r rs.
Proof.
  induction rs as [|r0 rs IH]; intros seen r; [intros []|].
  cbn [drop_duplicates].
  destruct (existsb (same_url (job_url r0)) seen).
  - intros H. right. eapply IH; exact H.
  - intros [<-|H]; [now left | right; eapply IH; exact H].
Qed.

Lemma drop_duplicates_covers (rs : list JobRow) :
  forall seen r,
    In r rs ->
    existsb (same_url (job_url r)) seen = true
    \/ exists r', In r' (drop_duplicates seen rs)
                  /\ job_url r' = job_url r.
Proof.
  induction rs as [|r0 rs IH]; intros seen r; [intros []|].
  cbn [drop_duplicates]. intros Hin.
  destruct (existsb (same_url (job_url r0)) seen) eqn:E.
  - destruct Hin as [<-|Hin]; [now left | now apply IH].
  - destruct Hin as [<-|Hin].
    + right. exists r0. split; [now left | reflexivity].
    + destruct (IH (job_url r0 :: seen) r Hin) as [H|(r' & H1 & H2)].
      * cbn [existsb] in H. apply orb_true_iff in H as [H|H].
        -- right. exists r0. split; [now left|].
           symmetry. now apply same_url_eq.
        -- now left.
      * right. exists r'. split; [now right | exact H2].
Qed.

Lemma usable_url_same (r1 r2 : JobRow) :
  job_url r1 = job_url r2 -> usable_url r1 = usable_url r2.
Proof. unfold usable_url. now intros ->. Qed.

(** ** Notification leaves the store alone *)

Lemma fold_pass (A : Type) (l : list A) (e : Engine) :
  fold_left (fun e _ => e) l e = e.
Proof. induction l as [|x l IH]; [reflexivity | exact IH]. Qed.

Lemma send_job_notifications_db (e : Engine) (user : User)
      (df : DataFrame) :
  db (send_job_notifications smtp_accepts e user df) = db e.
Proof.
  unfold send_job_notifications.
  destruct (df_empty df); [reflexivity|].
  destruct (negb (email_configured (note_notify_call e))); [reflexivity|].
  destruct (smtp_accepts _); [|reflexivity].
  now rewrite fold_pass.
Qed.

Lemma set_db_same (e : Engine) : set_db e (db e) = e.
Proof. destruct e; reflexivity. Qed.

(** ** The block that saves and notifies *)

Lemma process_found_spec (e : Engine) (user : User) (uid : string)
      (all_jobs : list DataFrame) :
  db_wf (db e) ->
  db_wf (db (process_found smtp_accepts e user uid all_jobs))
  /\ extends (db e) (db (process_found smtp_accepts e user uid all_jobs))
  /\ forall r url,
      In r (flat_map rows all_jobs) -> usable_url r = Some url ->
      linked (db (process_found smtp_accepts e user uid all_jobs)) uid url
      = true.
Proof.
  intros Hwf. unfold process_found.
  destruct all_jobs as [|f fs];
    [split; [exact Hwf|]; split;
     [apply PersistFacts.extends_refl | intros ? ? []]|].
  set (all := f :: fs).
  set (combined := combine all).
  destruct (@PersistFacts.save_jobs_for_user_spec (db e) uid combined Hwf)
    as (H1 & H2 & H3).
  destruct (save_jobs_for_user (db e) uid combined) as [d new].
  cbn [fst] in *.
  assert (Hdb : db (if (0 <? df_len new)%nat
                    then send_job_notifications smtp_accepts (set_db e d)
                                                user new
                    else set_db e d) = d).
  { destruct (0 <? df_len new)%nat;
      [rewrite send_job_notifications_db|]; reflexivity. }
  rewrite Hdb. split; [exact H1|]. split; [exact H2|].
  intros r url Hin Hurl.
  destruct (@drop_duplicates_covers (flat_map rows all) [] r Hin)
    as [H|(r' & Hr' & Hsame)]; [discriminate H|].
  apply (H3 r'); [exact Hr'|].
  now rewrite (@usable_url_same r' r Hsame).
Qed.

Lemma process_found_noop (e : Engine) (user : User) (uid : string)
      (all_jobs : list DataFrame) :
  (forall r url,
      In r (flat_map rows all_jobs) -> usable_url r = Some url ->
      linked (db e) uid url = true) ->
  process_found smtp_accepts e user uid all_jobs = e.
Proof.
  intros H. unfold process_found.
  destruct all_jobs as [|f fs]; [reflexivity|].
  rewrite PersistFacts.save_jobs_for_user_noop.
  - cbn. apply set_db_same.
  - cbn [rows with_rows]. intros r url Hin. apply H.
    eapply drop_duplicates_incl. exact Hin.
Qed.

(** ** Two cycles in a row *)

Local Abbreviation cycle :=
  (search_jobs_for_user str_contains_nocase smtp_accepts scrape).
Local Abbreviation found p clk :=
  (fst (keyword_loop str_contains_nocase scrape p (t_score clk) 0
                     (firstn 3 (keywords p)))).

Lemma check_rate_limit_keeps (e : Engine) (now : Z) :
  db (snd (Gateway.check_rate_limit e now)) = db e
  /\ outbox (snd (Gateway.check_rate_limit e now)) = outbox e
  /\ notify_calls (snd (Gateway.check_rate_limit e now)) = notify_calls e
  /\ http_gets (snd (Gateway.check_rate_limit e now)) = http_gets e
  /\ acquired (snd (Gateway.check_rate_limit e now))
     = (acquired e
        + (if fst (Gateway.check_rate_limit e now) then 1 else 0))%nat.
Proof.
  unfold Gateway.check_rate_limit, datetime_now. cbv zeta.
  destruct (linkedin_requests_per_minute e <=? _)%nat; cbn; auto.
Qed.

(** A cycle in which the gateway granted a call is a cycle that ran its
    searches. *)
Lemma cycle_full_inv (e : Engine) (uid : string) (clk : CycleClock) :
  acquired (cycle e uid clk) = S (acquired e) ->
  exists user p,
    Store.get_user_by_id (db e) uid = Some user
    /\ Store.get_user_preferences (db e) uid = Some p
    /\ cycle e uid clk
       = search_after_gate str_contains_nocase smtp_accepts scrape
           (snd (Gateway.check_rate_limit e (t_rate_limit clk)))
           user p uid clk.
Proof.
  unfold search_jobs_for_user.
  destruct (Store.get_user_by_id (db e) uid) as [user|]; [|lia].
  destruct (negb (is_active user)); [lia|].
  destruct (Store.get_user_preferences (db e) uid) as [p|]; [|lia].
  pose proof (check_rate_limit_keeps e (t_rate_limit clk))
    as (_ & _ & _ & _ & Hacq).
  destruct (Gateway.check_rate_limit e (t_rate_limit clk)) as [[|] e_g];
    cbn [negb fst snd] in *.
  - intros _. exists user, p. auto.
  - lia.
Qed.

(** A cycle that finds only postings already linked to the user leaves the
    store alone and does not call the notification. *)
Lemma cycle_noop_when_linked (e : Engine) (uid : string)
      (clk : CycleClock) :
  (forall p r url,
      Store.get_user_preferences (db e) uid = Some p ->
      In r (flat_map rows (found p clk)) -> usable_url r = Some url ->
      linked (db e) uid url = true) ->
  db (cycle e uid clk) = db e
  /\ outbox (cycle e uid clk) = outbox e
  /\ notify_calls (cycle e uid clk) = notify_calls e.
Proof.
  intros H. unfold search_jobs_for_user.
  destruct (Store.get_user_by_id (db e) uid) as [user|]; [|auto].
  destruct (negb (is_active user)); [auto|].
  destruct (Store.get_user_preferences (db e) uid) as [p|]; [|auto].
  specialize (H p).
  pose proof (check_rate_limit_keeps e (t_rate_limit clk))
    as (Hdb & Hout & Hcalls & _).
  destruct (Gateway.check_rate_limit e (t_rate_limit clk)) as [ok e_g].
  cbn [fst snd] in *.
  destruct ok; cbn [negb]; [|auto].
  unfold search_after_gate.
  destruct (keyword_loop str_contains_nocase scrape p (t_score clk) 0
                         (firstn 3 (keywords p))) as [all gets].
  cbn [fst] in H.
  rewrite process_found_noop.
  - cbn. auto.
  - cbn [db note_gets]. rewrite Hdb. intros r url. now apply H.
Qed.

(** C1 (as amended). A full cycle for a user run on a well-formed store, then a second
    cycle for the same user against the same answers of the source, on a
    clock that has not gone back: every posting the second cycle finds is
    linked already, so the save of its combined frame skips them all,
    returns the empty frame and leaves the store as it is; the second cycle
    leaves the tables [user_jobs] and [jobs] as the first left them, sends no
    message and does not call the notification. *)
Theorem C1_second_cycle_adds_nothing (e : Engine) (uid : string)
        (clk1 clk2 : CycleClock) :
  db_wf (db e) ->
  (forall k l i, t_score clk1 k l i <= t_score clk2 k l i) ->
  acquired (cycle e uid clk1) = S (acquired e) ->
  (forall p,
      Store.get_user_preferences (db e) uid = Some p ->
      (forall r url,
          In r (rows (combine (found p clk2))) -> usable_url r = Some url ->
          linked (db (cycle e uid clk1)) uid url = true)
      /\ save_jobs_for_user (db (cycle e uid clk1)) uid
                            (combine (found p clk2))
         = (db (cycle e uid clk1), empty_frame))
  /\ user_jobs (db (cycle (cycle e uid clk1) uid clk2))
     = user_jobs (db (cycle e uid clk1))
  /\ jobs (db (cycle (cycle e uid clk1) uid clk2))
     = jobs (db (cycle e uid clk1))
  /\ outbox (cycle (cycle e uid clk1) uid clk2)
     = outbox (cycle e uid clk1)
  /\ notify_calls (cycle (cycle e uid clk1) uid clk2)
     = notify_calls (cycle e uid clk1).
Proof.
  intros Hwf Hclk Hfull.
  destruct (cycle_full_inv e uid clk1 Hfull) as (user & p & Hu & Hp & Hrun).
  pose proof (check_rate_limit_keeps e (t_rate_limit clk1))
    as (Hdb & _).
  set (e_g := snd (Gateway.check_rate_limit e (t_rate_limit clk1))) in *.
  assert (Hlinked :
            extends (db e) (db (cycle e uid clk1))
            /\ forall r url,
                In r (flat_map rows (found p clk1)) ->
                usable_url r = Some url ->
                linked (db (cycle e uid clk1)) uid url = true).
  { rewrite Hrun. unfold search_after_gate.
    destruct (keyword_loop str_contains_nocase scrape p (t_score clk1) 0
                           (firstn 3 (keywords p))) as [all gets].
    cbn [fst db set_last_search_time].
    destruct (@process_found_spec (note_gets e_g gets) user uid all)
      as (_ & Hext & Hl).
    - cbn [db note_gets]. now rewrite Hdb.
    - cbn [db note_gets] in Hext. rewrite Hdb in Hext. auto. }
  destruct Hlinked as [Hext Hlinked].
  assert (Hagain : forall r2 url,
             In r2 (flat_map rows (found p clk2)) ->
             usable_url r2 = Some url ->
             linked (db (cycle e uid clk1)) uid url = true).
  { intros r2 url Hin Hurl.
    destruct (@keyword_loop_later p (t_score clk1) (t_score clk2)
                (firstn 3 (keywords p)) Hclk 0%nat r2 Hin)
      as (r1 & Hr1 & Hsame).
    apply (Hlinked r1); [exact Hr1|].
    now rewrite (@usable_url_same r1 r2 Hsame). }
  assert (Hprefs : Store.get_user_preferences (db (cycle e uid clk1)) uid
                   = Some p).
  { unfold Store.get_user_preferences in *.
    destruct Hext as (_ & Hprefs & _). now rewrite Hprefs. }
  split.
  - intros p' Hp'. assert (p' = p) by congruence. subst p'.
    assert (Hrows : forall r url,
               In r (rows (combine (found p clk2))) ->
               usable_url r = Some url ->
               linked (db (cycle e uid clk1)) uid url = true).
    { intros r url Hin. apply Hagain.
      eapply drop_duplicates_incl. exact Hin. }
    split; [exact Hrows|].
    now apply PersistFacts.save_jobs_for_user_noop.
  - destruct (@cycle_noop_when_linked (cycle e uid clk1) uid clk2)
      as (H1 & H2 & H3).
    + intros p' r2 url Hp'. assert (p' = p) by congruence. subst p'.
      apply Hagain.
    + rewrite H1. auto.
Qed.

(** ** Requests to the source and grants of the gateway *)

Lemma send_job_notifications_counters (e : Engine) (user : User)
      (df : DataFrame) :
  http_gets (send_job_notifications smtp_accepts e user df) = http_gets e
  /\ acquired (send_job_notifications smtp_accepts e user df) = acquired e.
Proof.
  unfold send_job_notifications.
  destruct (df_empty df); [auto|].
  destruct (negb (email_configured (note_notify_call e))); [auto|].
  destruct (smtp_accepts _); [|auto].
  now rewrite fold_pass.
Qed.

Lemma process_found_counters (e : Engine) (user : User) (uid : string)
      (all_jobs : list DataFrame) :
  http_gets (process_found smtp_accepts e user uid all_jobs) = http_gets e
  /\ acquired (process_found smtp_accepts e user uid all_jobs)
     = acquired e.
Proof.
  unfold process_found. destruct all_jobs as [|f fs]; [auto|].
  destruct (save_jobs_for_user _ _ _) as [d new].
  destruct (0 <? df_len new)%nat; [|auto].
  destruct (send_job_notifications_counters (set_db e d) user new)
    as [Hg Ha].
  rewrite Hg, Ha. auto.
Qed.

Section BoundedAdapter.

(** No call of the adapter sends more than [per_call] GETs. *)
Variable per_call : nat.
Hypothesis scrape_bounded :
  forall kw loc n tf wt, (snd (scrape kw loc n tf wt) <= per_call)%nat.

Lemma search_pair_gets (p : UserPreferences) (kw loc : string)
      (now_at : nat -> Z) :
  (snd (search_pair str_contains_nocase scrape p kw loc now_at)
   <= per_call)%nat.
Proof.
  unfold search_pair.
  destruct (existsb _ _); [|cbn; lia].
  pose proof (scrape_bounded kw loc 10 (effective_time_filter p)
                             (work_type p)) as H.
  destruct (scrape _ _ _ _ _) as [[|j js] gets]; exact H.
Qed.

Lemma location_loop_gets (p : UserPreferences) (kw : string)
      (now_at : nat -> nat -> Z) (locs : list string) :
  forall l,
    (snd (location_loop str_contains_nocase scrape p kw now_at l locs)
     <= List.length locs * per_call)%nat.
Proof.
  induction locs as [|loc locs IH]; intros l; [cbn; lia|].
  cbn [location_loop List.length].
  pose proof (search_pair_gets p kw loc (now_at l)) as H.
  destruct (search_pair _ _ _ _ _ _) as [f g].
  specialize (IH (S l)).
  destruct (location_loop _ _ _ _ _ _ _) as [m h].
  cbn [snd] in *. lia.
Qed.

Lemma keyword_loop_gets (p : UserPreferences)
      (now_at : nat -> nat -> nat -> Z) (kws : list string) :
  forall k,
    (snd (keyword_loop str_contains_nocase scrape p now_at k kws)
     <= List.length kws * (2 * per_call))%nat.
Proof.
  induction kws as [|kw kws IH]; intros k; [cbn; lia|].
  cbn [keyword_loop List.length].
  pose proof (location_loop_gets p kw (now_at k)
                (firstn 2 (locations p)) 0) as H.
  pose proof (firstn_le_length 2 (locations p)) as Hlen.
  destruct (location_loop _ _ _ _ _ _ _) as [f g].
  specialize (IH (S k)).
  destruct (keyword_loop _ _ _ _ _ _) as [m h].
  cbn [snd] in *. nia.
Qed.

(** C4 (as amended). A cycle asks the gateway once, before its searches.
    If the gateway refuses, or the cycle ends before asking, no GET is
    sent to the source. If it grants, the cycle runs its searches under
    that one grant: at most 3 keywords times 2 locations, so at most 6
    calls of the adapter, each sending the GETs of its own pagination.
    With at most [per_call] GETs in a call of the adapter, a cycle sends
    at most [6 * per_call] GETs for each grant. *)
Theorem C4_one_grant_covers_the_cycle (e : Engine) (uid : string)
        (clk : CycleClock) :
  (acquired e <= acquired (cycle e uid clk) <= acquired e + 1)%nat
  /\ (http_gets e <= http_gets (cycle e uid clk))%nat
  /\ (http_gets (cycle e uid clk) - http_gets e
      <= 6 * per_call * (acquired (cycle e uid clk) - acquired e))%nat.
Proof.
  unfold search_jobs_for_user.
  destruct (Store.get_user_by_id (db e) uid) as [user|]; [|lia].
  destruct (negb (is_active user)); [lia|].
  destruct (Store.get_user_preferences (db e) uid) as [p|]; [|lia].
  pose proof (check_rate_limit_keeps e (t_rate_limit clk))
    as (_ & _ & _ & Hgets & Hacq).
  destruct (Gateway.check_rate_limit e (t_rate_limit clk)) as [ok e_g].
  cbn [fst snd] in *.
  destruct ok; cbn [negb]; [|lia].
  unfold search_after_gate.
  pose proof (keyword_loop_gets p (t_score clk)
                (firstn 3 (keywords p)) 0) as Hk.
  pose proof (firstn_le_length 3 (keywords p)) as Hlen.
  destruct (keyword_loop _ _ _ _ _ _) as [all gets].
  cbn [snd] in Hk.
  destruct (process_found_counters (note_gets e_g gets) user uid all)
    as [Hg Ha].
  cbn [http_gets acquired set_last_search_time].
  rewrite Hg, Ha. cbn [http_gets acquired note_gets]. nia.
Qed.

End BoundedAdapter.

End CycleFacts.

(** The theorem on one user and one posting, the second cycle a day after
    the first. *)
Lemma C1_second_cycle_adds_nothing_witness :
  Persist.db_wf (db Examples.start)
  /\ acquired Examples.first_cycle = S (acquired Examples.start)
  /\ user_jobs (db Examples.second_cycle) = user_jobs (db Examples.first_cycle)
  /\ jobs (db Examples.second_cycle) = jobs (db Examples.first_cycle)
  /\ outbox Examples.second_cycle = outbox Examples.first_cycle
  /\ notify_calls Examples.second_cycle = notify_calls Examples.first_cycle.
Proof.
  assert (Hwf : Persist.db_wf (db Examples.start)) by (split; intros ? []).
  assert (Hfull : acquired Examples.first_cycle = S (acquired Examples.start))
    by (vm_compute; reflexivity).
  split; [exact Hwf|]. split; [exact Hfull|].
  apply (@C1_second_cycle_adds_nothing
           Examples.plain_contains_nocase Examples.smtp_up
           (Examples.scrape_from Examples.one_job_server)
           Examples.start "u1" (Examples.still_clock 0)
           (Examples.still_clock day_us) Hwf).
  - intros k l i. cbn. unfold day_us. lia.
  - exact Hfull.
Defined.

(** C1 (counterexample). Without the condition on the clock the second
    cycle can add a link and send a digest. A user with threshold 85 and a
    posting that scores 80 without the freshness bonus: the first cycle
    runs four days after the posting, the bonus is 0, the filter drops the
    posting and nothing is stored; the second cycle meets the same answers
    of the source on a clock that reads one hour less (a naive local clock
    set back), the posting is three whole days old, scores 85, passes the
    filter, is linked to the user and announced. *)
Lemma C1_clock_set_back_adds_a_link :
  ~ (forall (str_contains_nocase : string -> string -> bool)
            (smtp_accepts : Email -> bool)
            (scrape : string -> string -> nat -> string -> string
                      -> list JobRow * nat)
            (e : Engine) (uid : string) (clk1 clk2 : CycleClock),
        let cycle := search_jobs_for_user str_contains_nocase smtp_accepts
                                          scrape in
        Persist.db_wf (db e) ->
        acquired (cycle e uid clk1) = S (acquired e) ->
        user_jobs (db (cycle (cycle e uid clk1) uid clk2))
        = user_jobs (db (cycle e uid clk1))
        /\ outbox (cycle (cycle e uid clk1) uid clk2)
           = outbox (cycle e uid clk1)).
Proof.
  intros H.
  specialize (H Examples.plain_contains_nocase Examples.smtp_up
                (Examples.scrape_from Examples.one_job_server)
                Cases.strict_start "u1"
                (Examples.still_clock Cases.four_days)
                (Examples.still_clock Cases.an_hour_less)).
  cbv zeta in H.
  assert (Hwf : Persist.db_wf (db Cases.strict_start))
    by (split; intros ? []).
  assert (Hfull :
            acquired (search_jobs_for_user
                        Examples.plain_contains_nocase Examples.smtp_up
                        (Examples.scrape_from Examples.one_job_server)
                        Cases.strict_start "u1"
                        (Examples.still_clock Cases.four_days))
            = S (acquired Cases.strict_start))
    by (vm_compute; reflexivity).
  destruct (H Hwf Hfull) as [_ Hout].
  vm_compute in Hout. discriminate Hout.
Qed.

(** C4 (counterexample). One user, two keywords, one location, a source with
    nothing to show: the cycle is granted one call of the gateway and sends
    two GETs to the source. *)
Lemma C4_more_gets_than_grants :
  ~ (forall (str_contains_nocase : string -> string -> bool)
            (smtp_accepts : Email -> bool)
            (scrape : string -> string -> nat -> string -> string
                      -> list JobRow * nat)
            (e : Engine) (uid : string) (clk : CycleClock),
        let e' := search_jobs_for_user str_contains_nocase smtp_accepts
                                       scrape e uid clk in
        (http_gets e' - http_gets e <= acquired e' - acquired e)%nat).
Proof.
  intros H.
  specialize (H Examples.plain_contains_nocase Examples.smtp_up
                (Examples.scrape_from Adapter.empty_pages)
                (Examples.engine_one_user Examples.two_kw_prefs)
                "u1" (Examples.still_clock 0)).
  vm_compute in H. lia.
Qed.

(** The theorem on the cycle of the counterexample, one GET for each call of
    the adapter. *)
Lemma C4_one_grant_covers_the_cycle_witness :
  (forall kw loc n tf wt,
      (snd (Examples.scrape_from Adapter.empty_pages kw loc n tf wt) <= 1)%nat)
  /\ (acquired Examples.start_two_kw <= acquired Examples.cycle_two_kw
      <= acquired Examples.start_two_kw + 1)%nat
  /\ (http_gets Examples.start_two_kw <= http_gets Examples.cycle_two_kw)%nat
  /\ (http_gets Examples.cycle_two_kw - http_gets Examples.start_two_kw
      <= 6 * 1 * (acquired Examples.cycle_two_kw
                  - acquired Examples.start_two_kw))%nat.
Proof.
  assert (Hb : forall kw loc n tf wt,
             (snd (Examples.scrape_from Adapter.empty_pages kw loc n tf wt)
              <= 1)%nat).
  { intros kw loc n tf wt. unfold Examples.scrape_from.
    destruct n as [|n]; cbn; lia. }
  split; [exact Hb|].
  exact (@C4_one_grant_covers_the_cycle
           Examples.plain_contains_nocase Examples.smtp_up
           (Examples.scrape_from Adapter.empty_pages) 1%nat Hb
           Examples.start_two_kw "u1" (Examples.still_clock 0)).
Defined.

(* ================================================================== *)
(** * The notified flag *)

(** C2 (the code at the failing input). The notification never writes to the
    store. One user, one new posting: after a cycle whose message SMTP
    accepted, the message is out and the link of the posting still has
    [is_notified = 0]; after a cycle whose message SMTP refused, nothing is
    out, and the next cycle, with SMTP up again and the same posting found
    again, does not call the notification at all: the posting is linked and
    is skipped, so it is in no later digest. *)
Theorem C2_notified_flag_never_written :
  (forall (smtp_accepts : Email -> bool) (e : Engine) (user : User)
          (df : DataFrame),
      db (send_job_notifications smtp_accepts e user df) = db e)
  /\ (outbox Examples.first_cycle
      = [{| recipient := "u1@example.org"; jobs_announced := 1 |}]
      /\ map uj_is_notified (user_jobs (db Examples.first_cycle)) = [false])
  /\ (outbox Examples.failed_cycle = []
      /\ notify_calls Examples.failed_cycle = 1%nat
      /\ map uj_is_notified (user_jobs (db Examples.failed_cycle)) = [false]
      /\ outbox Examples.cycle_after_failure = []
      /\ notify_calls Examples.cycle_after_failure = 1%nat).
Proof.
  split; [|split].
  - intros. apply send_job_notifications_db.
  - vm_compute. auto.
  - vm_compute. repeat split; reflexivity.
Qed.

(* ================================================================== *)
(** * The stagger offset *)

Lemma schedule_loop_ignores_hash (h1 h2 : string -> Z) (d : Database)
      (now : Z) (active_users : list User) :
  forall registered,
    schedule_loop h1 d now active_users registered
    = schedule_loop h2 d now active_users registered.
Proof.
  induction active_users as [|u us IH]; intros registered; [reflexivity|].
  cbn [schedule_loop].
  destruct (Store.get_user_preferences d (id u)) as [p|]; [|apply IH].
  destruct (search_frequency_minutes p =? 0); [reflexivity | apply IH].
Qed.

(** C9 (the code at the failing input). [delay_minutes] is computed and not
    used: the jobs registered by [schedule_user_searches] are the same
    whatever the hash of the user identifiers, each first due one interval
    after the start. Two users with frequency 15 and offsets 3 and 7 are both
    first due 15 minutes after the start. *)
Theorem C9_stagger_offset_not_applied :
  (forall (h1 h2 : string -> Z) (e : Engine) (clock : Z),
      schedule_user_searches h1 e clock = schedule_user_searches h2 e clock)
  /\ (map (fun u => Examples.hash_3_7 (id u) mod 15)
          (users Examples.two_users) = [3; 7]
      /\ map next_run (schedule_jobs Examples.two_scheduled)
         = [15 * minute_us; 15 * minute_us]
      /\ map interval_minutes (schedule_jobs Examples.two_scheduled)
         = [15; 15]).
Proof.
  split.
  - intros h1 h2 e clock. unfold schedule_user_searches.
    now rewrite (schedule_loop_ignores_hash h1 h2).
  - vm_compute. repeat split; reflexivity.
Qed.

(* ================================================================== *)
(** * Further properties of the scoring and of the filter *)

(** X1. As the clock advances the score of a posting never rises, and it
    falls by at most the 10 points of the freshness bonus. *)
Theorem score_falls_with_time_by_at_most_10 (r : JobRow)
        (p : UserPreferences) (c1 c2 : Z) :
  c1 <= c2 ->
  Scoring.calculate_quality_score r p c2
  <= Scoring.calculate_quality_score r p c1
  <= Scoring.calculate_quality_score r p c2 + 10.
Proof.
  intros Hle. rewrite !ScoringFacts.calculate_quality_score_eq.
  pose proof (recency_points_later r Hle) as Hlater.
  assert (Hrange : forall c, 0 <= Scoring.recency_points r c <= 10).
  { intros c. unfold Scoring.recency_points.
    destruct (posted_date r); try lia.
    destruct (_ <=? 1); [lia|]. destruct (_ <=? 3); lia. }
  pose proof (Hrange c1). pose proof (Hrange c2).
  unfold Scoring.clamp. lia.
Qed.

(** The theorem on a posting scored on its day and ten days later. *)
Lemma score_falls_with_time_by_at_most_10_witness :
  0 <= Examples.ten_days
  /\ Scoring.calculate_quality_score Examples.dated_job Examples.py_prefs
                                     Examples.ten_days
     <= Scoring.calculate_quality_score Examples.dated_job Examples.py_prefs 0
     <= Scoring.calculate_quality_score Examples.dated_job Examples.py_prefs
                                        Examples.ten_days + 10.
Proof.
  assert (H : 0 <= Examples.ten_days) by (vm_compute; discriminate).
  split; [exact H|].
  exact (@score_falls_with_time_by_at_most_10
           Examples.dated_job Examples.py_prefs 0 Examples.ten_days H).
Defined.

Section MoreFilterFacts.

Variable str_contains_nocase : string -> string -> bool.

Lemma filter_jobs_for_user_eq (df : DataFrame) (p : UserPreferences) :
  filter_jobs_for_user str_contains_nocase df p
  = with_rows df (filter (keeps str_contains_nocase df p) (rows df)).
Proof.
  pose proof (filter_jobs_for_user_rows str_contains_nocase df p) as Hrows.
  unfold filter_jobs_for_user in *. unfold df_empty in *.
  destruct df as [hq hs rs]. cbn [rows] in *.
  destruct rs as [|r rs]; [reflexivity|].
  unfold with_rows in *. cbn [rows has_quality_score has_salary_min] in *.
  now rewrite Hrows.
Qed.

(** X2. [filter_jobs_for_user] only drops rows: what it returns are rows of
    the frame, in their order, each with a score at or above the threshold
    (when the frame has the score column) and with a minimum salary that is
    absent or at or above the floor (when the floor is positive and the
    frame has the salary column); and filtering the result again with the
    same preferences changes nothing. *)
Theorem filter_sound_and_idempotent (df : DataFrame) (p : UserPreferences) :
  (forall r,
      In r (rows (filter_jobs_for_user str_contains_nocase df p)) ->
      In r (rows df)
      /\ (has_quality_score df = true ->
          linkedin_quality_threshold p <= quality_score r)
      /\ (0 < min_salary p -> has_salary_min df = true ->
          forall s, salary_min r = Some s -> min_salary p <= s))
  /\ (exists test : JobRow -> bool,
        rows (filter_jobs_for_user str_contains_nocase df p)
        = filter test (rows df))
  /\ filter_jobs_for_user str_contains_nocase
       (filter_jobs_for_user str_contains_nocase df p) p
     = filter_jobs_for_user str_contains_nocase df p.
Proof.
  split; [|split].
  - intros r. rewrite filter_jobs_for_user_rows. intros Hin.
    apply filter_In in Hin as [Hin Hk]. split; [exact Hin|].
    unfold keeps in Hk. apply andb_true_iff in Hk as [Hk _].
    apply andb_true_iff in Hk as [Hq Hs]. split.
    + intros Hcol. rewrite Hcol in Hq. now apply Z.leb_le.
    + intros Hfloor Hcol s Hsal.
      replace (0 <? min_salary p) with true in Hs
        by (symmetry; now apply Z.ltb_lt).
      rewrite Hcol, Hsal in Hs. cbn in Hs. now apply Z.leb_le.
  - exists (keeps str_contains_nocase df p).
    apply filter_jobs_for_user_rows.
  - rewrite !filter_jobs_for_user_eq. cbn [rows with_rows].
    unfold with_rows. cbn [has_quality_score has_salary_min].
    f_equal. rewrite filter_twice. apply filter_ext_in. intros r _.
    unfold keeps. cbn [has_quality_score has_salary_min].
    now rewrite andb_diag.
Qed.

End MoreFilterFacts.

(* ================================================================== *)
(** * Further properties of the gateway and of the scheduler *)

Lemma check_rate_limit_bounded (e : Engine) (now : Z) :
  (List.length (linkedin_last_requests e)
   <= linkedin_requests_per_minute e)%nat ->
  (List.length (linkedin_last_requests (snd (Gateway.check_rate_limit e now)))
   <= linkedin_requests_per_minute e)%nat
  /\ linkedin_requests_per_minute (snd (Gateway.check_rate_limit e now))
     = linkedin_requests_per_minute e
  /\ Forall (fun t => now - t < minute_us)
            (linkedin_last_requests (snd (Gateway.check_rate_limit e now))).
Proof.
  intros Hb. unfold Gateway.check_rate_limit, datetime_now. cbv zeta.
  assert (Hkept : Forall (fun t => now - t < minute_us)
                         (filter (Gateway.recent now)
                                 (linkedin_last_requests e))).
  { apply Forall_forall. intros t Ht. apply filter_In in Ht as [_ Ht].
    now apply Z.ltb_lt. }
  pose proof (filter_length_le (Gateway.recent now)
                               (linkedin_last_requests e)) as Hlen.
  destruct (linkedin_requests_per_minute e <=? _)%nat eqn:E; cbn.
  - repeat split; [lia | exact Hkept].
  - apply Nat.leb_gt in E. rewrite length_app. cbn.
    repeat split; [lia|].
    apply Forall_app. split; [exact Hkept|].
    constructor; [unfold minute_us; lia | constructor].
Qed.

(** X3. The gateway never keeps more timestamps than its ceiling: from a
    state within the ceiling, after any run of calls (whatever the clock
    readings) the list [linkedin_last_requests] has at most
    [linkedin_requests_per_minute] entries, so the [requests_last_minute] of
    [get_system_status] never exceeds its [limit]; and the number of active
    users it reports never exceeds the total. *)
Theorem gateway_list_within_ceiling (e : Engine) (times : list Z) :
  (List.length (linkedin_last_requests e)
   <= linkedin_requests_per_minute e)%nat ->
  (List.length (linkedin_last_requests (snd (Gateway.acquire_all e times)))
   <= linkedin_requests_per_minute e)%nat
  /\ (requests_last_minute
        (get_system_status (snd (Gateway.acquire_all e times)))
      <= limit (get_system_status (snd (Gateway.acquire_all e times))))%nat
  /\ (active_users (get_system_status (snd (Gateway.acquire_all e times)))
      <= total_users (get_system_status (snd (Gateway.acquire_all e times))))%nat.
Proof.
  revert e. induction times as [|t rest IH]; intros e Hb.
  - cbn. repeat split; try exact Hb. apply filter_length_le.
  - cbn [Gateway.acquire_all].
    destruct (check_rate_limit_bounded e t Hb) as (H1 & H2 & _).
    destruct (Gateway.check_rate_limit e t) as [ok e1]. cbn [snd] in *.
    specialize (IH e1). rewrite H2 in IH. specialize (IH H1).
    destruct (Gateway.acquire_all e1 rest) as [oks e2]. cbn [snd] in *.
    exact IH.
Qed.

(** The theorem on a new engine with ceiling 2 and three calls. *)
Lemma gateway_list_within_ceiling_witness :
  (List.length (linkedin_last_requests Cases.gate_2)
   <= linkedin_requests_per_minute Cases.gate_2)%nat
  /\ (List.length
        (linkedin_last_requests
           (snd (Gateway.acquire_all Cases.gate_2 Cases.three_calls)))
      <= linkedin_requests_per_minute Cases.gate_2)%nat.
Proof.
  assert (H : (List.length (linkedin_last_requests Cases.gate_2)
               <= linkedin_requests_per_minute Cases.gate_2)%nat)
    by (cbn; lia).
  split; [exact H|].
  exact (proj1 (@gateway_list_within_ceiling
                  Cases.gate_2 Cases.three_calls H)).
Defined.

Section LifecycleFacts.

Variable py_hash : string -> Z.





End LifecycleFacts.

(* ================================================================== *)
(** * Further properties of deduplication and persistence *)

Module PersistMore.
Import Persist Schema.

Lemma NoDup_snoc (A : Type) (l : list A) (x : A) :
  NoDup l -> ~ In x l -> NoDup (l ++ [x]).
Proof.
  induction l as [|y l IH]; intros Hnd Hx; cbn.
  - constructor; [intros []|constructor].
  - inversion Hnd as [|? ? Hy Hl]; subst. constructor.
    + intros Hin. apply in_app_or in Hin as [Hin|[<-|[]]];
        [contradiction | apply Hx; now left].
    + apply IH; [exact Hl | intros Hin; apply Hx; now right].
Qed.

Lemma save_job_to_db_constraints (d : Database) (jd : JobData) :
  constraints_hold d -> constraints_hold (fst (save_job_to_db d jd)).
Proof.
  intros (Hid & Hkey & Hlid & Hlkey). unfold save_job_to_db, uuid4.
  cbv zeta. cbv iota. cbv beta.
  match goal with |- context [job_conflict ?d' ?r] =>
    destruct (job_conflict d' r) eqn:Econf end; cbn [negb fst].
  - repeat split; assumption.
  - unfold job_conflict in Econf. cbn [jobs] in Econf.
    assert (Hno : forall j, In j (jobs d) ->
                    j_id j <> next_uuid d
                    /\ job_key j <> job_key (job_rec (next_uuid d) jd)).
    { intros j Hj.
      destruct ((j_id j =? next_uuid d)%nat
                || ((j_external_id j =? d_external_id jd)%string
                    && (j_site_source j =? d_site_source jd)%string)) eqn:E.
      - assert (Hex : existsb
                        (fun j0 =>
                           (j_id j0 =? j_id (job_rec (next_uuid d) jd))%nat
                           || ((j_external_id j0
                                =? j_external_id (job_rec (next_uuid d) jd))%string
                               && (j_site_source j0
                                   =? j_site_source (job_rec (next_uuid d) jd))%string))
                        (jobs d) = true)
          by (apply existsb_exists; exists j; split; [exact Hj | exact E]).
        congruence.
      - apply orb_false_iff in E as [E1 E2]. apply Nat.eqb_neq in E1.
        split; [exact E1|].
        unfold job_key. cbn. intros [= H1 H2].
        apply andb_false_iff in E2 as [E2|E2]; apply String.eqb_neq in E2;
          contradiction. }
    unfold constraints_hold. cbn [jobs user_jobs set_jobs].
    rewrite !map_app. cbn [map].
    split; [|split; [|split; assumption]].
    + apply NoDup_snoc; [exact Hid|].
      intros Hin. apply in_map_iff in Hin as (j & Heq & Hj).
      destruct (Hno j Hj) as [H1 _]. cbn in Heq. congruence.
    + apply NoDup_snoc; [exact Hkey|].
      intros Hin. apply in_map_iff in Hin as (j & Heq & Hj).
      destruct (Hno j Hj) as [_ H2]. congruence.
Qed.

Lemma create_user_job_relationship_constraints (d : Database)
      (uid : string) (jid : nat) (sc : Z) :
  constraints_hold d ->
  constraints_hold (fst (create_user_job_relationship d uid jid sc)).
Proof.
  intros (Hid & Hkey & Hlid & Hlkey).
  unfold create_user_job_relationship, uuid4.
  cbv zeta. cbv iota. cbv beta.
  match goal with |- context [link_conflict ?d' ?r] =>
    destruct (link_conflict d' r) eqn:Econf end; cbn [negb fst].
  - repeat split; assumption.
  - unfold link_conflict in Econf. cbn [user_jobs uj_id uj_user_id uj_job_id]
      in Econf.
    assert (Hno : forall uj, In uj (user_jobs d) ->
                    uj_id uj <> next_uuid d /\ link_key uj <> (uid, jid)).
    { intros uj Huj.
      destruct ((uj_id uj =? next_uuid d)%nat
                || ((uj_user_id uj =? uid)%string
                    && (uj_job_id uj =? jid)%nat)) eqn:E.
      - assert (Hex : existsb
                        (fun uj0 =>
                           (uj_id uj0 =? next_uuid d)%nat
                           || ((uj_user_id uj0 =? uid)%string
                               && (uj_job_id uj0 =? jid)%nat))
                        (user_jobs d) = true)
          by (apply existsb_exists; exists uj; split; [exact Huj | exact E]).
        congruence.
      - apply orb_false_iff in E as [E1 E2]. apply Nat.eqb_neq in E1.
        split; [exact E1|].
        unfold link_key. intros [= H1 H2].
        apply andb_false_iff in E2 as [E2|E2];
          [apply String.eqb_neq in E2 | apply Nat.eqb_neq in E2];
          contradiction. }
    unfold constraints_hold. cbn [jobs user_jobs set_user_jobs].
    rewrite !map_app. cbn [map].
    split; [assumption|]. split; [assumption|]. split.
    + apply NoDup_snoc; [exact Hlid|].
      intros Hin. apply in_map_iff in Hin as (uj & Heq & Huj).
      destruct (Hno uj Huj) as [H1 _]. cbn in Heq. congruence.
    + apply NoDup_snoc; [exact Hlkey|].
      intros Hin. apply in_map_iff in Hin as (uj & Heq & Huj).
      destruct (Hno uj Huj) as [_ H2]. apply H2. exact Heq.
Qed.

Lemma save_one_constraints (uid : string) (df : DataFrame)
      (acc : Database * list JobRow) (r : JobRow) :
  constraints_hold (fst acc) ->
  constraints_hold (fst (save_one uid df acc r)).
Proof.
  intros H. unfold save_one. destruct acc as [d new]. cbn [fst] in H.
  destruct (usable_url r) as [url|]; [|exact H].
  destruct (Store.get_user_job_status d uid url); [exact H|].
  pose proof (@save_job_to_db_constraints d (make_job_data df r url) H) as H1.
  destruct (save_job_to_db d (make_job_data df r url)) as [d1 [jid|]];
    cbn [fst] in *; [|exact H1].
  pose proof (@create_user_job_relationship_constraints
                d1 uid jid (row_quality_score df r) H1) as H2.
  destruct (create_user_job_relationship d1 uid jid (row_quality_score df r))
    as [d2 [|]]; exact H2.
Qed.

(** X5. Saving keeps the constraints of the schema: when the primary keys
    and the [UNIQUE] constraints of [jobs] and [user_jobs] hold in the
    store, they hold after [save_jobs_for_user], whatever the frame - no
    second job row for one (external id, source), no second link for one
    (user, job). *)
Theorem save_keeps_schema_constraints (d : Database) (uid : string)
        (df : DataFrame) :
  constraints_hold d ->
  constraints_hold (fst (save_jobs_for_user d uid df)).
Proof.
  intros H. unfold save_jobs_for_user.
  destruct (df_empty df); [exact H|].
  assert (Hfold : forall rs acc,
             constraints_hold (fst acc) ->
             constraints_hold (fst (fold_left (save_one uid df) rs acc))).
  { induction rs as [|r rs IH]; intros acc Hacc; [exact Hacc|].
    cbn [fold_left]. apply IH. now apply save_one_constraints. }
  specialize (Hfold (rows df) (d, []) H).
  destruct (fold_left (save_one uid df) (rows df) (d, [])) as [d' new].
  exact Hfold.
Qed.

(** X6. Deduplication: after [save_jobs_for_user] on a well-formed store,
    saving again for the same user any frame whose URLs all occurred in the
    first one (the same frame, say) creates nothing - the store is returned
    as it is and the frame of new jobs is empty. *)
Theorem saving_seen_postings_creates_nothing (d : Database) (uid : string)
        (df df2 : DataFrame) :
  db_wf d ->
  (forall r, In r (rows df2) ->
             exists r', In r' (rows df) /\ job_url r' = job_url r) ->
  save_jobs_for_user (fst (save_jobs_for_user d uid df)) uid df2
  = (fst (save_jobs_for_user d uid df), empty_frame).
Proof.
  intros Hwf Hseen.
  destruct (@PersistFacts.save_jobs_for_user_spec d uid df Hwf)
    as (_ & _ & Hlinked).
  apply PersistFacts.save_jobs_for_user_noop.
  intros r url Hin Hurl.
  destruct (Hseen r Hin) as (r' & Hin' & Hsame).
  apply (Hlinked r' url Hin').
  unfold usable_url in *. now rewrite Hsame.
Qed.

Lemma not_linked_no_status (d : Database) (uid url : string) :
  linked d uid url = false -> Store.get_user_job_status d uid url = None.
Proof.
  unfold linked. destruct (Store.get_user_job_status d uid url);
    [discriminate | reflexivity].
Qed.

(** X7. A posting another user's cycle has stored is not stored again: on a
    well-formed store that has a job row with the URL and the source of the
    posting, the turn of the loop of [save_jobs_for_user] for a user not yet
    linked to it leaves table [jobs] as it is, adds exactly one row to
    [user_jobs] - the user, the identifier of the job row found by URL, no
    flag set, the score of the row - and counts the posting as new. *)
Theorem stored_posting_is_linked_not_duplicated (d : Database)
        (uid url : string) (df : DataFrame) (new : list JobRow)
        (r : JobRow) (j : JobRec) :
  db_wf d ->
  usable_url r = Some url ->
  In j (jobs d) -> j_job_url j = url ->
  j_site_source j = d_site_source (make_job_data df r url) ->
  linked d uid url = false ->
  exists jid,
    get_existing_job_id d url = Some jid
    /\ jobs (fst (save_one uid df (d, new) r)) = jobs d
    /\ user_jobs (fst (save_one uid df (d, new) r))
       = (user_jobs d
          ++ [{| uj_id := S (next_uuid d); uj_user_id := uid;
                 uj_job_id := jid; uj_is_notified := false;
                 uj_is_applied := false; uj_is_saved := false;
                 uj_is_hidden := false;
                 uj_match_score := row_quality_score df r |}])%list
    /\ snd (save_one uid df (d, new) r) = (new ++ [r])%list.
Proof.
  intros [Hjobs Hlinks] Hurl Hj Hjurl Hsite Hnot.
  assert (Hfind : exists j', find (fun j0 => (j_job_url j0 =? url)%string)
                                  (jobs d) = Some j').
  { destruct (find (fun j0 => (j_job_url j0 =? url)%string) (jobs d))
      as [j'|] eqn:F; [now exists j'|].
    pose proof (find_none _ _ F j Hj) as Hn. cbn beta in Hn.
    apply String.eqb_neq in Hn. contradiction. }
  destruct Hfind as [j' Hfind].
  pose proof (find_some _ _ Hfind) as [Hj' Hj'url].
  apply String.eqb_eq in Hj'url.
  exists (j_id j').
  assert (Hget : get_existing_job_id d url = Some (j_id j'))
    by (unfold get_existing_job_id; now rewrite Hfind).
  split; [exact Hget|].
  unfold save_one. rewrite Hurl, (not_linked_no_status _ _ _ Hnot).
  unfold save_job_to_db, uuid4. cbv zeta. cbv iota. cbv beta.
  assert (Hconf : job_conflict
                    {| users := users d;
                       user_preferences := user_preferences d;
                       jobs := jobs d; user_jobs := user_jobs d;
                       next_uuid := S (next_uuid d) |}
                    (job_rec (next_uuid d) (make_job_data df r url)) = true).
  { unfold job_conflict. cbn [jobs]. apply existsb_exists. exists j.
    split; [exact Hj|]. apply orb_true_iff. right.
    apply andb_true_iff. split; apply String.eqb_eq.
    - cbn. destruct (Hjobs j Hj) as [He _]. congruence.
    - exact Hsite. }
  rewrite Hconf. cbn [negb].
  replace (get_existing_job_id _ (d_job_url (make_job_data df r url)))
    with (Some (j_id j')) by (symmetry; exact Hget).
  unfold create_user_job_relationship, uuid4. cbv zeta. cbv iota. cbv beta.
  match goal with |- context [link_conflict ?d' ?l] =>
    assert (Hlc : link_conflict d' l = false) end.
  { unfold link_conflict. cbn [user_jobs uj_id uj_user_id uj_job_id next_uuid].
    destruct (existsb _ (user_jobs d)) eqn:E; [|reflexivity].
    apply existsb_exists in E as (uj & Huj & Hp).
    apply orb_true_iff in Hp as [Hp|Hp].
    - apply Nat.eqb_eq in Hp. specialize (Hlinks uj Huj). lia.
    - apply andb_true_iff in Hp as [Hu Hjid].
      apply String.eqb_eq in Hu. apply Nat.eqb_eq in Hjid.
      assert (Hl : linked d uid url = true).
      { apply PersistFacts.linked_true_iff. exists uj, j'.
        repeat split; auto. }
      congruence. }
  rewrite Hlc. cbn. auto.
Qed.

(** ** Which rows are returned as new *)

Lemma NoDup_map_inj (A B : Type) (f : A -> B) (l : list A) (x y : A) :
  NoDup (map f l) -> In x l -> In y l -> f x = f y -> x = y.
Proof.
  induction l as [|a l IH]; intros Hnd Hx Hy Hf; [destruct Hx|].
  cbn in Hnd. inversion Hnd as [|? ? Ha Hl]; subst.
  destruct Hx as [<-|Hx], Hy as [<-|Hy].
  - reflexivity.
  - exfalso. apply Ha. rewrite Hf. now apply in_map.
  - exfalso. apply Ha. rewrite <- Hf. now apply in_map.
  - now apply IH.
Qed.

(** A turn of the loop for a row with URL [url] links nobody to any other
    URL. *)
Lemma save_one_new_links (uid : string) (df : DataFrame) (d : Database)
      (new : list JobRow) (r : JobRow) (url : string) :
  db_wf d -> NoDup (map j_id (jobs d)) ->
  usable_url r = Some url ->
  forall uid' url',
    linked (fst (save_one uid df (d, new) r)) uid' url' = true ->
    linked d uid' url' = true \/ url' = url.
Proof.
  intros [Hjobs Hlinks] Hnd Hurl uid' url'.
  unfold save_one. rewrite Hurl.
  destruct (Store.get_user_job_status d uid url); [now left|].
  unfold save_job_to_db, uuid4. cbv zeta. cbv iota. cbv beta.
  match goal with |- context [job_conflict ?d' ?rec] =>
    destruct (job_conflict d' rec) eqn:Econf end; cbn [negb].
  - unfold get_existing_job_id. cbn [jobs].
    destruct (find (fun j0 =>
                      (j_job_url j0
                       =? d_job_url (make_job_data df r url))%string)
                   (jobs d)) as [j'|] eqn:F; cbn [option_map];
      [|intros H; left; exact H].
    apply find_some in F as [Hj' Hj'url]. apply String.eqb_eq in Hj'url.
    cbn in Hj'url.
    unfold create_user_job_relationship, uuid4. cbv zeta. cbv iota. cbv beta.
    match goal with |- context [link_conflict ?d' ?l] =>
      destruct (link_conflict d' l) end; cbn [negb fst];
      [intros H; left; exact H|].
    intros H. apply PersistFacts.linked_true_iff in H.
    destruct H as (uj & j & Huj & Hj & Hu & Hid & Hjurl).
    cbn [jobs user_jobs set_user_jobs] in Huj, Hj.
    apply in_app_or in Huj as [Huj|[<-|[]]].
    + left. apply PersistFacts.linked_true_iff. exists uj, j. auto.
    + right. cbn in Hid.
      assert (j = j') by (eapply NoDup_map_inj; eauto). subst j.
      congruence.
  - unfold create_user_job_relationship, uuid4. cbv zeta. cbv iota. cbv beta.
    match goal with |- context [link_conflict ?d' ?l] =>
      destruct (link_conflict d' l) end; cbn [negb fst];
      intros H; apply PersistFacts.linked_true_iff in H;
      destruct H as (uj & j & Huj & Hj & Hu & Hid & Hjurl);
      cbn [jobs user_jobs set_user_jobs set_jobs] in Huj, Hj;
      (apply in_app_or in Hj as [Hj|[<-|[]]];
       [|right; cbn in Hjurl; congruence]).
    + left. apply PersistFacts.linked_true_iff. exists uj, j. auto.
    + apply in_app_or in Huj as [Huj|[<-|[]]].
      * left. apply PersistFacts.linked_true_iff. exists uj, j. auto.
      * cbn in Hid. destruct (Hjobs j Hj) as [_ Hlt]. lia.
Qed.

Lemma usable_url_job_url (r : JobRow) (url : string) :
  usable_url r = Some url -> job_url r = Some url.
Proof.
  unfold usable_url. destruct (job_url r) as [u|]; [|discriminate].
  destruct (PyStr.truthy u); [congruence | discriminate].
Qed.

Lemma save_one_invariant (d0 : Database) (uid : string) (df : DataFrame)
      (all : list JobRow) (acc : Database * list JobRow) (r : JobRow) :
  In r all ->
  loop_invariant d0 uid all acc ->
  loop_invariant d0 uid all (save_one uid df acc r).
Proof.
  intros Hr (Hwf & Hcon & Hext & Hnew & Hnd & Hold).
  destruct acc as [d new]. cbn [fst snd] in *.
  destruct (usable_url r) as [url|] eqn:Hurl;
    [|rewrite PersistFacts.save_one_skips by exact Hurl;
      exact (conj Hwf (conj Hcon (conj Hext (conj Hnew (conj Hnd Hold)))))].
  destruct (linked d uid url) eqn:Hl.
  { rewrite PersistFacts.save_one_noop;
      [exact (conj Hwf (conj Hcon (conj Hext (conj Hnew (conj Hnd Hold)))))|].
    cbn [fst]. intros url' Hurl'. congruence. }
  destruct (@PersistFacts.save_one_spec uid df d new r Hwf)
    as (Hwf' & Hext' & Hlinked').
  pose proof (@save_one_constraints uid df (d, new) r Hcon) as Hcon'.
  pose proof (@save_one_new_links uid df d new r url Hwf (proj1 Hcon) Hurl)
    as Hlinks'.
  assert (Hsnd : snd (save_one uid df (d, new) r) = (new ++ [r])%list).
  { unfold save_one. rewrite Hurl, (not_linked_no_status _ _ _ Hl).
    pose proof (@PersistFacts.save_job_to_db_spec
                  d (make_job_data df r url) Hwf eq_refl)
      as (Hwf1 & _ & jid & j & Hres & _).
    destruct (save_job_to_db d (make_job_data df r url)) as [d1 res].
    cbn [fst snd] in *. subst res.
    pose proof (@PersistFacts.create_user_job_relationship_spec
                  d1 uid jid (row_quality_score df r) Hwf1) as (Hok & _).
    destruct (create_user_job_relationship d1 uid jid
                                            (row_quality_score df r))
      as [d2 ok].
    cbn [snd] in *. subst ok. reflexivity. }
  destruct (save_one uid df (d, new) r) as [d' new'].
  cbn [fst snd] in *. subst new'.
  split; [exact Hwf'|]. split; [exact Hcon'|].
  split; [eauto using PersistFacts.extends_trans|].
  split; [|split].
  - intros r0 Hin. apply in_app_or in Hin as [Hin|[<-|[]]].
    + destruct (Hnew r0 Hin) as (Hall & u & Hu & Hbefore & Hnow).
      split; [exact Hall|]. exists u. repeat split; try assumption.
      eapply PersistFacts.linked_extends; eassumption.
    + split; [exact Hr|]. exists url. repeat split.
      * exact Hurl.
      * destruct (linked d0 uid url) eqn:E; [|reflexivity].
        rewrite (PersistFacts.linked_extends _ _ Hext E) in Hl.
        discriminate.
      * now apply Hlinked'.
  - cbn [snd]. rewrite map_app. cbn [map]. apply NoDup_snoc; [exact Hnd|].
    intros Hin. apply in_map_iff in Hin as (r0 & Hsame & Hin).
    destruct (Hnew r0 Hin) as (_ & u & Hu & _ & Hnow).
    rewrite (@usable_url_job_url r url Hurl) in Hsame.
    rewrite (@usable_url_job_url r0 u Hu) in Hsame. congruence.
  - cbn [fst snd]. intros url' Hl'.
    destruct (Hlinks' uid url' Hl') as [Hd|Heq].
    + destruct (Hold url' Hd) as [H0|(r0 & Hin & Hu)]; [now left|].
      right. exists r0. split; [apply in_or_app; now left | exact Hu].
    + subst url'. right. exists r.
      split; [apply in_or_app; right; now left | exact Hurl].
Qed.

Lemma fold_save_one_invariant (d0 : Database) (uid : string)
      (df : DataFrame) (all rs : list JobRow) :
  (forall r, In r rs -> In r all) ->
  forall acc,
    loop_invariant d0 uid all acc ->
    loop_invariant d0 uid all (fold_left (save_one uid df) rs acc).
Proof.
  induction rs as [|r rs IH]; intros Hall acc Hacc; [exact Hacc|].
  cbn [fold_left]. apply IH.
  - intros r' Hr'. apply Hall. now right.
  - apply save_one_invariant; [apply Hall; now left | exact Hacc].
Qed.

(** The store and the rows returned by a save, read off the loop. *)
Lemma save_jobs_for_user_loop (d : Database) (uid : string)
      (df : DataFrame) :
  fst (save_jobs_for_user d uid df)
  = fst (fold_left (save_one uid df) (rows df) (d, []))
  /\ rows (snd (save_jobs_for_user d uid df))
     = snd (fold_left (save_one uid df) (rows df) (d, [])).
Proof.
  unfold save_jobs_for_user, df_empty.
  destruct (rows df) as [|r rs]; [split; reflexivity|].
  destruct (fold_left (save_one uid df) (r :: rs) (d, [])) as [d' [|n new]];
    split; reflexivity.
Qed.

(** A save, started well, ends with the invariant of its loop. *)
Lemma save_jobs_for_user_invariant (d : Database) (uid : string)
      (df : DataFrame) :
  db_wf d -> constraints_hold d ->
  loop_invariant d uid (rows df)
                 (fst (save_jobs_for_user d uid df),
                  rows (snd (save_jobs_for_user d uid df))).
Proof.
  intros Hwf Hcon.
  destruct (save_jobs_for_user_loop d uid df) as [-> ->].
  rewrite <- surjective_pairing.
  apply fold_save_one_invariant; [auto|].
  unfold loop_invariant. cbn [fst snd].
  split; [exact Hwf|]. split; [exact Hcon|].
  split; [apply PersistFacts.extends_refl|].
  split; [intros ? []|]. split; [constructor|].
  intros url H. now left.
Qed.

(** X8. The frame returned by [save_jobs_for_user] is exactly the net-new
    set. On a well-formed store where the constraints of the schema hold:
    every returned row is a row of the frame with a URL that was not linked
    to the user before the call and is linked after it; no two returned rows
    have the same URL; and every row of the frame with a URL not linked
    before the call has a returned row with its URL. *)
Theorem returned_rows_are_the_net_new_set (d : Database) (uid : string)
        (df : DataFrame) :
  db_wf d -> constraints_hold d ->
  (forall r,
      In r (rows (snd (save_jobs_for_user d uid df))) ->
      In r (rows df)
      /\ exists url,
          usable_url r = Some url
          /\ linked d uid url = false
          /\ linked (fst (save_jobs_for_user d uid df)) uid url = true)
  /\ NoDup (map job_url (rows (snd (save_jobs_for_user d uid df))))
  /\ (forall r url,
        In r (rows df) -> usable_url r = Some url ->
        linked d uid url = false ->
        exists r',
          In r' (rows (snd (save_jobs_for_user d uid df)))
          /\ job_url r' = job_url r).
Proof.
  intros Hwf Hcon.
  destruct (@PersistFacts.save_jobs_for_user_spec d uid df Hwf)
    as (_ & _ & Hlinked).
  destruct (@save_jobs_for_user_invariant d uid df Hwf Hcon)
    as (_ & _ & _ & Hnew & Hnd & Hold).
  cbn [fst snd] in *.
  split; [exact Hnew|]. split; [exact Hnd|].
  intros r url Hin Hurl Hnot.
  destruct (Hold url (Hlinked r url Hin Hurl)) as [H|(r' & Hr' & Hu)];
    [congruence|].
  exists r'. split; [exact Hr'|].
  rewrite (@usable_url_job_url r url Hurl).
  now rewrite (@usable_url_job_url r' url Hu).
Qed.

End PersistMore.

(* ================================================================== *)
(** * Further properties of a cycle *)

Section CycleMore.

Variable str_contains_nocase : string -> string -> bool.
Variable smtp_accepts : Email -> bool.
Variable scrape :
  string -> string -> nat -> string -> string -> list JobRow * nat.

Import Persist Schema.

Local Abbreviation cycle :=
  (search_jobs_for_user str_contains_nocase smtp_accepts scrape).

Lemma send_job_notifications_outbox (e : Engine) (user : User)
      (df : DataFrame) :
  outbox (send_job_notifications smtp_accepts e user df) = outbox e
  \/ outbox (send_job_notifications smtp_accepts e user df)
     = (outbox e ++ [{| recipient := email user;
                        jobs_announced := df_len df |}])%list.
Proof.
  unfold send_job_notifications.
  destruct (df_empty df); [now left|].
  destruct (negb (email_configured (note_notify_call e))); [now left|].
  destruct (smtp_accepts _); [|now left].
  right. now rewrite fold_pass.
Qed.

(** The block that saves and notifies: the store it leaves, the rows it
    counted as new, and what it sent. *)
Lemma process_found_outcome (e : Engine) (user : User) (uid : string)
      (all_jobs : list DataFrame) :
  db_wf (db e) -> constraints_hold (db e) ->
  exists new : list JobRow,
    loop_invariant (db e) uid (rows (combine all_jobs))
                   (db (process_found smtp_accepts e user uid all_jobs), new)
    /\ (outbox (process_found smtp_accepts e user uid all_jobs) = outbox e
        \/ (outbox (process_found smtp_accepts e user uid all_jobs)
            = (outbox e ++ [{| recipient := email user;
                               jobs_announced := List.length new |}])%list
            /\ new <> [])).
Proof.
  intros Hwf Hcon. unfold process_found.
  destruct all_jobs as [|f fs].
  - exists []. split; [|now left].
    unfold loop_invariant. cbn [fst snd].
    split; [exact Hwf|]. split; [exact Hcon|].
    split; [apply PersistFacts.extends_refl|].
    split; [intros ? []|]. split; [constructor|].
    intros url H. now left.
  - set (all := f :: fs).
    pose proof (@PersistMore.save_jobs_for_user_invariant
                  (db e) uid (combine all) Hwf Hcon) as Hinv.
    destruct (save_jobs_for_user (db e) uid (combine all)) as [d new].
    cbn [fst snd] in Hinv. exists (rows new).
    destruct (0 <? df_len new)%nat eqn:Epos.
    + rewrite send_job_notifications_db. cbn [db set_db].
      split; [exact Hinv|].
      destruct (send_job_notifications_outbox (set_db e d) user new)
        as [H|H]; rewrite H; cbn [outbox set_db]; [now left|].
      right. split; [reflexivity|].
      apply Nat.ltb_lt in Epos. unfold df_len in Epos.
      destruct (rows new); [cbn in Epos; lia | discriminate].
    + cbn [db set_db outbox]. split; [exact Hinv | now left].
Qed.

(** X9. A cycle sends at most one message, and only for postings it has
    just linked. On a well-formed store where the constraints of the schema
    hold, either the outbox is as before, or it has one more message: to the
    address of the user, announcing as many jobs as there are rows in a
    non-empty list of rows with pairwise different URLs, none of which was
    linked to the user before the cycle and all of which are linked after
    it. *)
Theorem digest_only_for_newly_linked_postings (e : Engine) (uid : string)
        (clk : CycleClock) :
  db_wf (db e) -> constraints_hold (db e) ->
  outbox (cycle e uid clk) = outbox e
  \/ exists (user : User) (new : list JobRow),
      Store.get_user_by_id (db e) uid = Some user
      /\ outbox (cycle e uid clk)
         = (outbox e ++ [{| recipient := email user;
                            jobs_announced := List.length new |}])%list
      /\ new <> []
      /\ NoDup (map job_url new)
      /\ forall r, In r new ->
                   exists url,
                     usable_url r = Some url
                     /\ linked (db e) uid url = false
                     /\ linked (db (cycle e uid clk)) uid url = true.
Proof.
  intros Hwf Hcon. unfold search_jobs_for_user.
  destruct (Store.get_user_by_id (db e) uid) as [user|]; [|now left].
  destruct (negb (is_active user)); [now left|].
  destruct (Store.get_user_preferences (db e) uid) as [p|]; [|now left].
  pose proof (check_rate_limit_keeps e (t_rate_limit clk))
    as (Hdb & Hout & _).
  destruct (Gateway.check_rate_limit e (t_rate_limit clk)) as [ok e_g].
  cbn [fst snd] in *.
  destruct ok; cbn [negb]; [|left; exact Hout].
  unfold search_after_gate.
  destruct (keyword_loop str_contains_nocase scrape p (t_score clk) 0
                         (firstn 3 (keywords p))) as [all gets].
  cbn [db outbox set_last_search_time].
  destruct (@process_found_outcome (note_gets e_g gets) user uid all)
    as (new & Hinv & Hsent).
  - cbn [db note_gets]. now rewrite Hdb.
  - cbn [db note_gets]. now rewrite Hdb.
  - cbn [db note_gets outbox] in Hinv, Hsent. rewrite Hdb in Hinv.
    rewrite Hout in Hsent.
    destruct Hsent as [Hsame|[Hmore Hne]]; [now left|].
    right. exists user, new.
    destruct Hinv as (_ & _ & _ & Hnew & Hnd & _). cbn [fst snd] in *.
    split; [reflexivity|]. split; [exact Hmore|]. split; [exact Hne|].
    split; [exact Hnd|].
    intros r Hr. destruct (Hnew r Hr) as (_ & url & H1 & H2 & H3).
    exists url. auto.
Qed.

(** X10. A cycle keeps the store sound and only adds to it. On a
    well-formed store where the constraints of the schema hold, after the
    cycle the store is well-formed and the constraints hold; the tables of
    users and of preferences are as before; every job row and every link
    that was there is still there. *)
Theorem cycle_keeps_store_sound (e : Engine) (uid : string)
        (clk : CycleClock) :
  db_wf (db e) -> constraints_hold (db e) ->
  db_wf (db (cycle e uid clk))
  /\ constraints_hold (db (cycle e uid clk))
  /\ users (db (cycle e uid clk)) = users (db e)
  /\ user_preferences (db (cycle e uid clk)) = user_preferences (db e)
  /\ incl (jobs (db e)) (jobs (db (cycle e uid clk)))
  /\ incl (user_jobs (db e)) (user_jobs (db (cycle e uid clk))).
Proof.
  intros Hwf Hcon.
  assert (Hsame : db_wf (db e) /\ constraints_hold (db e)
                  /\ users (db e) = users (db e)
                  /\ user_preferences (db e) = user_preferences (db e)
                  /\ incl (jobs (db e)) (jobs (db e))
                  /\ incl (user_jobs (db e)) (user_jobs (db e)))
    by (split; [exact Hwf|]; split; [exact Hcon|];
        repeat split; apply incl_refl).
  unfold search_jobs_for_user.
  destruct (Store.get_user_by_id (db e) uid) as [user|]; [|exact Hsame].
  destruct (negb (is_active user)); [exact Hsame|].
  destruct (Store.get_user_preferences (db e) uid) as [p|]; [|exact Hsame].
  pose proof (check_rate_limit_keeps e (t_rate_limit clk)) as (Hdb & _).
  destruct (Gateway.check_rate_limit e (t_rate_limit clk)) as [ok e_g].
  cbn [fst snd] in *.
  destruct ok; cbn [negb]; [|rewrite Hdb; exact Hsame].
  unfold search_after_gate.
  destruct (keyword_loop str_contains_nocase scrape p (t_score clk) 0
                         (firstn 3 (keywords p))) as [all gets].
  cbn [db set_last_search_time].
  destruct (@process_found_outcome (note_gets e_g gets) user uid all)
    as (new & Hinv & _).
  - cbn [db note_gets]. now rewrite Hdb.
  - cbn [db note_gets]. now rewrite Hdb.
  - cbn [db note_gets] in Hinv. rewrite Hdb in Hinv.
    destruct Hinv as (H1 & H2 & (H3 & H4 & H5 & H6 & _) & _).
    cbn [fst] in *. auto 10.
Qed.

(** X11. A cycle that is not granted a call of the gateway has no effect
    beyond the pruning of the gateway's list: whether the user is unknown,
    inactive or without preferences, or the gateway refuses, the store, the
    outbox, the count of GETs, the schedule and the table of last search
    times are as before - in particular a refused cycle does not count as a
    search in [last_search_times]. *)
Theorem cycle_without_grant_changes_nothing (e : Engine) (uid : string)
        (clk : CycleClock) :
  acquired (cycle e uid clk) = acquired e ->
  db (cycle e uid clk) = db e
  /\ outbox (cycle e uid clk) = outbox e
  /\ notify_calls (cycle e uid clk) = notify_calls e
  /\ http_gets (cycle e uid clk) = http_gets e
  /\ last_search_times (cycle e uid clk) = last_search_times e
  /\ schedule_jobs (cycle e uid clk) = schedule_jobs e
  /\ is_running (cycle e uid clk) = is_running e
  /\ incl (linkedin_last_requests (cycle e uid clk))
          (linkedin_last_requests e).
Proof.
  unfold search_jobs_for_user.
  assert (Hsame : db e = db e /\ outbox e = outbox e
                  /\ notify_calls e = notify_calls e
                  /\ http_gets e = http_gets e
                  /\ last_search_times e = last_search_times e
                  /\ schedule_jobs e = schedule_jobs e
                  /\ is_running e = is_running e
                  /\ incl (linkedin_last_requests e)
                          (linkedin_last_requests e))
    by (repeat split; apply incl_refl).
  destruct (Store.get_user_by_id (db e) uid) as [user|];
    [|intros _; exact Hsame].
  destruct (negb (is_active user)); [intros _; exact Hsame|].
  destruct (Store.get_user_preferences (db e) uid) as [p|];
    [|intros _; exact Hsame].
  unfold Gateway.check_rate_limit, datetime_now. cbv zeta.
  destruct (linkedin_requests_per_minute e <=? _)%nat; cbn [negb].
  - intros _. cbn. repeat split.
    intros t Ht. apply filter_In in Ht. tauto.
  - unfold search_after_gate.
    destruct (keyword_loop str_contains_nocase scrape p (t_score clk) 0
                           (firstn 3 (keywords p))) as [all gets].
    cbn [acquired set_last_search_time].
    match goal with
    | |- context [process_found smtp_accepts ?e0 user uid all] =>
        destruct (process_found_counters smtp_accepts e0 user uid all)
          as [_ Ha]
    end.
    rewrite Ha. cbn. lia.
Qed.

End CycleMore.

(* ================================================================== *)
(** * Further properties of the adapter and of the scraper *)

Module ScraperFacts.
Import Adapter Scraper.

Lemma add_cards_length (max_results : nat) (cards : list (option JobRow)) :
  forall jobs,
    (List.length jobs < max_results)%nat ->
    (List.length (add_cards max_results cards jobs) <= max_results)%nat.
Proof.
  induction cards as [|card cards IH]; intros jobs Hlen; [cbn; lia|].
  cbn [add_cards].
  destruct card as [job|].
  - destruct (max_results <=? List.length (jobs ++ [job]))%nat eqn:E.
    + rewrite length_app. cbn. lia.
    + apply Nat.leb_gt in E. now apply IH.
  - destruct (max_results <=? List.length jobs)%nat; [lia|].
    now apply IH.
Qed.

(** While fewer cards parse than are still wanted, the loop over the cards
    takes them all. *)
Lemma add_cards_all (max_results : nat) (cards : list (option JobRow)) :
  forall jobs,
    (List.length jobs + List.length (parsed cards) < max_results)%nat ->
    add_cards max_results cards jobs = (jobs ++ parsed cards)%list.
Proof.
  unfold parsed.
  induction cards as [|card cards IH]; intros jobs Hlen.
  - cbn. now rewrite app_nil_r.
  - cbn [add_cards]. cbn [flat_map] in *.
    destruct card as [job|]; cbn [app List.length] in *.
    + replace (max_results <=? List.length (jobs ++ [job]))%nat with false
        by (symmetry; apply Nat.leb_gt; rewrite length_app; cbn; lia).
      rewrite IH by (rewrite length_app; cbn; lia).
      now rewrite <- app_assoc.
    + replace (max_results <=? List.length jobs)%nat with false
        by (symmetry; apply Nat.leb_gt; lia).
      now apply IH.
Qed.

Lemma pagination_loop_bounds (server : Server) (max_results : nat) :
  forall fuel jobs start gets jobs' gets',
    (List.length jobs <= max_results)%nat ->
    pagination_loop fuel server max_results jobs start gets
    = Some (jobs', gets') ->
    (List.length jobs' <= max_results)%nat
    /\ (gets <= gets')%nat
    /\ ((List.length jobs < max_results)%nat -> start < 200 ->
        (gets < gets')%nat).
Proof.
  induction fuel as [|fuel IH]; intros jobs start gets jobs' gets' Hlen;
    cbn [pagination_loop];
    destruct ((List.length jobs <? max_results)%nat && (start <? 200))%bool
             eqn:Econd;
    try discriminate;
    try (intros [= <- <-]; split; [exact Hlen|]; split; [lia|];
         intros H1 H2; apply Nat.ltb_lt in H1; apply Z.ltb_lt in H2;
         rewrite H1, H2 in Econd; discriminate).
  apply andb_true_iff in Econd as [Hlt _]. apply Nat.ltb_lt in Hlt.
  destruct (server gets start) as [status cards|];
    [|intros [= <- <-]; repeat split; lia].
  destruct (status =? 429).
  - intros Hrun. destruct (IH _ _ _ _ _ Hlen Hrun) as (H1 & H2 & _).
    repeat split; lia.
  - destruct (negb (status =? 200)); [intros [= <- <-]; repeat split; lia|].
    destruct cards as [|card cards]; [intros [= <- <-]; repeat split; lia|].
    intros Hrun.
    destruct (IH _ _ _ _ _ (@add_cards_length max_results (card :: cards)
                                              jobs Hlt) Hrun)
      as (H1 & H2 & _).
    repeat split; lia.
Qed.

(** Method 1 returns, and within its bound, once the 429 answers stop. *)
Lemma method_1_returns_bounded (server : Server)
        (max_results quiet : nat) :
  quiet_from quiet server ->
  exists (jobs : list JobRow) (gets : nat),
    method_1_guest_api (quiet + 8) server max_results = Some (jobs, gets)
    /\ (List.length jobs <= max_results)%nat
    /\ (max_results = 0%nat -> jobs = [] /\ gets = 0%nat).
Proof.
  intros Hquiet. unfold method_1_guest_api.
  destruct (@AdapterFacts.pagination_loop_returns
              server max_results quiet Hquiet (quiet + 8)%nat [] 0 0%nat)
    as (jobs & gets & Hrun & _).
  { replace (pages_left 0) with 8%nat by reflexivity. lia. }
  exists jobs, gets. split; [exact Hrun|].
  destruct (@pagination_loop_bounds server max_results (quiet + 8)%nat
              [] 0 0%nat jobs gets (Nat.le_0_l max_results) Hrun)
    as (H1 & _ & _).
  split; [exact H1|].
  intros ->. destruct (quiet + 8)%nat; cbn in Hrun;
    injection Hrun as <- <-; auto.
Qed.

(** X12. [method_1_guest_api] never returns more jobs than it was asked
    for. Against a source that answers 429 to none of the GETs from the
    [quiet]-th on, it returns, with at most [max_results] jobs; asked for
    nothing it sends no GET and returns nothing; asked for something it
    sends at least one GET. *)
Theorem method_1_returns_at_most_max_results (server : Server)
        (max_results quiet : nat) :
  quiet_from quiet server ->
  exists (jobs : list JobRow) (gets : nat),
    method_1_guest_api (quiet + 8) server max_results = Some (jobs, gets)
    /\ (List.length jobs <= max_results)%nat
    /\ (max_results = 0%nat -> jobs = [] /\ gets = 0%nat)
    /\ ((0 < max_results)%nat -> (1 <= gets)%nat).
Proof.
  intros Hquiet.
  destruct (method_1_returns_bounded max_results Hquiet)
    as (jobs & gets & Hrun & Hlen & Hzero).
  exists jobs, gets. split; [exact Hrun|]. split; [exact Hlen|].
  split; [exact Hzero|].
  intros Hpos. unfold method_1_guest_api in Hrun.
  destruct (@pagination_loop_bounds server max_results (quiet + 8)%nat
              [] 0 0%nat jobs gets (Nat.le_0_l max_results) Hrun)
    as (_ & _ & Hgets).
  apply Hgets; [exact Hpos | lia].
Qed.

(** X13. Partial results are kept: when the first page answers 200 with
    cards of which fewer parse than were asked for, and the second GET ends
    the pagination (an exception, a status other than 200 and 429, or an
    empty page), the method returns the jobs of the first page, after two
    GETs. *)
Theorem failure_on_second_page_keeps_the_first (server : Server)
        (max_results fuel : nat) (card : option JobRow)
        (cards : list (option JobRow)) :
  server 0%nat 0 = HttpResponse 200 (card :: cards) ->
  (List.length (parsed (card :: cards)) < max_results)%nat ->
  ends_pagination (server 1%nat 25) = true ->
  method_1_guest_api (S (S fuel)) server max_results
  = Some (parsed (card :: cards), 2%nat).
Proof.
  intros Hfirst Hfew Hends. unfold method_1_guest_api.
  cbn [pagination_loop].
  replace (List.length (@nil JobRow) <? max_results)%nat with true
    by (symmetry; apply Nat.ltb_lt; cbn; lia).
  cbn [andb]. replace (0 <? 200) with true by reflexivity.
  rewrite Hfirst. cbn [Z.eqb negb].
  replace (200 =? 429) with false by reflexivity.
  replace (200 =? 200) with true by reflexivity. cbn [negb].
  rewrite (@add_cards_all max_results (card :: cards) [])
    by (cbn [List.length]; lia).
  cbn [app].
  replace (List.length (parsed (card :: cards)) <? max_results)%nat with true
    by (symmetry; now apply Nat.ltb_lt).
  cbn [andb]. replace (0 + 25 <? 200) with true by reflexivity.
  replace (0 + 25) with 25 by reflexivity.
  unfold ends_pagination in Hends.
  destruct (server 1%nat 25) as [status cards2|]; [|reflexivity].
  apply andb_true_iff in Hends as [H429 Hrest].
  apply negb_true_iff in H429. rewrite H429.
  apply orb_true_iff in Hrest as [H200|Hempty].
  - rewrite H200. reflexivity.
  - destruct (negb (status =? 200)); [reflexivity|].
    destruct cards2; [reflexivity | discriminate].
Qed.

(** ** [scrape_jobs] *)

Lemma same_url_refl (u : option string) : same_url u u = true.
Proof. destruct u as [x|]; cbn; [apply String.eqb_refl | reflexivity]. Qed.

Lemma drop_duplicates_unique (rs : list JobRow) :
  forall seen,
    NoDup (map job_url (drop_duplicates seen rs))
    /\ forall r, In r (drop_duplicates seen rs) ->
                 existsb (same_url (job_url r)) seen = false.
Proof.
  induction rs as [|r0 rs IH]; intros seen; cbn [drop_duplicates].
  - split; [constructor | intros ? []].
  - destruct (existsb (same_url (job_url r0)) seen) eqn:E; [apply IH|].
    destruct (IH (job_url r0 :: seen)) as [Hnd Hnew]. split.
    + cbn [map]. constructor; [|exact Hnd].
      intros Hin. apply in_map_iff in Hin as (r & Hsame & Hr).
      specialize (Hnew r Hr). cbn [existsb] in Hnew.
      apply orb_false_iff in Hnew as [Hne _].
      rewrite Hsame, same_url_refl in Hne. discriminate.
    + intros r [<-|Hr]; [exact E|].
      specialize (Hnew r Hr). cbn [existsb] in Hnew.
      now apply orb_false_iff in Hnew as [_ Hne].
Qed.

Lemma drop_duplicates_length (rs : list JobRow) :
  forall seen,
    (List.length (drop_duplicates seen rs) <= List.length rs)%nat.
Proof.
  induction rs as [|r0 rs IH]; intros seen; cbn [drop_duplicates];
    [cbn; lia|].
  destruct (existsb _ seen); cbn [List.length].
  - specialize (IH seen). lia.
  - specialize (IH (job_url r0 :: seen)). lia.
Qed.

Lemma parsed_length (cards : list (option JobRow)) :
  (List.length (parsed cards) <= List.length cards)%nat.
Proof.
  unfold parsed. induction cards as [|c cards IH]; [cbn; lia|].
  cbn [flat_map]. rewrite length_app. destruct c; cbn; lia.
Qed.

Lemma method_2_length (browser : Browser) (max_results : nat) :
  (List.length (method_2_selenium_stealth browser max_results)
   <= max_results)%nat.
Proof.
  destruct browser as [| |els]; cbn; try lia.
  pose proof (parsed_length (firstn max_results els)).
  pose proof (firstn_le_length max_results els).
  rewrite length_firstn in *. lia.
Qed.

(** X14. [scrape_jobs] returns unique jobs, no more than asked for. Against
    a source that stops answering 429, it returns a frame in which no two
    rows have the same [job_url], with at most [max_results] rows, each of
    them found by method 1 or by the browser of method 2; and asked for
    fewer than two jobs it returns the empty frame without a GET, whatever
    the source and the browser hold. *)
Theorem scrape_jobs_unique_and_bounded (server : Server) (browser : Browser)
        (max_results quiet : nat) :
  quiet_from quiet server ->
  exists (df : DataFrame) (jobs_1 : list JobRow) (gets : nat),
    method_1_guest_api (quiet + 8) server (max_results / 2)
    = Some (jobs_1, gets)
    /\ scrape_jobs (quiet + 8) server browser max_results = Some (df, gets)
    /\ NoDup (map job_url (rows df))
    /\ (df_len df <= max_results)%nat
    /\ (forall r, In r (rows df) ->
                  In r jobs_1
                  \/ In r (method_2_selenium_stealth browser
                                                     (max_results / 2)))
    /\ ((max_results < 2)%nat -> rows df = [] /\ gets = 0%nat).
Proof.
  intros Hquiet.
  destruct (@method_1_returns_bounded
              server (max_results / 2)%nat quiet Hquiet)
    as (jobs_1 & gets & Hrun & Hlen & Hzero).
  unfold scrape_jobs. rewrite Hrun.
  eexists _, jobs_1, gets. split; [reflexivity|]. split; [reflexivity|].
  cbn [rows]. unfold df_len. cbn [rows].
  set (all := if (List.length jobs_1 <? max_results / 2)%nat
              then (jobs_1 ++ method_2_selenium_stealth
                                browser (max_results / 2))%list
              else jobs_1).
  assert (Hall : (List.length all <= max_results)%nat).
  { pose proof (method_2_length browser (max_results / 2)) as H2.
    pose proof (Nat.Div0.mul_div_le max_results 2) as Hdiv.
    unfold all. destruct (_ <? _)%nat; [rewrite length_app|]; lia. }
  split; [apply drop_duplicates_unique|].
  split; [pose proof (drop_duplicates_length all []); lia|].
  split.
  - intros r Hr. apply drop_duplicates_incl in Hr. unfold all in Hr.
    destruct (_ <? _)%nat; [apply in_app_or in Hr; exact Hr | now left].
  - intros Hsmall.
    assert (Hhalf : (max_results / 2 = 0)%nat)
      by (apply Nat.div_small; exact Hsmall).
    destruct (Hzero Hhalf) as [-> ->].
    unfold all. rewrite Hhalf. cbn. auto.
Qed.

End ScraperFacts.

(* ================================================================== *)
(** * Properties of accounts and stored preferences *)

Section ListFind.
Variable A B : Type.

Lemma find_snoc (f : A -> bool) (l : list A) (x : A) :
  find f (l ++ [x])
  = match find f l with
    | Some y => Some y
    | None => if f x then Some x else None
    end.
Proof.
  induction l as [|a l IH]; cbn; [reflexivity|].
  destruct (f a); [reflexivity | exact IH].
Qed.

Lemma find_map_same_test (f : A -> bool) (g : A -> A) (l : list A) :
  (forall x, f (g x) = f x) ->
  find f (map g l) = option_map g (find f l).
Proof.
  intros H. induction l as [|a l IH]; cbn; [reflexivity|].
  rewrite H. destruct (f a); [reflexivity | exact IH].
Qed.

Lemma find_map_test (f : B -> bool) (g : A -> B) (l : list A) :
  find f (map g l) = option_map g (find (fun x => f (g x)) l).
Proof.
  induction l as [|a l IH]; cbn; [reflexivity|].
  destruct (f (g a)); [reflexivity | exact IH].
Qed.

Lemma find_none_of_existsb (f : A -> bool) (l : list A) :
  existsb f l = false -> find f l = None.
Proof.
  induction l as [|a l IH]; cbn; [reflexivity|].
  destruct (f a); [discriminate | exact IH].
Qed.

End ListFind.

Module AccountsFacts.
Import Accounts.


(** The engine's lookups on [database_of m d] are the manager's. *)
Lemma lookups_of_database_of (m : Manager) (d : Database) (uid : string) :
  Store.get_user_by_id (database_of m d) uid = get_user_by_id m uid
  /\ Store.get_user_preferences (database_of m d) uid
     = get_user_preferences m uid.
Proof.
  unfold Store.get_user_by_id, Store.get_user_preferences, get_user_by_id,
    get_user_preferences, database_of. cbn [users user_preferences].
  rewrite !find_map_test. split; reflexivity.
Qed.


Lemma preferences_of_updated_row (u : PrefsUpdate) (now : string)
      (row : PrefsRow) :
  preferences_of_row (apply_prefs_update u now row)
  = updated_preferences u now (preferences_of_row row).
Proof.
  destruct u as [k x l mn mx f t h jt se].
  unfold preferences_of_row, updated_preferences, apply_prefs_update.
  cbn. destruct k, x, l, mn, mx, f, t, h, se; reflexivity.
Qed.

(** X16. Updating preferences and reading them back. For a user that has
    stored preferences and a dict with at least one of the keys the
    function knows. When every integer of the dict fits a signed 64-bit
    value: [update_user_preferences] answers [True]; what
    [get_user_preferences] then returns has the written lists as they were
    given and the written integers through [or default] (a written 0 reads
    as the default); the time filter and the two mode flags are as before,
    whatever the dict holds; the work type is the time of the update,
    because the update sets [updated_at] and that is the column read as the
    work type; and the preferences of every other user and the table of
    users are untouched. When some integer does not fit, sqlite3 raises
    [OverflowError]: the answer is [False] and nothing is written, the
    other keys of the dict included. *)
Theorem update_preferences_round_trip (m : Manager) (uid : string)
        (u : PrefsUpdate) (now : string) (p : UserPreferences) :
  get_user_preferences m uid = Some p ->
  no_prefs_update u = false ->
  (prefs_update_binds u = true ->
   snd (update_user_preferences m uid u now) = true
   /\ get_user_preferences (fst (update_user_preferences m uid u now)) uid
      = Some (updated_preferences u now p)
   /\ (PyStr.truthy now = true ->
       option_map work_type
                  (get_user_preferences
                     (fst (update_user_preferences m uid u now)) uid)
       = Some now)
   /\ (forall uid', uid' <> uid ->
                    get_user_preferences
                      (fst (update_user_preferences m uid u now)) uid'
                    = get_user_preferences m uid')
   /\ user_rows (fst (update_user_preferences m uid u now)) = user_rows m)
  /\ (prefs_update_binds u = false ->
      update_user_preferences m uid u now = (m, false)).
Proof.
  intros Hget Hsome. unfold update_user_preferences. rewrite Hsome.
  split; intros Hbinds; rewrite Hbinds; cbn [negb]; [|reflexivity].
  cbn [fst snd]. unfold get_user_preferences in *. cbn [prefs_rows user_rows].
  assert (Hkeep : forall uid' row,
             (pr_user_id
                (if (pr_user_id row =? uid)%string
                 then apply_prefs_update u now row else row) =? uid')%string
             = (pr_user_id row =? uid')%string).
  { intros uid' row. destruct (pr_user_id row =? uid)%string; reflexivity. }
  destruct (find (fun row => (pr_user_id row =? uid)%string) (prefs_rows m))
    as [row|] eqn:F; [|discriminate].
  injection Hget as <-.
  pose proof (find_some _ _ F) as [Hin Hrow].
  assert (Hread :
            option_map preferences_of_row
              (find (fun row => (pr_user_id row =? uid)%string)
                    (map (fun row => if (pr_user_id row =? uid)%string
                                     then apply_prefs_update u now row
                                     else row) (prefs_rows m)))
            = Some (updated_preferences u now (preferences_of_row row))).
  { rewrite (find_map_same_test
               (fun row => (pr_user_id row =? uid)%string)
               (fun row => if (pr_user_id row =? uid)%string
                           then apply_prefs_update u now row else row)
               (prefs_rows m) (Hkeep uid)).
    rewrite F. cbn [option_map]. rewrite Hrow.
    now rewrite preferences_of_updated_row. }
  split; [|split; [exact Hread|split; [|split; [|reflexivity]]]].
  - apply existsb_exists. exists row. split; assumption.
  - intros Hnow. rewrite Hread. cbn [option_map updated_preferences work_type].
    unfold text_or. now rewrite Hnow.
  - intros uid' Hne.
    rewrite (find_map_same_test
               (fun row => (pr_user_id row =? uid')%string)
               (fun row => if (pr_user_id row =? uid)%string
                           then apply_prefs_update u now row else row)
               (prefs_rows m) (Hkeep uid')).
    destruct (find (fun row => (pr_user_id row =? uid')%string)
                   (prefs_rows m)) as [row'|] eqn:F'; [|reflexivity].
    cbn [option_map]. apply find_some in F' as [_ Hrow'].
    apply String.eqb_eq in Hrow'.
    replace (pr_user_id row' =? uid)%string with false; [reflexivity|].
    symmetry. apply String.eqb_neq. congruence.
Qed.

Section PasswordFacts.

Variable sha256_hex : string -> string.

Lemma create_default_preferences_users (m : Manager)
      (pid now uid : string) :
  user_rows (fst (create_default_preferences m pid now uid)) = user_rows m.
Proof.
  unfold create_default_preferences. destruct (existsb _ _); reflexivity.
Qed.

(** X17. Creating a user and finding it again. When neither the identifier
    drawn nor the email is taken, [create_user] returns the new user -
    active, with the given name and admin flag - and afterwards the user is
    found by its email and by its identifier, [authenticate_user] accepts
    the password it was created with, and every user found by email before
    is still found; when moreover no preferences row has the identifier
    drawn for the preferences or belongs to the new identifier, the new
    user's preferences are those read from the row of
    [create_default_preferences]. *)
Theorem create_user_round_trip (m : Manager) (new_id prefs_id now : string)
        (mail name_ password : string) (admin : bool) :
  existsb (fun row => (id (ur_user row) =? new_id)%string
                      || (email (ur_user row) =? mail)%string)
          (user_rows m) = false ->
  let created :=
    create_user sha256_hex m new_id prefs_id now mail name_ password admin in
  let u := {| id := new_id; email := mail; name := name_;
              is_active := true; is_admin := admin |} in
  snd created = Some u
  /\ get_user_by_email (fst created) mail = Some u
  /\ get_user_by_id (fst created) new_id = Some u
  /\ authenticate_user sha256_hex (fst created) mail password = Some u
  /\ (forall mail' u', get_user_by_email m mail' = Some u' ->
                       get_user_by_email (fst created) mail' = Some u')
  /\ (existsb (fun row => (pr_id row =? prefs_id)%string
                          || (pr_user_id row =? new_id)%string)
              (prefs_rows m) = false ->
      get_user_preferences (fst created) new_id
      = Some (preferences_of_row (default_prefs_row prefs_id now new_id))).
Proof.
  intros Hfree created u. unfold created, create_user. rewrite Hfree.
  set (row := {| ur_user := u; ur_password_hash := sha256_hex password;
                 ur_subscription_tier := "free" |}).
  set (m1 := {| user_rows := (user_rows m ++ [row])%list;
                prefs_rows := prefs_rows m |}).
  fold u. fold row. fold m1.
  pose proof (create_default_preferences_users m1 prefs_id now new_id)
    as Husers.
  assert (Hno : forall row0, In row0 (user_rows m) ->
                  (id (ur_user row0) =? new_id)%string = false
                  /\ (email (ur_user row0) =? mail)%string = false).
  { intros row0 Hin.
    destruct ((id (ur_user row0) =? new_id)%string
              || (email (ur_user row0) =? mail)%string) eqn:E.
    - assert (existsb (fun r => (id (ur_user r) =? new_id)%string
                                || (email (ur_user r) =? mail)%string)
                      (user_rows m) = true)
        by (apply existsb_exists; exists row0; auto).
      congruence.
    - now apply orb_false_iff in E. }
  assert (Hfind : forall f,
             (forall row0, In row0 (user_rows m) -> f row0 = false) ->
             f row = true ->
             find f (user_rows m ++ [row]) = Some row).
  { intros f Hold Hnew. rewrite find_snoc.
    destruct (find f (user_rows m)) as [y|] eqn:F.
    - apply find_some in F as [Hy Hfy]. rewrite (Hold y Hy) in Hfy.
      discriminate.
    - now rewrite Hnew. }
  assert (Hid : get_user_by_id
                  (fst (create_default_preferences m1 prefs_id now new_id))
                  new_id
                = Some u).
  { unfold get_user_by_id. rewrite Husers. cbn [user_rows m1].
    rewrite Hfind; [reflexivity | intros r Hr; apply (Hno r Hr) |].
    cbn. apply String.eqb_refl. }
  destruct (create_default_preferences m1 prefs_id now new_id)
    as [m2 ok] eqn:Ep.
  cbn [fst snd] in *.
  split; [exact Hid|]. split; [|split; [exact Hid|split; [|split]]].
  - unfold get_user_by_email. rewrite Husers. cbn [user_rows m1].
    rewrite Hfind; [reflexivity | intros r Hr; apply (Hno r Hr) |].
    cbn. apply String.eqb_refl.
  - unfold authenticate_user. rewrite Husers. cbn [user_rows m1].
    rewrite Hfind; [reflexivity | |].
    + intros r Hr. destruct (Hno r Hr) as [_ ->]. reflexivity.
    + cbn. now rewrite !String.eqb_refl.
  - intros mail' u' Hold. unfold get_user_by_email in *.
    rewrite Husers. cbn [user_rows m1]. rewrite find_snoc.
    destruct (find (fun r => (email (ur_user r) =? mail')%string)
                   (user_rows m)); [exact Hold | discriminate].
  - intros Hpfree. unfold create_default_preferences in Ep.
    assert (Hpid : existsb (fun r => (pr_id r =? prefs_id)%string)
                           (prefs_rows m1) = false).
    { cbn [prefs_rows m1].
      destruct (existsb (fun r => (pr_id r =? prefs_id)%string)
                        (prefs_rows m)) eqn:E; [|reflexivity].
      apply existsb_exists in E as (r & Hr & Hp).
      assert (existsb (fun r0 => (pr_id r0 =? prefs_id)%string
                                 || (pr_user_id r0 =? new_id)%string)
                      (prefs_rows m) = true)
        by (apply existsb_exists; exists r; split;
            [exact Hr | now rewrite Hp]).
      congruence. }
    rewrite Hpid in Ep. injection Ep as <- _.
    unfold get_user_preferences. cbn [prefs_rows m1]. rewrite find_snoc.
    rewrite find_none_of_existsb.
    + cbn. now rewrite String.eqb_refl.
    + destruct (existsb (fun r => (pr_user_id r =? new_id)%string)
                        (prefs_rows m)) eqn:E; [|reflexivity].
      apply existsb_exists in E as (r & Hr & Hp).
      assert (existsb (fun r0 => (pr_id r0 =? prefs_id)%string
                                 || (pr_user_id r0 =? new_id)%string)
                      (prefs_rows m) = true)
        by (apply existsb_exists; exists r; split;
            [exact Hr | rewrite Hp; apply orb_true_r]).
      congruence.
Qed.

(** The table of users after a [create_user] that is not refused. *)
Lemma create_user_rows (m : Manager) (new_id prefs_id now : string)
      (mail name_ password : string) (admin : bool) :
  existsb (fun row => (id (ur_user row) =? new_id)%string
                      || (email (ur_user row) =? mail)%string)
          (user_rows m) = false ->
  user_rows (fst (create_user sha256_hex m new_id prefs_id now mail name_
                              password admin))
  = (user_rows m
     ++ [{| ur_user := {| id := new_id; email := mail; name := name_;
                          is_active := true; is_admin := admin |};
            ur_password_hash := sha256_hex password;
            ur_subscription_tier := "free" |}])%list.
Proof.
  intros Hfree. unfold create_user. rewrite Hfree.
  match goal with
  | |- context [create_default_preferences ?m1 prefs_id now new_id] =>
      pose proof (create_default_preferences_users m1 prefs_id now new_id)
        as Husers;
      destruct (create_default_preferences m1 prefs_id now new_id) as [m2 ok]
  end.
  cbn [fst] in *. exact Husers.
Qed.

(** X23. The default admin is created once. [create_default_admin], which
    [init_database] runs each time a manager is built, leaves the tables as
    they are when an account with the admin's email exists - whatever its
    password, its flags or its state; otherwise, the identifier drawn being
    free, it creates the account, which then logs in with the password
    "admin123" as an active admin. Either way an account with that email
    exists afterwards and a second run changes nothing. *)
Theorem default_admin_created_once (m : Manager)
        (new_id prefs_id now new_id' prefs_id' now' : string) :
  existsb (fun row => (id (ur_user row) =? new_id)%string) (user_rows m)
  = false ->
  let m1 := create_default_admin sha256_hex m new_id prefs_id now in
  (exists u, get_user_by_email m1 "admin@jobsprint.com" = Some u)
  /\ create_default_admin sha256_hex m1 new_id' prefs_id' now' = m1
  /\ (get_user_by_email m "admin@jobsprint.com" <> None -> m1 = m)
  /\ (get_user_by_email m "admin@jobsprint.com" = None ->
      authenticate_user sha256_hex m1 "admin@jobsprint.com" "admin123"
      = Some {| id := new_id; email := "admin@jobsprint.com";
                name := "System Administrator";
                is_active := true; is_admin := true |}).
Proof.
  intros Hid m1. unfold m1, create_default_admin.
  destruct (get_user_by_email m "admin@jobsprint.com") as [u0|] eqn:E.
  - split; [exists u0; exact E|]. rewrite E.
    split; [reflexivity|]. split; [reflexivity | discriminate].
  - assert (Hmail : forall row, In row (user_rows m) ->
                      (email (ur_user row) =? "admin@jobsprint.com")%string
                      = false).
    { intros row Hin. unfold get_user_by_email in E.
      destruct (find _ (user_rows m)) eqn:F; [discriminate|].
      exact (find_none _ _ F row Hin). }
    assert (Hfree : existsb
                      (fun row =>
                         (id (ur_user row) =? new_id)%string
                         || (email (ur_user row)
                             =? "admin@jobsprint.com")%string)
                      (user_rows m) = false).
    { match goal with |- ?lhs = false => destruct lhs eqn:Ex end;
        [|reflexivity].
      apply existsb_exists in Ex as (row & Hin & Hrow).
      rewrite (Hmail row Hin), orb_false_r in Hrow.
      assert (existsb (fun r => (id (ur_user r) =? new_id)%string)
                      (user_rows m) = true)
        by (apply existsb_exists; exists row; auto).
      congruence. }
    pose proof (create_user_rows m new_id prefs_id now "admin@jobsprint.com"
                  "System Administrator" "admin123" true Hfree) as Hrows.
    set (m2 := fst (create_user sha256_hex m new_id prefs_id now
                                "admin@jobsprint.com" "System Administrator"
                                "admin123" true)) in *.
    assert (Hfound : get_user_by_email m2 "admin@jobsprint.com"
                     = Some {| id := new_id; email := "admin@jobsprint.com";
                               name := "System Administrator";
                               is_active := true; is_admin := true |}).
    { unfold get_user_by_email. rewrite Hrows, find_snoc.
      unfold get_user_by_email in E.
      destruct (find _ (user_rows m)); [discriminate | reflexivity]. }
    split; [eexists; exact Hfound|]. rewrite Hfound.
    split; [reflexivity|]. split; [intros H; now contradiction H|].
    intros _. unfold authenticate_user. rewrite Hrows, find_snoc.
    rewrite find_none_of_existsb.
    + cbn. now rewrite String.eqb_refl.
    + match goal with |- ?lhs = false => destruct lhs eqn:Ex end;
        [|reflexivity].
      apply existsb_exists in Ex as (row & Hin & Hrow).
      rewrite (Hmail row Hin) in Hrow. discriminate.
Qed.

End PasswordFacts.

Lemma NoDup_map_filter (A B : Type) (f : A -> B) (t : A -> bool)
      (l : list A) :
  NoDup (map f l) -> NoDup (map f (filter t l)).
Proof.
  induction l as [|a l IH]; cbn; intros Hnd; [constructor|].
  inversion Hnd as [|? ? Ha Hl]; subst.
  destruct (t a); cbn; [|now apply IH].
  constructor; [|now apply IH].
  intros Hin. apply Ha. apply in_map_iff in Hin as (x & Hx & Hin).
  apply filter_In in Hin as [Hin _]. rewrite <- Hx. now apply in_map.
Qed.

(** X18. The email stays a key of the table of users: when no two users
    share an email, none do after [create_user] (which refuses a taken
    email), after [update_user] (which cannot write the email) or after
    [delete_user]. *)
Theorem emails_stay_unique (sha256_hex : string -> string) (m : Manager)
        (new_id prefs_id now mail name_ password uid : string) (admin : bool)
        (u : UserUpdate) :
  emails_unique m ->
  emails_unique
    (fst (create_user sha256_hex m new_id prefs_id now mail name_ password
                      admin))
  /\ emails_unique (fst (update_user m uid u))
  /\ emails_unique (fst (delete_user m uid)).
Proof.
  unfold emails_unique. intros Hnd. split; [|split].
  - unfold create_user.
    destruct (existsb _ (user_rows m)) eqn:E; [exact Hnd|].
    match goal with
    | |- context [create_default_preferences ?m1 prefs_id now new_id] =>
        pose proof (create_default_preferences_users m1 prefs_id now new_id)
          as Husers;
        destruct (create_default_preferences m1 prefs_id now new_id)
          as [m2 ok]
    end.
    cbn [fst] in *. rewrite Husers. cbn [user_rows].
    rewrite map_app. cbn [map ur_user email].
    apply PersistMore.NoDup_snoc; [exact Hnd|].
    intros Hin. apply in_map_iff in Hin as (row & Heq & Hrow).
    assert (existsb (fun r => (id (ur_user r) =? new_id)%string
                              || (email (ur_user r) =? mail)%string)
                    (user_rows m) = true).
    { apply existsb_exists. exists row. split; [exact Hrow|].
      apply orb_true_iff. right. now apply String.eqb_eq. }
    congruence.
  - unfold update_user. destruct (no_user_update u); [exact Hnd|].
    cbn [fst user_rows]. rewrite map_map.
    erewrite map_ext; [exact Hnd|].
    intros row. destruct (id (ur_user row) =? uid)%string; reflexivity.
  - unfold delete_user. cbn [fst user_rows]. now apply NoDup_map_filter.
Qed.

(** ** Users the engine passes over *)

Lemma schedule_loop_users (py_hash : string -> Z) (d : Database) (now : Z)
      (us : list User) :
  forall registered j,
    In j (fst (schedule_loop py_hash d now us registered)) ->
    In j registered \/ exists u, In u us /\ sj_user_id j = id u.
Proof.
  induction us as [|u us IH]; intros registered j; cbn [schedule_loop].
  - intros H. now left.
  - destruct (Store.get_user_preferences d (id u)) as [p|].
    + destruct (search_frequency_minutes p =? 0); [intros H; now left|].
      intros H. destruct (IH _ _ H) as [Hin|(u' & Hu' & Hj)].
      * apply in_app_or in Hin as [Hin|[<-|[]]]; [now left|].
        right. exists u. split; [now left | reflexivity].
      * right. exists u'. split; [now right | exact Hj].
    + intros H. destruct (IH _ _ H) as [Hin|(u' & Hu' & Hj)]; [now left|].
      right. exists u'. split; [now right | exact Hj].
Qed.

(** A user that is absent or inactive cannot log in, gets no cycle and no
    job in the schedule. *)
Lemma inactive_or_absent_is_passed_over (m : Manager) (uid : string)
      (d : Database) :
  inactive_or_absent m uid ->
  (forall sha256_hex mail password user,
      authenticate_user sha256_hex m mail password = Some user ->
      id user <> uid)
  /\ (forall str_contains_nocase smtp_accepts scrape e clk,
        db e = database_of m d ->
        search_jobs_for_user str_contains_nocase smtp_accepts scrape
                             e uid clk = e)
  /\ (forall py_hash e clock j,
        db e = database_of m d ->
        In j (schedule_jobs (fst (schedule_user_searches py_hash e clock))) ->
        In j (schedule_jobs e) \/ sj_user_id j <> uid).
Proof.
  intros Hout. split; [|split].
  - intros sha mail pw user Hauth Hid. unfold authenticate_user in Hauth.
    destruct (find _ (user_rows m)) as [row|] eqn:F; [|discriminate].
    injection Hauth as <-. apply find_some in F as [Hin Hp].
    apply andb_true_iff in Hp as [_ Hactive].
    rewrite (Hout row Hin Hid) in Hactive. discriminate.
  - intros rx smtp scrape e clk Hdb. unfold search_jobs_for_user.
    rewrite Hdb. destruct (lookups_of_database_of m d uid) as [-> _].
    unfold get_user_by_id.
    destruct (find _ (user_rows m)) as [row|] eqn:F; [|reflexivity].
    cbn [option_map]. apply find_some in F as [Hin Hid].
    apply String.eqb_eq in Hid. now rewrite (Hout row Hin Hid).
  - intros h e clock j Hdb. unfold schedule_user_searches, datetime_now.
    rewrite Hdb.
    destruct (schedule_loop h (database_of m d) clock _ (schedule_jobs e))
      as [js raised] eqn:Eloop.
    cbn [fst schedule_jobs set_schedule]. intros Hj.
    pose proof (@schedule_loop_users h (database_of m d) clock
                  (filter is_active
                          (Store.get_all_users (database_of m d)))
                  (schedule_jobs e) j) as Hloop.
    rewrite Eloop in Hloop. destruct (Hloop Hj) as [H|(u & Hu & Hju)];
      [now left|].
    right. intros Huid. apply filter_In in Hu as [Hu Hactive].
    cbn in Hu. apply in_map_iff in Hu as (row & <- & Hrow).
    rewrite (Hout row Hrow) in Hactive; [discriminate | congruence].
Qed.

(** X19. Deactivating a user takes it out of everything: after
    [update_user] with [is_active] set to false, no email and password log
    the user in, a cycle for the user returns the engine as it is (no call
    of the gateway, no search), and [schedule_user_searches] registers no
    job for it. *)
Theorem deactivated_user_is_passed_over (m : Manager) (uid : string)
        (u : UserUpdate) (d : Database) :
  upd_is_active u = Some false ->
  (forall sha256_hex mail password user,
      authenticate_user sha256_hex (fst (update_user m uid u)) mail password
      = Some user ->
      id user <> uid)
  /\ (forall str_contains_nocase smtp_accepts scrape e clk,
        db e = database_of (fst (update_user m uid u)) d ->
        search_jobs_for_user str_contains_nocase smtp_accepts scrape
                             e uid clk = e)
  /\ (forall py_hash e clock j,
        db e = database_of (fst (update_user m uid u)) d ->
        In j (schedule_jobs (fst (schedule_user_searches py_hash e clock))) ->
        In j (schedule_jobs e) \/ sj_user_id j <> uid).
Proof.
  intros Hoff. apply inactive_or_absent_is_passed_over.
  intros row Hin Hid. unfold update_user in Hin.
  replace (no_user_update u) with false in Hin
    by (unfold no_user_update; rewrite Hoff;
        destruct (upd_name u); reflexivity).
  cbn [fst user_rows] in Hin. apply in_map_iff in Hin as (row0 & <- & _).
  destruct (id (ur_user row0) =? uid)%string eqn:E.
  - cbn. now rewrite Hoff.
  - apply String.eqb_neq in E. contradiction.
Qed.

(** X20. Deleting a user removes its row and nothing else: [delete_user]
    answers whether the user was there; afterwards the user is not found by
    identifier, cannot log in, gets no cycle and no job in the schedule, as
    for a deactivated user; the rows of [user_preferences] are all still
    there, the user's own included, and the other users are found as
    before. *)
Theorem deleted_user_is_gone_preferences_stay (m : Manager) (uid : string)
        (d : Database) :
  (snd (delete_user m uid) = true <-> get_user_by_id m uid <> None)
  /\ get_user_by_id (fst (delete_user m uid)) uid = None
  /\ (forall uid', uid' <> uid ->
                   get_user_by_id (fst (delete_user m uid)) uid'
                   = get_user_by_id m uid')
  /\ prefs_rows (fst (delete_user m uid)) = prefs_rows m
  /\ get_user_preferences (fst (delete_user m uid)) uid
     = get_user_preferences m uid
  /\ (forall sha256_hex mail password user,
        authenticate_user sha256_hex (fst (delete_user m uid)) mail password
        = Some user ->
        id user <> uid)
  /\ (forall str_contains_nocase smtp_accepts scrape e clk,
        db e = database_of (fst (delete_user m uid)) d ->
        search_jobs_for_user str_contains_nocase smtp_accepts scrape
                             e uid clk = e).
Proof.
  assert (Hout : inactive_or_absent (fst (delete_user m uid)) uid).
  { intros row Hin Hid. cbn in Hin. apply filter_In in Hin as [_ Hne].
    apply negb_true_iff in Hne. apply String.eqb_neq in Hne.
    contradiction. }
  destruct (@inactive_or_absent_is_passed_over _ uid d Hout)
    as (Hauth & Hcycle & _).
  split; [|split; [|split; [|split; [reflexivity|split;
    [reflexivity|split; [exact Hauth | exact Hcycle]]]]]].
  - cbn [snd delete_user]. unfold get_user_by_id.
    destruct (find (fun row => (id (ur_user row) =? uid)%string)
                   (user_rows m)) as [row|] eqn:F.
    + apply find_some in F as [Hin Hid]. split; [discriminate|].
      intros _. apply existsb_exists. exists row. split; assumption.
    + split; [|intros H; now contradiction H].
      intros Hex. apply existsb_exists in Hex as (row & Hin & Hid).
      pose proof (find_none _ _ F row Hin) as Hn. cbn beta in Hn.
      congruence.
  - unfold get_user_by_id.
    destruct (find _ (user_rows (fst (delete_user m uid)))) as [row|] eqn:F;
      [|reflexivity].
    apply find_some in F as [Hin Hid]. apply String.eqb_eq in Hid.
    pose proof (Hout row Hin Hid) as Hoff.
    cbn in Hin. apply filter_In in Hin as [_ Hne].
    apply negb_true_iff in Hne. apply String.eqb_neq in Hne. contradiction.
  - intros uid' Hne. unfold get_user_by_id. cbn [fst delete_user user_rows].
    f_equal. induction (user_rows m) as [|row rows IH]; [reflexivity|].
    cbn [filter find].
    destruct (id (ur_user row) =? uid)%string eqn:E; cbn [negb find].
    + apply String.eqb_eq in E.
      replace (id (ur_user row) =? uid')%string with false
        by (symmetry; apply String.eqb_neq; congruence).
      exact IH.
    + destruct (id (ur_user row) =? uid')%string; [reflexivity | exact IH].
Qed.

(** ** The columns read by position *)

Lemma migration_defaults_updated (u : PrefsUpdate) (now : string)
      (row : PrefsRow) :
  migration_defaults row -> migration_defaults (apply_prefs_update u now row).
Proof. intros H. exact H. Qed.

(** X22. The mode flags that are read are not the stored ones. The two
    stored flags (columns 17 and 18) are never read: whatever they hold,
    [get_user_preferences] builds the same object. What it reads as the
    flags are the texts of the columns [work_type] and [country_focus]. No
    function of the manager writes the five columns of the migrations, so
    they keep their defaults through [create_user],
    [update_user_preferences], [update_user] and [delete_user]; and while
    they do, every preferences object read has both mode flags true, so a
    cycle searches with the time filter "r300" whatever was stored. For the
    row of [create_default_preferences] the time filter and the work type
    read are the time of creation. *)
Theorem mode_flags_read_from_text_columns (sha256_hex : string -> string)
        (m : Manager)
        (new_id prefs_id now mail name_ password uid : string)
        (admin : bool) (pu : PrefsUpdate) (uu : UserUpdate) :
  columns_at_defaults m ->
  columns_at_defaults
    (fst (create_user sha256_hex m new_id prefs_id now mail name_ password
                      admin))
  /\ columns_at_defaults (fst (update_user_preferences m uid pu now))
  /\ columns_at_defaults (fst (update_user m uid uu))
  /\ columns_at_defaults (fst (delete_user m uid))
  /\ (forall uid' p,
        get_user_preferences m uid' = Some p ->
        ultra_recent_mode p = true
        /\ first_applicant_mode p = true
        /\ effective_time_filter p = "r300")
  /\ (forall row ultra first,
        preferences_of_row (with_mode_flags row ultra first)
        = preferences_of_row row)
  /\ (PyStr.truthy now = true ->
      time_filter (preferences_of_row (default_prefs_row prefs_id now new_id))
      = now
      /\ work_type (preferences_of_row
                      (default_prefs_row prefs_id now new_id))
         = now).
Proof.
  unfold columns_at_defaults. intros Hdef.
  split; [|split; [|split; [|split; [exact Hdef|split;
    [|split; [reflexivity|]]]]]].
  - unfold create_user. destruct (existsb _ (user_rows m)); [exact Hdef|].
    unfold create_default_preferences. cbn [prefs_rows].
    destruct (existsb _ (prefs_rows m)); cbn [fst prefs_rows];
      [exact Hdef|].
    apply Forall_app. split; [exact Hdef|].
    constructor; [|constructor]. repeat split.
  - unfold update_user_preferences.
    destruct (no_prefs_update pu); [exact Hdef|].
    destruct (negb (prefs_update_binds pu)); [exact Hdef|].
    cbn [fst prefs_rows]. apply Forall_map.
    eapply Forall_impl; [|exact Hdef].
    intros row Hrow. destruct (pr_user_id row =? uid)%string;
      [now apply migration_defaults_updated | exact Hrow].
  - unfold update_user. destruct (no_user_update uu); exact Hdef.
  - intros uid' p Hget. unfold get_user_preferences in Hget.
    destruct (find _ (prefs_rows m)) as [row|] eqn:F; [|discriminate].
    injection Hget as <-. apply find_some in F as [Hin _].
    rewrite Forall_forall in Hdef.
    destruct (Hdef row Hin) as (_ & Hwork & Hcountry & _).
    unfold effective_time_filter, preferences_of_row.
    cbn [ultra_recent_mode first_applicant_mode time_filter].
    rewrite Hwork, Hcountry. repeat split.
  - intros Hnow. unfold preferences_of_row, default_prefs_row, text_or.
    cbn [time_filter work_type pr_created_at pr_updated_at].
    rewrite Hnow. split; reflexivity.
Qed.

End AccountsFacts.

(* ================================================================== *)
(** * The further properties on concrete data *)

Lemma empty_store_wf : Persist.db_wf Cases.empty_store.
Proof. split; intros ? []. Defined.

Lemma empty_store_constraints : Schema.constraints_hold Cases.empty_store.
Proof. repeat split; constructor. Defined.


(** A save of three rows into the empty store. *)
Lemma save_keeps_schema_constraints_witness :
  Schema.constraints_hold Cases.empty_store
  /\ Schema.constraints_hold
       (fst (Persist.save_jobs_for_user Cases.empty_store "u1"
                                        Examples.three_scores)).
Proof.
  split; [exact empty_store_constraints|].
  exact (@PersistMore.save_keeps_schema_constraints
           Cases.empty_store "u1" Examples.three_scores
           empty_store_constraints).
Defined.

(** The same frame saved twice. *)
Lemma saving_seen_postings_creates_nothing_witness :
  Persist.db_wf Cases.empty_store
  /\ (forall r, In r (rows Examples.three_scores) ->
                exists r', In r' (rows Examples.three_scores)
                           /\ job_url r' = job_url r)
  /\ Persist.save_jobs_for_user
       (fst (Persist.save_jobs_for_user Cases.empty_store "u1"
                                        Examples.three_scores))
       "u1" Examples.three_scores
     = (fst (Persist.save_jobs_for_user Cases.empty_store "u1"
                                        Examples.three_scores),
        empty_frame).
Proof.
  assert (Hsame : forall r, In r (rows Examples.three_scores) ->
                    exists r', In r' (rows Examples.three_scores)
                               /\ job_url r' = job_url r)
    by (intros r Hr; exists r; split; [exact Hr | reflexivity]).
  split; [exact empty_store_wf|]. split; [exact Hsame|].
  exact (@PersistMore.saving_seen_postings_creates_nothing
           Cases.empty_store "u1" Examples.three_scores
           Examples.three_scores empty_store_wf Hsame).
Defined.

(** User "u2" saves a posting that user "u1" has stored. *)
Lemma stored_posting_is_linked_not_duplicated_witness :
  Persist.db_wf Cases.shared_store
  /\ Persist.linked Cases.shared_store "u2" Cases.url_2 = false
  /\ exists jid,
      Persist.get_existing_job_id Cases.shared_store Cases.url_2 = Some jid
      /\ jobs (fst (Persist.save_one "u2" Examples.three_scores
                                     (Cases.shared_store, [])
                                     Examples.dated_job))
         = jobs Cases.shared_store.
Proof.
  assert (Hwf : Persist.db_wf Cases.shared_store).
  { split.
    - intros j [<-|[]]. split; [reflexivity | cbn; lia].
    - intros uj [<-|[]]. cbn. lia. }
  assert (Hnot : Persist.linked Cases.shared_store "u2" Cases.url_2 = false)
    by reflexivity.
  split; [exact Hwf|]. split; [exact Hnot|].
  destruct (@PersistMore.stored_posting_is_linked_not_duplicated
              Cases.shared_store "u2" Cases.url_2 Examples.three_scores []
              Examples.dated_job Cases.stored_job Hwf eq_refl
              (or_introl eq_refl) eq_refl eq_refl Hnot)
    as (jid & Hjid & Hjobs & _).
  exists jid. split; [exact Hjid | exact Hjobs].
Defined.

(** A save of three rows, two of them with the same URL: two are new. *)
Lemma returned_rows_are_the_net_new_set_witness :
  Persist.db_wf Cases.empty_store
  /\ Schema.constraints_hold Cases.empty_store
  /\ NoDup (map job_url
                (rows (snd (Persist.save_jobs_for_user
                              Cases.empty_store "u1"
                              Examples.three_scores)))).
Proof.
  split; [exact empty_store_wf|]. split; [exact empty_store_constraints|].
  exact (proj1 (proj2 (@PersistMore.returned_rows_are_the_net_new_set
                         Cases.empty_store "u1" Examples.three_scores
                         empty_store_wf empty_store_constraints))).
Defined.

(** The first cycle of the one-user example sends its one message. *)
Lemma digest_only_for_newly_linked_postings_witness :
  Persist.db_wf (db Examples.start)
  /\ Schema.constraints_hold (db Examples.start)
  /\ (outbox Examples.first_cycle = outbox Examples.start
      \/ exists (user : User) (new : list JobRow),
          Store.get_user_by_id (db Examples.start) "u1" = Some user
          /\ outbox Examples.first_cycle
             = (outbox Examples.start
                ++ [{| recipient := email user;
                       jobs_announced := List.length new |}])%list
          /\ new <> []
          /\ NoDup (map job_url new)
          /\ forall r, In r new ->
                       exists url,
                         Persist.usable_url r = Some url
                         /\ Persist.linked (db Examples.start) "u1" url = false
                         /\ Persist.linked (db Examples.first_cycle) "u1" url
                            = true).
Proof.
  split; [exact empty_store_wf|]. split; [exact empty_store_constraints|].
  exact (@digest_only_for_newly_linked_postings
           Examples.plain_contains_nocase Examples.smtp_up
           (Examples.scrape_from Examples.one_job_server)
           Examples.start "u1" (Examples.still_clock 0)
           empty_store_wf empty_store_constraints).
Defined.

(** The store after the first cycle of the one-user example. *)
Lemma cycle_keeps_store_sound_witness :
  Persist.db_wf (db Examples.start)
  /\ Schema.constraints_hold (db Examples.start)
  /\ Persist.db_wf (db Examples.first_cycle)
  /\ Schema.constraints_hold (db Examples.first_cycle).
Proof.
  split; [exact empty_store_wf|]. split; [exact empty_store_constraints|].
  destruct (@cycle_keeps_store_sound
              Examples.plain_contains_nocase Examples.smtp_up
              (Examples.scrape_from Examples.one_job_server)
              Examples.start "u1" (Examples.still_clock 0)
              empty_store_wf empty_store_constraints) as (H1 & H2 & _).
  split; [exact H1 | exact H2].
Defined.

(** A cycle for a user the store does not know. *)
Lemma cycle_without_grant_changes_nothing_witness :
  acquired (search_jobs_for_user
              Examples.plain_contains_nocase Examples.smtp_up
              (Examples.scrape_from Examples.one_job_server)
              Examples.start "nobody" (Examples.still_clock 0))
  = acquired Examples.start
  /\ last_search_times
       (search_jobs_for_user
          Examples.plain_contains_nocase Examples.smtp_up
          (Examples.scrape_from Examples.one_job_server)
          Examples.start "nobody" (Examples.still_clock 0))
     = last_search_times Examples.start.
Proof.
  assert (H : acquired (search_jobs_for_user
                          Examples.plain_contains_nocase Examples.smtp_up
                          (Examples.scrape_from Examples.one_job_server)
                          Examples.start "nobody" (Examples.still_clock 0))
              = acquired Examples.start) by reflexivity.
  split; [exact H|].
  destruct (@cycle_without_grant_changes_nothing
              Examples.plain_contains_nocase Examples.smtp_up
              (Examples.scrape_from Examples.one_job_server)
              Examples.start "nobody" (Examples.still_clock 0) H)
    as (_ & _ & _ & _ & Hlast & _).
  exact Hlast.
Defined.

Lemma busy_then_empty_quiet : Adapter.quiet_from 3 Examples.busy_then_empty.
Proof.
  intros k start Hk. unfold Examples.busy_then_empty.
  replace (k <? 3)%nat with false by (symmetry; apply Nat.ltb_ge; lia).
  reflexivity.
Defined.

(** Method 1 against a source that answers 429 three times. *)
Lemma method_1_returns_at_most_max_results_witness :
  Adapter.quiet_from 3 Examples.busy_then_empty
  /\ exists (jobs : list JobRow) (gets : nat),
      Adapter.method_1_guest_api (3 + 8) Examples.busy_then_empty 10
      = Some (jobs, gets)
      /\ (List.length jobs <= 10)%nat.
Proof.
  split; [exact busy_then_empty_quiet|].
  destruct (@ScraperFacts.method_1_returns_at_most_max_results
              Examples.busy_then_empty 10 3 busy_then_empty_quiet)
    as (jobs & gets & Hrun & Hlen & _).
  exists jobs, gets. split; [exact Hrun | exact Hlen].
Defined.

(** One posting on the first page, status 500 on the second GET. *)
Lemma failure_on_second_page_keeps_the_first_witness :
  Cases.page_then_error 0%nat 0
  = Adapter.HttpResponse 200 [Some Examples.dated_job]
  /\ (List.length (Scraper.parsed [Some Examples.dated_job]) < 10)%nat
  /\ Scraper.ends_pagination (Cases.page_then_error 1%nat 25) = true
  /\ Adapter.method_1_guest_api 2 Cases.page_then_error 10
     = Some (Scraper.parsed [Some Examples.dated_job], 2%nat).
Proof.
  assert (H1 : Cases.page_then_error 0%nat 0
               = Adapter.HttpResponse 200 [Some Examples.dated_job])
    by reflexivity.
  assert (H2 : (List.length (Scraper.parsed [Some Examples.dated_job])
                < 10)%nat) by (cbn; lia).
  assert (H3 : Scraper.ends_pagination (Cases.page_then_error 1%nat 25)
               = true) by reflexivity.
  split; [exact H1|]. split; [exact H2|]. split; [exact H3|].
  exact (@ScraperFacts.failure_on_second_page_keeps_the_first
           Cases.page_then_error 10 0 (Some Examples.dated_job) []
           H1 H2 H3).
Defined.

(** [scrape_jobs] for four jobs, a busy source and a browser page. *)
Lemma scrape_jobs_unique_and_bounded_witness :
  Adapter.quiet_from 3 Examples.busy_then_empty
  /\ exists (df : DataFrame) (gets : nat),
      Scraper.scrape_jobs (3 + 8) Examples.busy_then_empty
                          Cases.one_element 4
      = Some (df, gets)
      /\ NoDup (map job_url (rows df))
      /\ (df_len df <= 4)%nat.
Proof.
  split; [exact busy_then_empty_quiet|].
  destruct (@ScraperFacts.scrape_jobs_unique_and_bounded
              Examples.busy_then_empty Cases.one_element 4 3
              busy_then_empty_quiet)
    as (df & jobs_1 & gets & _ & Hrun & Hnd & Hlen & _).
  exists df, gets. split; [exact Hrun|]. split; [exact Hnd | exact Hlen].
Defined.

(** A threshold of 0 written for the one account reads back as 65. *)
Lemma update_preferences_round_trip_witness :
  Accounts.get_user_preferences Cases.one_account "id-1"
  = Some (Accounts.preferences_of_row
            (Accounts.default_prefs_row "prefs-1" Cases.new_year "id-1"))
  /\ Accounts.no_prefs_update Cases.threshold_zero = false
  /\ option_map linkedin_quality_threshold
       (Accounts.get_user_preferences
          (fst (Accounts.update_user_preferences Cases.one_account "id-1"
                                                 Cases.threshold_zero
                                                 Cases.next_day))
          "id-1")
     = Some 65.
Proof.
  assert (H1 : Accounts.get_user_preferences Cases.one_account "id-1"
               = Some (Accounts.preferences_of_row
                         (Accounts.default_prefs_row "prefs-1" Cases.new_year
                                                     "id-1")))
    by reflexivity.
  assert (H2 : Accounts.no_prefs_update Cases.threshold_zero = false)
    by reflexivity.
  split; [exact H1|]. split; [exact H2|].
  destruct (@AccountsFacts.update_preferences_round_trip
              Cases.one_account "id-1" Cases.threshold_zero Cases.next_day
              _ H1 H2)
    as (Hfits & _).
  destruct (Hfits eq_refl) as (_ & Hget & _).
  rewrite Hget. reflexivity.
Defined.

(** The first account of an empty table. *)
Lemma create_user_round_trip_witness :
  existsb (fun row => (id (Accounts.ur_user row) =? "id-1")%string
                      || (email (Accounts.ur_user row)
                          =? "ann@example.org")%string)
          (Accounts.user_rows Cases.no_accounts) = false
  /\ Accounts.authenticate_user Cases.toy_sha256 Cases.one_account
                                "ann@example.org" "secret"
     = Some {| id := "id-1"; email := "ann@example.org"; name := "Ann";
               is_active := true; is_admin := false |}.
Proof.
  assert (H : existsb (fun row => (id (Accounts.ur_user row) =? "id-1")%string
                                  || (email (Accounts.ur_user row)
                                      =? "ann@example.org")%string)
                      (Accounts.user_rows Cases.no_accounts) = false)
    by reflexivity.
  split; [exact H|].
  destruct (@AccountsFacts.create_user_round_trip
              Cases.toy_sha256 Cases.no_accounts "id-1" "prefs-1"
              Cases.new_year "ann@example.org" "Ann" "secret" false H)
    as (_ & _ & _ & Hauth & _).
  exact Hauth.
Defined.

(** A second account beside the first. *)
Lemma emails_stay_unique_witness :
  Accounts.emails_unique Cases.one_account
  /\ Accounts.emails_unique
       (fst (Accounts.create_user Cases.toy_sha256 Cases.one_account
                                  "id-2" "prefs-2" Cases.next_day
                                  "bob@example.org" "Bob" "hunter2" false)).
Proof.
  assert (H : Accounts.emails_unique Cases.one_account).
  { unfold Accounts.emails_unique. cbn.
    constructor; [intros []|constructor]. }
  split; [exact H|].
  exact (proj1 (@AccountsFacts.emails_stay_unique
                  Cases.toy_sha256 Cases.one_account "id-2" "prefs-2"
                  Cases.next_day "bob@example.org" "Bob" "hunter2" "id-1"
                  false Cases.switch_off H)).
Defined.

(** The one account switched off: its password no longer logs in. *)
Lemma deactivated_user_is_passed_over_witness :
  Accounts.upd_is_active Cases.switch_off = Some false
  /\ forall (mail password : string) (user : User),
      Accounts.authenticate_user
        Cases.toy_sha256
        (fst (Accounts.update_user Cases.one_account "id-1"
                                   Cases.switch_off))
        mail password = Some user ->
      id user <> "id-1".
Proof.
  assert (H : Accounts.upd_is_active Cases.switch_off = Some false)
    by reflexivity.
  split; [exact H|].
  exact (proj1 (@AccountsFacts.deactivated_user_is_passed_over
                  Cases.one_account "id-1" Cases.switch_off
                  Cases.empty_store H) Cases.toy_sha256).
Defined.

(** The first manager built on an empty database, and the second. *)
Lemma default_admin_created_once_witness :
  existsb (fun row => (id (Accounts.ur_user row) =? "id-0")%string)
          (Accounts.user_rows Cases.no_accounts) = false
  /\ Accounts.create_default_admin
       Cases.toy_sha256
       (Accounts.create_default_admin Cases.toy_sha256 Cases.no_accounts
                                      "id-0" "prefs-0" Cases.new_year)
       "id-9" "prefs-9" Cases.next_day
     = Accounts.create_default_admin Cases.toy_sha256 Cases.no_accounts
                                     "id-0" "prefs-0" Cases.new_year.
Proof.
  assert (H : existsb (fun row => (id (Accounts.ur_user row) =? "id-0")%string)
                      (Accounts.user_rows Cases.no_accounts) = false)
    by reflexivity.
  split; [exact H|].
  destruct (@AccountsFacts.default_admin_created_once
              Cases.toy_sha256 Cases.no_accounts "id-0" "prefs-0"
              Cases.new_year "id-9" "prefs-9" Cases.next_day H)
    as (_ & Hagain & _).
  exact Hagain.
Defined.

(** The preferences of the one account are read with both flags up. *)
Lemma mode_flags_read_from_text_columns_witness :
  Accounts.columns_at_defaults Cases.one_account
  /\ option_map first_applicant_mode
       (Accounts.get_user_preferences Cases.one_account "id-1")
     = Some true
  /\ option_map effective_time_filter
       (Accounts.get_user_preferences Cases.one_account "id-1")
     = Some "r300".
Proof.
  assert (H : Accounts.columns_at_defaults Cases.one_account).
  { constructor; [|constructor]. repeat split. }
  split; [exact H|].
  destruct (@AccountsFacts.mode_flags_read_from_text_columns
              Cases.toy_sha256 Cases.one_account "id-2" "prefs-2"
              Cases.next_day "bob@example.org" "Bob" "hunter2" "id-1" false
              Cases.threshold_zero Cases.switch_off H)
    as (_ & _ & _ & _ & Hread & _).
  destruct (Accounts.get_user_preferences Cases.one_account "id-1")
    as [p|] eqn:E; [|discriminate E].
  destruct (Hread "id-1" p E) as (_ & Hfirst & Hfilter).
  cbn [option_map]. rewrite Hfirst, Hfilter. split; reflexivity.
Defined.

(* ================================================================== *)
(** * Preferences without LinkedIn *)

Section DisabledSite.

Variable str_contains_nocase : string -> string -> bool.
Variable smtp_accepts : Email -> bool.
Variable scrape :
  string -> string -> nat -> string -> string -> list JobRow * nat.

Lemma location_loop_disabled (p : UserPreferences) (kw : string)
      (now_at : nat -> nat -> Z) (locs : list string) :
  existsb (String.eqb "linkedin") (sites_enabled p) = false ->
  forall l,
    location_loop str_contains_nocase scrape p kw now_at l locs
    = ([], 0%nat).
Proof.
  intros Hoff. induction locs as [|loc locs IH]; intros l; [reflexivity|].
  cbn [location_loop]. unfold search_pair. rewrite Hoff, IH. reflexivity.
Qed.

Lemma keyword_loop_disabled (p : UserPreferences)
      (now_at : nat -> nat -> nat -> Z) (kws : list string) :
  existsb (String.eqb "linkedin") (sites_enabled p) = false ->
  forall k,
    keyword_loop str_contains_nocase scrape p now_at k kws = ([], 0%nat).
Proof.
  intros Hoff. induction kws as [|kw kws IH]; intros k; [reflexivity|].
  cbn [keyword_loop]. rewrite (location_loop_disabled _ _ _ _ Hoff), IH.
  reflexivity.
Qed.

(** X21. A user whose [sites_enabled] does not hold "linkedin" is never
    searched for, yet the cycle is counted: for an active user with such
    preferences the cycle sends no GET, leaves the store and the outbox as
    they are and does not call the notification; and when the gateway
    grants it, the grant is used up (its timestamp is recorded) and the
    cycle is entered in [last_search_times]. *)
Theorem cycle_without_linkedin_searches_nothing (e : Engine) (uid : string)
        (clk : CycleClock) (user : User) (p : UserPreferences) :
  Store.get_user_by_id (db e) uid = Some user ->
  is_active user = true ->
  Store.get_user_preferences (db e) uid = Some p ->
  existsb (String.eqb "linkedin") (sites_enabled p) = false ->
  let e' := search_jobs_for_user str_contains_nocase smtp_accepts scrape
                                 e uid clk in
  http_gets e' = http_gets e
  /\ db e' = db e
  /\ outbox e' = outbox e
  /\ notify_calls e' = notify_calls e
  /\ (fst (Gateway.check_rate_limit e (t_rate_limit clk)) = true ->
      acquired e' = S (acquired e)
      /\ In (t_rate_limit clk) (linkedin_last_requests e')
      /\ last_search_times e' = (uid, t_done clk) :: last_search_times e).
Proof.
  intros Hu Hactive Hp Hoff e'. unfold e', search_jobs_for_user.
  rewrite Hu, Hactive, Hp. cbn [negb].
  unfold Gateway.check_rate_limit, datetime_now. cbv zeta.
  destruct (linkedin_requests_per_minute e <=? _)%nat; cbn [negb fst].
  - cbn. repeat split; discriminate.
  - unfold search_after_gate. rewrite (keyword_loop_disabled _ _ _ Hoff).
    cbn. repeat split; try lia.
    apply in_or_app. right. now left.
Qed.

End DisabledSite.

(** A user with only "indeed" enabled. *)
Lemma cycle_without_linkedin_searches_nothing_witness :
  Store.get_user_by_id (db Cases.indeed_only_engine) "u1"
  = Some (Examples.user "u1" "u1@example.org")
  /\ Store.get_user_preferences (db Cases.indeed_only_engine) "u1"
     = Some Cases.indeed_only_prefs
  /\ existsb (String.eqb "linkedin") (sites_enabled Cases.indeed_only_prefs)
     = false
  /\ http_gets (Examples.run_cycle Examples.smtp_up Examples.one_job_server
                                   Cases.indeed_only_engine 0)
     = http_gets Cases.indeed_only_engine.
Proof.
  assert (H1 : Store.get_user_by_id (db Cases.indeed_only_engine) "u1"
               = Some (Examples.user "u1" "u1@example.org")) by reflexivity.
  assert (H2 : Store.get_user_preferences (db Cases.indeed_only_engine) "u1"
               = Some Cases.indeed_only_prefs) by reflexivity.
  assert (H3 : existsb (String.eqb "linkedin")
                       (sites_enabled Cases.indeed_only_prefs) = false)
    by reflexivity.
  split; [exact H1|]. split; [exact H2|]. split; [exact H3|].
  exact (proj1 (@cycle_without_linkedin_searches_nothing
                  Examples.plain_contains_nocase Examples.smtp_up
                  (Examples.scrape_from Examples.one_job_server)
                  Cases.indeed_only_engine "u1" (Examples.still_clock 0)
                  (Examples.user "u1" "u1@example.org")
                  Cases.indeed_only_prefs H1 eq_refl H2 H3)).
Defined.
